(** * The ETL pipeline of the UBA print-shop analysis package

    A shallow embedding of [src/src/etl.py] (class [DataProcessor] and the
    script's [main]), the properties its specification states about it, and
    further properties of the code itself.

    The program is a pandas script.  What is embedded:

    - a [Series] is a typed column, with the dtypes the program meets:
      [int64], [float64] (missing = NaN), [object] holding strings
      (missing = [None]), [datetime64[ns]] (nanoseconds since the epoch,
      missing = NaT) and [category] (what [pd.cut] returns);
    - a [DataFrame] is an ordered list of named columns; [df[c]] looks a
      column up (KeyError when absent) and [df[c] = s] replaces the column
      in place or appends it;
    - data frames are Python objects: they live in a heap and the program
      holds references, so that [df.copy()] and the assignments that
      follow it are told apart from assignments to the caller's frame;
    - the file system and NumPy's global generator are part of the world;
    - exceptions are values; a statement that raises leaves the world as it
      was when it raised.

    Names: the specification renames the program's Spanish identifiers.
    [request_timestamp] is [fecha_solicitud], [page_count] is
    [cantidad_paginas], [estimated_cost] is [costo_estimado]; the derived
    columns [month], [weekday_name], [hour_of_day], [cost_per_page] and
    [size_category] are [mes], [dia_semana], [hora], [costo_por_pagina] and
    [categoria_tamano]; Small, Medium, Large are the labels [Pequeño],
    [Mediano], [Grande], and the sentinel "Unknown" is ['Desconocido'].

    Floating point is IEEE binary64, as Rocq's primitive floats.
    Logging is not modelled; what [main] prints is. *)

From Stdlib Require Import ZArith Floats String Ascii List Lia Bool.
From stdpp Require Import base option list strings gmap pretty.

Local Open Scope string_scope.
Local Open Scope list_scope.
Local Open Scope Z_scope.
(* Decimal literals such as 0.2 denote the nearest binary64 value, as in Python. *)
Set Warnings "-inexact-float".

(** ** Floats *)

(** [int64 -> float64], rounding to nearest even as the hardware does. *)
Definition float_of_Z (z : Z) : float :=
  SF2Prim (binary_normalize prec emax z 0 false).

Definition isnan (x : float) : bool := PrimFloat.is_nan x.
Definition isinf (x : float) : bool := PrimFloat.is_infinity x.

(** Insertion sort with [<=] on floats; the program only sorts lists from
    which NaN has been dropped. *)
Fixpoint float_insert (x : float) (l : list float) : list float :=
  match l with
  | [] => [x]
  | y :: l' => if PrimFloat.leb x y then x :: l else y :: float_insert x l'
  end.

Definition float_sort (l : list float) : list float :=
  foldr float_insert [] l.

(** The median of a list without NaN: the middle element of the sorted
    list, or the mean of the two middle elements; NaN for the empty list. *)
Definition median_of (l : list float) : float :=
  let s := float_sort l in
  let n := length s in
  if (n =? 0)%nat then nan
  else if Nat.odd n then nth (n / 2)%nat s nan
  else PrimFloat.div (PrimFloat.add (nth (n / 2 - 1)%nat s nan) (nth (n / 2)%nat s nan)) 2.

Definition dropna (l : list float) : list float :=
  filter (fun x => negb (isnan x) = true) l.

(** ** Series *)

Inductive Series : Type :=
| Int64 (xs : list Z)
| Float64 (xs : list float)
| Object (xs : list (option string))
| Datetime64 (xs : list (option Z))
| Category (cats : list string) (xs : list (option string)).

Definition series_len (s : Series) : nat :=
  match s with
  | Int64 xs => length xs
  | Float64 xs => length xs
  | Object xs => length xs
  | Datetime64 xs => length xs
  | Category _ xs => length xs
  end.

(** One cell as a Python value; [NA] is the missing value of the dtype. *)
Inductive value : Type :=
| VInt (z : Z)
| VFloat (x : float)
| VStr (s : string)
| VTime (ns : Z)
| NA.

Definition value_of_float (x : float) : value := if isnan x then NA else VFloat x.
Definition value_of_str (o : option string) : value := from_option VStr NA o.
Definition value_of_time (o : option Z) : value := from_option VTime NA o.

Definition series_cells (s : Series) : list value :=
  match s with
  | Int64 xs => VInt <$> xs
  | Float64 xs => value_of_float <$> xs
  | Object xs => value_of_str <$> xs
  | Datetime64 xs => value_of_time <$> xs
  | Category _ xs => value_of_str <$> xs
  end.

Definition isna {A : Type} (o : option A) : bool :=
  match o with None => true | Some _ => false end.

(** [s.isnull().any()] *)
Definition isnull_any (s : Series) : bool :=
  match s with
  | Int64 _ => false
  | Float64 xs => existsb isnan xs
  | Object xs => existsb isna xs
  | Datetime64 xs => existsb isna xs
  | Category _ xs => existsb isna xs
  end.

(** [s.median()]: NaN is skipped; integers are averaged as floats. *)
Definition series_median (s : Series) : float :=
  match s with
  | Int64 xs => median_of (float_of_Z <$> xs)
  | Float64 xs => median_of (dropna xs)
  | _ => nan
  end.

(** [s.fillna(v)] with a float [v], as the program calls it on the numeric
    columns: only a [float64] column has cells to fill. *)
Definition fillna_float (s : Series) (v : float) : Series :=
  match s with
  | Float64 xs => Float64 ((fun x => if isnan x then v else x) <$> xs)
  | _ => s
  end.

(** [s.fillna(v)] with a string [v], as the program calls it on the
    [object] columns. *)
Definition fillna_str (s : Series) (v : string) : Series :=
  match s with
  | Object xs => Object ((fun o => Some (default v o)) <$> xs)
  | _ => s
  end.

Definition is_number (s : Series) : bool :=
  match s with Int64 _ | Float64 _ => true | _ => false end.

Definition is_object (s : Series) : bool :=
  match s with Object _ => true | _ => false end.

(** ** The calendar of [datetime64[ns]] *)

Definition ns_per_hour : Z := 3600000000000.
Definition ns_per_day : Z := 24 * ns_per_hour.

(** Days since 1970-01-01 to (year, month, day) in the proleptic Gregorian
    calendar. *)
Definition civil_from_days (z : Z) : Z * Z * Z :=
  let z := z + 719468 in
  let era := z / 146097 in
  let doe := z - era * 146097 in
  let yoe := (doe - doe / 1460 + doe / 36524 - doe / 146096) / 365 in
  let doy := doe - (365 * yoe + yoe / 4 - yoe / 100) in
  let mp := (5 * doy + 2) / 153 in
  let d := doy - (153 * mp + 2) / 5 + 1 in
  let m := if mp <? 10 then mp + 3 else mp - 9 in
  (yoe + era * 400 + (if m <=? 2 then 1 else 0), m, d).

Definition days_from_civil (y m d : Z) : Z :=
  let y := if m <=? 2 then y - 1 else y in
  let era := y / 400 in
  let yoe := y - era * 400 in
  let doy := (153 * (if 2 <? m then m - 3 else m + 9) + 2) / 5 + d - 1 in
  let doe := yoe * 365 + yoe / 4 - yoe / 100 + doy in
  era * 146097 + doe - 719468.

Definition ts_month (ns : Z) : Z := (civil_from_days (ns / ns_per_day)).1.2.
Definition ts_hour (ns : Z) : Z := (ns `mod` ns_per_day) / ns_per_hour.

Definition weekday_names : list string :=
  ["Monday"; "Tuesday"; "Wednesday"; "Thursday"; "Friday"; "Saturday"; "Sunday"].

Definition ts_day_name (ns : Z) : string :=
  nth (Z.to_nat ((ns / ns_per_day + 3) `mod` 7)) weekday_names "".

(** [s.dt.month] and [s.dt.hour]: an integer column, or a [float64] column
    with NaN at the rows of NaT as soon as one timestamp is missing. *)
Definition dt_field (f : Z -> Z) (ts : list (option Z)) : Series :=
  if existsb isna ts
  then Float64 ((fun o => from_option (fun ns => float_of_Z (f ns)) nan o) <$> ts)
  else Int64 ((fun o => from_option f 0 o) <$> ts).

Definition dt_month : list (option Z) -> Series := dt_field ts_month.
Definition dt_hour : list (option Z) -> Series := dt_field ts_hour.

(** [s.dt.day_name()] *)
Definition dt_day_name (ts : list (option Z)) : Series :=
  Object (option_map ts_day_name <$> ts).

(** [pd.date_range(start, periods=n, freq='H')] *)
Definition date_range_hourly (start : Z) (n : nat) : list (option Z) :=
  (fun i => Some (start + Z.of_nat i * ns_per_hour)) <$> seq 0 n.

(** ** Arithmetic and binning of columns *)

(** The float64 view numeric columns take in arithmetic. *)
Definition as_floats (s : Series) : option (list float) :=
  match s with
  | Int64 xs => Some (float_of_Z <$> xs)
  | Float64 xs => Some xs
  | _ => None
  end.

(** [s.replace([np.inf, -np.inf], 0)] on a [float64] column. *)
Definition replace_inf (xs : list float) : list float :=
  (fun x => if isinf x then 0%float else x) <$> xs.

(** [np.searchsorted(bins, x, side='left')] on sorted bins: the number of
    leading bins that are strictly below [x]. *)
Fixpoint searchsorted_left {A : Type} (lt : A -> A -> bool) (bins : list A) (x : A) : nat :=
  match bins with
  | [] => 0
  | b :: bins' => if lt b x then S (searchsorted_left lt bins' x) else 0
  end.

(** The label of [pd.cut] (right-inclusive bins) from the insertion index:
    index 0 (at or below the first edge) and index [len(bins)] (above the
    last edge) are missing. *)
Definition cut_label (nbins : nat) (labels : list string) (i : nat) : option string :=
  if (i =? 0)%nat || (i =? nbins)%nat then None else labels !! (i - 1)%nat.

Definition cut_Z (bins : list Z) (labels : list string) (z : Z) : option string :=
  cut_label (length bins) labels (searchsorted_left Z.ltb bins z).

Definition cut_float (bins : list Z) (labels : list string) (x : float) : option string :=
  if isnan x then None
  else cut_label (length bins) labels
         (searchsorted_left PrimFloat.ltb (float_of_Z <$> bins) x).

(** ** Exceptions and the state-and-exception monad *)

Inductive exn : Type :=
| KeyError (key : string)
| TypeError (msg : string)
| ValueError (msg : string)
| FileNotFoundError (path : string)
| IsADirectoryError (path : string)
| NotADirectoryError (path : string)
| OtherError (cls msg : string)   (* what a library call may raise besides *)
| Dangling (r : nat).             (* a reference outside the heap: never built by the program *)

(** [type(e).__name__] *)
Definition class_name (e : exn) : string :=
  match e with
  | KeyError _ => "KeyError"
  | TypeError _ => "TypeError"
  | ValueError _ => "ValueError"
  | FileNotFoundError _ => "FileNotFoundError"
  | IsADirectoryError _ => "IsADirectoryError"
  | NotADirectoryError _ => "NotADirectoryError"
  | OtherError cls _ => cls
  | Dangling _ => "ReferenceError"
  end.

Inductive result (A : Type) : Type :=
| Ok (a : A)
| Raise (e : exn).
Arguments Ok {A} a.
Arguments Raise {A} e.

Definition is_ok {A : Type} (r : result A) : bool :=
  match r with Ok _ => true | Raise _ => false end.

(** A statement over a state [S]: the new state, and a value or the
    exception raised. *)
Definition SE (S A : Type) : Type := S -> S * result A.

#[global] Instance SE_ret (S : Type) : MRet (SE S) :=
  fun A a s => (s, Ok a).

#[global] Instance SE_bind (S : Type) : MBind (SE S) :=
  fun A B f m s =>
    match m s with
    | (s', Ok a) => f a s'
    | (s', Raise e) => (s', Raise e)
    end.

Definition raise {S A : Type} (e : exn) : SE S A := fun s => (s, Raise e).

(** [for x in l: body(x)] *)
Fixpoint for_each {S A : Type} (l : list A) (body : A -> SE S unit) : SE S unit :=
  match l with
  | [] => mret tt
  | x :: l' => body x ;; for_each l' body
  end.

(** Elementwise conversion that raises at the first cell that fails. *)
Fixpoint result_mapM {A B : Type} (f : A -> result B) (l : list A) : result (list B) :=
  match l with
  | [] => Ok []
  | x :: l' =>
      match f x with
      | Raise e => Raise e
      | Ok y => match result_mapM f l' with
                | Raise e => Raise e
                | Ok ys => Ok (y :: ys)
                end
      end
  end.

(** ** Data frames *)

Definition DataFrame : Type := list (string * Series).

Definition columns (T : DataFrame) : list string := T.*1.

Fixpoint frame_get (c : string) (T : DataFrame) : option Series :=
  match T with
  | [] => None
  | (k, s) :: T' => if String.eqb k c then Some s else frame_get c T'
  end.

Fixpoint frame_set (c : string) (v : Series) (T : DataFrame) : DataFrame :=
  match T with
  | [] => [(c, v)]
  | (k, s) :: T' => if String.eqb k c then (k, v) :: T' else (k, s) :: frame_set c v T'
  end.

(** [len(df)] *)
Definition nrows (T : DataFrame) : nat :=
  match T with
  | [] => 0
  | (_, s) :: _ => series_len s
  end.

(** What pandas maintains of every frame the program meets: the column
    names are distinct and the columns have one length. *)
Definition wf_frame (T : DataFrame) : Prop :=
  NoDup (columns T) /\ Forall (fun ks => series_len ks.2 = nrows T) T.

(** [df.select_dtypes(include=[np.number]).columns] and
    [df.select_dtypes(include=['object']).columns] *)
Definition select_dtypes (p : Series -> bool) (T : DataFrame) : list string :=
  (List.filter (fun ks => p ks.2) T).*1.

(** Statements on one frame. *)
Definition F : Type -> Type := SE DataFrame.
#[global] Typeclasses Transparent F.

Definition getitem (c : string) : F Series :=
  fun T => match frame_get c T with
           | Some s => (T, Ok s)
           | None => (T, Raise (KeyError c))
           end.

Definition setitem (c : string) (v : Series) : F unit :=
  fun T => (frame_set c v T, Ok tt).

Definition lift_result {S A : Type} (r : result A) : SE S A := fun s => (s, r).

Definition gets {S A : Type} (f : S -> A) : SE S A := fun s => (s, Ok (f s)).

(** ** The libraries

    What the program takes from pandas, NumPy and the operating system and
    what this development does not define: the text formats (CSV in and
    out, the date strings [pd.to_datetime] accepts) and NumPy's generator.
    Each is a function, as the libraries are deterministic. *)

(** The strings [pd.to_datetime] reads as NaT, besides the empty one. *)
Definition nat_strings : list string := ["NaT"; "nat"; "NAT"; "nan"; "NaN"; "NAN"].

Definition is_null_text (o : option string) : bool :=
  match o with
  | None => true
  | Some str => String.eqb str "" || existsb (String.eqb str) nat_strings
  end.

Class Library : Type := {
  rng_state : Type;
  np_random_seed : Z -> rng_state;
  np_random_choice : list string -> option (list float) -> nat -> rng_state -> list string * rng_state;
  np_random_randint : Z -> Z -> nat -> rng_state -> list Z * rng_state;
  np_random_exponential : float -> nat -> rng_state -> list float * rng_state;
  np_random_uniform : float -> float -> nat -> rng_state -> list float * rng_state;
  (** [pd.read_csv] on the content of a file *)
  pd_read_csv : string -> result DataFrame;
  (** [df.to_csv(index=False)] as text *)
  pd_to_csv : DataFrame -> string;
  (** the format [pd.to_datetime] guesses from one string, if any *)
  guess_datetime_format : string -> option string;
  (** one string read with a format: a timestamp, or an exception when the
      string does not match the format *)
  strptime : string -> string -> result (option Z);
  (** one string parsed on its own, when no format could be guessed: a
      timestamp, NaT, or an exception *)
  parse_datetime : string -> result (option Z);
  (** [pd.to_datetime] on one float that is not NaN *)
  float_to_datetime : float -> result (option Z);
}.

Section Program.
Context {lib : Library}.

(** *** Column operations that go through the libraries *)

Definition iNaT : Z := - 2 ^ 63.

(** One cell of a column of strings, read with [parse]. *)
Definition text_to_datetime (parse : string -> result (option Z)) (o : option string)
    : result (option Z) :=
  match o with
  | Some str => if is_null_text o then Ok None else parse str
  | None => Ok None
  end.

(** [pd.to_datetime] on a column of strings (pandas 2): the format is
    guessed from the first string that is not null, and every string is
    read with that one format, so that a string in another format raises;
    when no format can be guessed, each string is parsed on its own. *)
Definition strings_to_datetime (xs : list (option string)) : result (list (option Z)) :=
  match List.find (fun o => negb (is_null_text o)) xs with
  | Some (Some first) =>
      match guess_datetime_format first with
      | Some fmt => result_mapM (text_to_datetime (strptime fmt)) xs
      | None => result_mapM (text_to_datetime parse_datetime) xs
      end
  | _ => result_mapM (text_to_datetime parse_datetime) xs
  end.

(** [pd.to_datetime(s)] *)
Definition to_datetime (s : Series) : result Series :=
  match s with
  | Datetime64 _ => Ok s
  | Int64 xs => Ok (Datetime64 ((fun z => if z =? iNaT then None else Some z) <$> xs))
  | Float64 xs =>
      match result_mapM (fun x => if isnan x then Ok None else float_to_datetime x) xs with
      | Ok ts => Ok (Datetime64 ts)
      | Raise e => Raise e
      end
  | Object xs | Category _ xs =>
      match strings_to_datetime xs with
      | Ok ts => Ok (Datetime64 ts)
      | Raise e => Raise e
      end
  end.

(** The [.dt] accessor. *)
Definition dt (s : Series) : result (list (option Z)) :=
  match s with
  | Datetime64 ts => Ok ts
  | _ => Raise (OtherError "AttributeError" "Can only use .dt accessor with datetimelike values")
  end.

(** [a / b] on columns: numeric columns divide as float64; a column of
    strings, timestamps or categories raises.  (A column of strings raises
    at its first row: one without rows, which pandas divides to an empty
    column, is not covered.) *)
Definition series_div (a b : Series) : result Series :=
  match as_floats a, as_floats b with
  | Some xs, Some ys => Ok (Float64 (zip_with PrimFloat.div xs ys))
  | _, _ => Raise (TypeError "unsupported operand type(s) for /")
  end.

(** [s.replace([np.inf, -np.inf], 0)] *)
Definition series_replace_inf (s : Series) : Series :=
  match s with
  | Float64 xs => Float64 (replace_inf xs)
  | _ => s
  end.

(** [pd.cut(s, bins=bins, labels=labels)] *)
Definition pd_cut (s : Series) (bins : list Z) (labels : list string) : result Series :=
  match s with
  | Int64 xs => Ok (Category labels (cut_Z bins labels <$> xs))
  | Float64 xs => Ok (Category labels (cut_float bins labels <$> xs))
  | _ => Raise (TypeError "'<' not supported between instances of 'int' and 'str'")
  end.

(** *** [DataProcessor.transform_data], on the copy *)

Definition impute_numeric (col : string) : F unit :=
  s ← getitem col;
  if isnull_any s then
    s1 ← getitem col;
    s2 ← getitem col;
    setitem col (fillna_float s1 (series_median s2))
  else mret tt.

Definition impute_categorical (col : string) : F unit :=
  s ← getitem col;
  if isnull_any s then
    s1 ← getitem col;
    setitem col (fillna_str s1 "Desconocido")
  else mret tt.

(** Step 1 of [transform_data]: the handling of missing values. *)
Definition impute_steps : F unit :=
  numeric_cols ← gets (select_dtypes is_number);
  categorical_cols ← gets (select_dtypes is_object);
  for_each numeric_cols impute_numeric;;
  for_each categorical_cols impute_categorical.

Definition size_bins : list Z := [0; 50; 200; 500].
Definition size_labels : list string := ["Pequeño"; "Mediano"; "Grande"].

(** Steps 2 to 4 of [transform_data]: the derived columns. *)
Definition feature_steps : F unit :=
  (s ← getitem "fecha_solicitud";
   d ← lift_result (to_datetime s);
   setitem "fecha_solicitud" d);;
  (s ← getitem "fecha_solicitud";
   ts ← lift_result (dt s);
   setitem "mes" (dt_month ts));;
  (s ← getitem "fecha_solicitud";
   ts ← lift_result (dt s);
   setitem "dia_semana" (dt_day_name ts));;
  (s ← getitem "fecha_solicitud";
   ts ← lift_result (dt s);
   setitem "hora" (dt_hour ts));;
  (a ← getitem "costo_estimado";
   b ← getitem "cantidad_paginas";
   q ← lift_result (series_div a b);
   setitem "costo_por_pagina" q);;
  (s ← getitem "costo_por_pagina";
   setitem "costo_por_pagina" (series_replace_inf s));;
  (s ← getitem "cantidad_paginas";
   c ← lift_result (pd_cut s size_bins size_labels);
   setitem "categoria_tamano" c).

Definition transform_steps : F unit :=
  impute_steps;; feature_steps.

(** *** The world: heap of frames, file system, generator *)

Record World : Type := mkWorld {
  heap : list DataFrame;
  files : gmap string string;
  dirs : gset string;
  rng : rng_state;
}.

Definition M : Type -> Type := SE World.
#[global] Typeclasses Transparent M.

Definition set_heap (h : list DataFrame) (w : World) : World :=
  mkWorld h (files w) (dirs w) (rng w).
Definition set_files (f : gmap string string) (w : World) : World :=
  mkWorld (heap w) f (dirs w) (rng w).
Definition set_dirs (d : gset string) (w : World) : World :=
  mkWorld (heap w) (files w) d (rng w).
Definition set_rng (g : rng_state) (w : World) : World :=
  mkWorld (heap w) (files w) (dirs w) g.

(** A new frame object. *)
Definition alloc (T : DataFrame) : M nat :=
  fun w => (set_heap (heap w ++ [T]) w, Ok (length (heap w))).

(** [df.copy()] (deep, the default) *)
Definition frame_copy (df : nat) : M nat :=
  fun w => match heap w !! df with
           | Some T => alloc T w
           | None => (w, Raise (Dangling df))
           end.

(** Statements on the frame behind a reference. *)
Definition with_frame {A : Type} (r : nat) (m : F A) : M A :=
  fun w => match heap w !! r with
           | Some T => let '(T', res) := m T in (set_heap (<[r := T']> (heap w)) w, res)
           | None => (w, Raise (Dangling r))
           end.

(** One draw from NumPy's global generator. *)
Definition draw {A : Type} (f : rng_state -> A * rng_state) : M A :=
  fun w => let '(a, g) := f (rng w) in (set_rng g w, Ok a).

(** *** Paths (POSIX) and files *)

Definition is_slash (c : ascii) : bool := Ascii.eqb c "/".

Fixpoint drop_while {A : Type} (f : A -> bool) (l : list A) : list A :=
  match l with
  | [] => []
  | x :: l' => if f x then drop_while f l' else l
  end.

Definition ends_with_slash (p : string) : bool :=
  match last (list_ascii_of_string p) with
  | Some c => is_slash c
  | None => false
  end.

(** [os.path.join(a, b)] *)
Definition path_join (a b : string) : string :=
  if String.prefix "/" b then b
  else if String.eqb a "" || ends_with_slash a then a +:+ b
  else a +:+ "/" +:+ b.

(** [os.path.dirname(p)] *)
Definition dirname (p : string) : string :=
  let head := rev (drop_while (fun c => negb (is_slash c)) (rev (list_ascii_of_string p))) in
  if forallb is_slash head then string_of_list_ascii head
  else string_of_list_ascii (rev (drop_while is_slash (rev head))).

(** The current directory and the root are always there.  The world holds
    each file and each directory under one name, its normalised path from
    the working directory (components separated by single slashes, none
    of them [.] or [..], no trailing slash, no symbolic link): two
    spellings of one path are two names here, so the properties that
    compare paths are stated for normalised paths. *)
Definition is_dir (w : World) (p : string) : bool :=
  forallb is_slash (list_ascii_of_string p) || bool_decide (p ∈ dirs w).

Definition is_file (w : World) (p : string) : bool :=
  negb (isna (files w !! p)).

(** [os.path.exists(p)] *)
Definition path_exists (p : string) : M bool :=
  gets (fun w => is_file w p || is_dir w p).

(** The directories [os.makedirs(p)] creates: [p] and its ancestors. *)
Fixpoint ancestors (fuel : nat) (p : string) : list string :=
  match fuel with
  | O => []
  | S fuel' =>
      if forallb is_slash (list_ascii_of_string p) then []
      else p :: ancestors fuel' (dirname p)
  end.

(** [os.makedirs(p)] *)
Definition makedirs (p : string) : M unit :=
  fun w =>
    let ps := ancestors (String.length p) p in
    if is_file w p || is_dir w p then (w, Raise (OtherError "FileExistsError" p))
    else if existsb (is_file w) ps then (w, Raise (NotADirectoryError p))
    else (set_dirs (list_to_set ps ∪ dirs w) w, Ok tt).

(** Writing [content] to [p] as pandas does: the file is opened for
    writing when its parent directory exists, and pandas raises a plain
    OSError when it does not. *)
Definition write_file (p content : string) : M unit :=
  fun w =>
    if is_dir w p then (w, Raise (IsADirectoryError p))
    else if is_dir w (dirname p) then (set_files (<[p := content]> (files w)) w, Ok tt)
    else (w, Raise (OtherError "OSError" "Cannot save file into a non-existent directory")).

(** Opening [p] for reading. *)
Definition read_file (p : string) : M string :=
  fun w =>
    match files w !! p with
    | Some content => (w, Ok content)
    | None => (w, Raise (if is_dir w p then IsADirectoryError p else FileNotFoundError p))
    end.

(** [pd.read_csv(p)]: a new frame. *)
Definition read_csv (p : string) : M nat :=
  content ← read_file p;
  T ← lift_result (pd_read_csv content);
  alloc T.

(** [df.to_csv(p, index=False)] *)
Definition to_csv (df : nat) (p : string) : M unit :=
  fun w => match heap w !! df with
           | Some T => write_file p (pd_to_csv T) w
           | None => (w, Raise (Dangling df))
           end.

(** *** class [DataProcessor] *)

Record DataProcessor : Type := mkDataProcessor {
  data_path : string;
  raw_path : string;
  processed_path : string;
}.

(** [except Exception as e: logger.error(...); raise] around [m]. *)
Definition log_and_reraise {A : Type} (m : M A) : M A :=
  fun w => match m w with
           | (w', Ok a) => (w', Ok a)
           | (w', Raise e) => (w', Raise e)
           end.

Definition _create_directories (self : DataProcessor) : M unit :=
  for_each [raw_path self; processed_path self] (fun directory =>
    there ← path_exists directory;
    if negb there then makedirs directory else mret tt).

(** [DataProcessor(data_path)]; the default [data_path] is ['data/']. *)
Definition DataProcessor_init (data_path : string) : M DataProcessor :=
  let self := mkDataProcessor data_path (path_join data_path "raw")
                              (path_join data_path "processed") in
  _create_directories self;;
  mret self.

(** [f'TRB-{i:05d}'] *)
Definition zfill (width : nat) (s : string) : string :=
  string_of_list_ascii (replicate (width - String.length s) "0"%char) +:+ s.

Definition id_trabajo (i : nat) : string := "TRB-" +:+ zfill 5 (pretty i).

Definition n_samples : nat := 1000.

(** ['2023-01-01'] as a timestamp *)
Definition sample_start : Z := days_from_civil 2023 1 1 * ns_per_day.

Definition _load_sample_data (self : DataProcessor) : M nat :=
  (fun w => (set_rng (np_random_seed 42) w, Ok tt));;
  let ids := (fun i => Some (id_trabajo i)) <$> seq 1 n_samples in
  let fechas := date_range_hourly sample_start n_samples in
  departamento ← draw (np_random_choice
    ["Filosofía"; "Letras"; "Historia"; "Antropología"; "Biblioteca"; "Administración"]
    None n_samples);
  tipo_trabajo ← draw (np_random_choice
    ["Libro"; "Cuadernillo"; "Folleto"; "Tesis"; "Certificado"; "Diploma"]
    None n_samples);
  cantidad_paginas ← draw (np_random_randint 1 500 n_samples);
  cantidad_copias ← draw (np_random_randint 1 200 n_samples);
  prioridad ← draw (np_random_choice ["Alta"; "Media"; "Baja"]
    (Some [0.2%float; 0.5%float; 0.3%float]) n_samples);
  estado ← draw (np_random_choice
    ["Pendiente"; "En Proceso"; "Completado"; "Entregado"] None n_samples);
  tiempo_produccion_horas ← draw (np_random_exponential 10 n_samples);
  costo_estimado ← draw (np_random_uniform 50 5000 n_samples);
  material_utilizado ← draw (np_random_choice
    ["Papel A4"; "Papel A3"; "Cartulina"; "Pergamino"; "Fotográfico"]
    None n_samples);
  alloc [("id_trabajo", Object ids);
         ("fecha_solicitud", Datetime64 fechas);
         ("departamento", Object (Some <$> departamento));
         ("tipo_trabajo", Object (Some <$> tipo_trabajo));
         ("cantidad_paginas", Int64 cantidad_paginas);
         ("cantidad_copias", Int64 cantidad_copias);
         ("prioridad", Object (Some <$> prioridad));
         ("estado", Object (Some <$> estado));
         ("tiempo_produccion_horas", Float64 tiempo_produccion_horas);
         ("costo_estimado", Float64 costo_estimado);
         ("material_utilizado", Object (Some <$> material_utilizado))].

(** [if file_path] *)
Definition truthy (file_path : option string) : option string :=
  match file_path with
  | Some p => if String.eqb p "" then None else Some p
  | None => None
  end.

Definition extract_data (self : DataProcessor) (file_path : option string) : M nat :=
  log_and_reraise
    (match truthy file_path return M nat with
     | Some p =>
         there ← path_exists p;
         if (there : bool) then read_csv p else _load_sample_data self
     | None => _load_sample_data self
     end).

Definition transform_data (self : DataProcessor) (df : nat) : M nat :=
  df_transformed ← frame_copy df;
  with_frame df_transformed transform_steps;;
  mret df_transformed.

(** The default [filename] is ['datos_procesados.csv']. *)
Definition load_data (self : DataProcessor) (df : nat) (filename : string) : M string :=
  log_and_reraise
    (let output_path := path_join (processed_path self) filename in
     to_csv df output_path;;
     mret output_path).

(** The defaults are [input_file=None] and
    [output_file='datos_procesados.csv']. *)
Definition run_pipeline (self : DataProcessor) (input_file : option string)
    (output_file : string) : M nat :=
  df_raw ← extract_data self input_file;
  df_processed ← transform_data self df_raw;
  load_data self df_processed output_file;;
  mret df_processed.

End Program.

(** ** An executable instance of the libraries

    Enough of the libraries to run the program on concrete inputs: ISO 8601
    date strings, a linear congruential generator in place of NumPy's
    Mersenne twister, and a CSV format with integer and string cells.  The
    theorems below hold for every instance; this one evaluates them. *)
Module Sim.

Definition digit (c : ascii) : option Z :=
  let n := Z.of_N (N_of_ascii c) in
  if (48 <=? n) && (n <=? 57) then Some (n - 48) else None.

Fixpoint digits (acc : Z) (l : list ascii) : option Z :=
  match l with
  | [] => Some acc
  | c :: l' => match digit c with
               | Some d => digits (10 * acc + d) l'
               | None => None
               end
  end.

Definition number (l : list ascii) : option Z :=
  match l with
  | [] => None
  | _ => digits 0 l
  end.

Definition field (i n : nat) (l : list ascii) : option Z :=
  number (take n (drop i l)).

Definition sep_at (i : nat) (cs : list ascii) (l : list ascii) : bool :=
  match l !! i with
  | Some c => existsb (Ascii.eqb c) cs
  | None => false
  end.

(** [YYYY-MM-DD] to days since the epoch, for a date of the calendar. *)
Definition iso_date (l : list ascii) : option Z :=
  if sep_at 4 ["-"%char] l && sep_at 7 ["-"%char] l then
    match field 0 4 l, field 5 2 l, field 8 2 l with
    | Some y, Some m, Some d =>
        let days := days_from_civil y m d in
        if bool_decide (civil_from_days days = (y, m, d)) then Some days else None
    | _, _, _ => None
    end
  else None.

(** [HH:MM:SS] to nanoseconds since midnight. *)
Definition iso_time (l : list ascii) : option Z :=
  if sep_at 2 [":"%char] l && sep_at 5 [":"%char] l then
    match field 0 2 l, field 3 2 l, field 6 2 l with
    | Some h, Some mi, Some s =>
        if (h <? 24) && (mi <? 60) && (s <? 60)
        then Some (((h * 60 + mi) * 60 + s) * 1000000000) else None
    | _, _, _ => None
    end
  else None.

(** [YYYY-MM-DD], [YYYY-MM-DD HH:MM:SS] or [YYYY-MM-DDTHH:MM:SS]; the empty
    string and ["NaT"] are NaT; anything else is not a date. *)
Definition parse_iso (s : string) : result (option Z) :=
  let l := list_ascii_of_string s in
  let bad := Raise (ValueError ("Unknown datetime string format, unable to parse: " +:+ s)) in
  if String.eqb s "" || String.eqb s "NaT" then Ok None
  else if (length l =? 10)%nat then
    match iso_date l with
    | Some days => Ok (Some (days * ns_per_day))
    | None => bad
    end
  else if (length l =? 19)%nat && sep_at 10 [" "%char; "T"%char] l then
    match iso_date (take 10 l), iso_time (drop 11 l) with
    | Some days, Some ns => Ok (Some (days * ns_per_day + ns))
    | _, _ => bad
    end
  else bad.

(** The three ISO formats: the one a string is written in, if any. *)
Definition guess_format (s : string) : option string :=
  let l := list_ascii_of_string s in
  if (length l =? 10)%nat then
    match iso_date l with
    | Some _ => Some "%Y-%m-%d"
    | None => None
    end
  else if (length l =? 19)%nat then
    match iso_date (take 10 l), iso_time (drop 11 l) with
    | Some _, Some _ =>
        if sep_at 10 [" "%char] l then Some "%Y-%m-%d %H:%M:%S"
        else if sep_at 10 ["T"%char] l then Some "%Y-%m-%dT%H:%M:%S"
        else None
    | _, _ => None
    end
  else None.

(** A string read with a format: it must be written in that format. *)
Definition read_with_format (fmt s : string) : result (option Z) :=
  match guess_format s with
  | Some fmt' =>
      if String.eqb fmt fmt' then parse_iso s
      else Raise (ValueError ("time data doesn't match format: " +:+ s))
  | None => Raise (ValueError ("time data doesn't match format: " +:+ s))
  end.

(** A float as nanoseconds, truncated; infinities are out of bounds. *)
Definition ns_of_float (x : float) : result (option Z) :=
  match Prim2SF x with
  | S754_zero _ => Ok (Some 0)
  | S754_finite s m e =>
      let v := if 0 <=? e then Z.pos m * 2 ^ e else Z.pos m / 2 ^ (- e) in
      Ok (Some (if s then - v else v))
  | S754_infinity _ => Raise (OtherError "OutOfBoundsDatetime" "cannot convert input with unit 'ns'")
  | S754_nan => Ok None
  end.

(** The generator: a 64-bit linear congruential sequence. *)
Definition lcg_next (g : Z) : Z :=
  (g * 6364136223846793005 + 1442695040888963407) `mod` 2 ^ 64.

Fixpoint lcg_draws {A : Type} (f : Z -> A) (n : nat) (g : Z) : list A * Z :=
  match n with
  | O => ([], g)
  | S n' => let g' := lcg_next g in
            let '(l, g'') := lcg_draws f n' g' in
            (f g' :: l, g'')
  end.

(** A float in [0, 1) from the top 53 bits. *)
Definition unit_float (g : Z) : float :=
  PrimFloat.div (float_of_Z (g / 2 ^ 11)) (float_of_Z (2 ^ 53)).

Definition choice (options : list string) (p : option (list float)) (n : nat) (g : Z)
    : list string * Z :=
  lcg_draws (fun g => nth (Z.to_nat ((g / 2 ^ 33) `mod` Z.of_nat (length options))) options "")
            n g.

Definition randint (low high : Z) (n : nat) (g : Z) : list Z * Z :=
  lcg_draws (fun g => low + (g / 2 ^ 33) `mod` (high - low)) n g.

Definition exponential (scale : float) (n : nat) (g : Z) : list float * Z :=
  lcg_draws (fun g => let u := unit_float g in
                      PrimFloat.mul scale (PrimFloat.div u (PrimFloat.sub 1 u))) n g.

Definition uniform (low high : float) (n : nat) (g : Z) : list float * Z :=
  lcg_draws (fun g => PrimFloat.add low (PrimFloat.mul (PrimFloat.sub high low) (unit_float g)))
            n g.

(** The text format: a header line, then one line per row, cells separated
    by commas; a float is written as mantissa and binary exponent. *)
Definition newline : string := String (ascii_of_nat 10) "".

Definition show_float (x : float) : string :=
  match Prim2SF x with
  | S754_zero s => if s then "-0p0" else "0p0"
  | S754_infinity s => if s then "-inf" else "inf"
  | S754_nan => ""
  | S754_finite s m e => (if s then "-" else "") +:+ pretty (Z.pos m) +:+ "p" +:+ pretty e
  end.

Definition show_value (v : value) : string :=
  match v with
  | VInt z => pretty z
  | VFloat x => show_float x
  | VStr s => s
  | VTime ns => pretty ns
  | NA => ""
  end.

Definition join (sep : string) (l : list string) : string := String.concat sep l.

Definition show_row (T : DataFrame) (i : nat) : string :=
  join "," ((fun ks => show_value (default NA (series_cells ks.2 !! i))) <$> T).

Definition to_text (T : DataFrame) : string :=
  join newline (join "," (columns T) :: (show_row T <$> seq 0 (nrows T))) +:+ newline.

(** Splitting at a separator character. *)
Fixpoint split_at (c : ascii) (cur : list ascii) (l : list ascii) : list string :=
  match l with
  | [] => [string_of_list_ascii (rev cur)]
  | x :: l' => if Ascii.eqb x c then string_of_list_ascii (rev cur) :: split_at c [] l'
               else split_at c (x :: cur) l'
  end.

Definition split (c : ascii) (s : string) : list string :=
  split_at c [] (list_ascii_of_string s).

Definition int_cell (s : string) : option Z :=
  match list_ascii_of_string s with
  | "-"%char :: l => Z.opp <$> number l
  | l => number l
  end.

Definition column_of_cells (cells : list string) : Series :=
  match mapM int_cell cells with
  | Some zs => Int64 zs
  | None => Object ((fun s => if String.eqb s "" then None else Some s) <$> cells)
  end.

Definition of_text (content : string) : result DataFrame :=
  match List.filter (fun l => negb (String.eqb l "")) (split (ascii_of_nat 10) content) with
  | [] => Raise (OtherError "EmptyDataError" "No columns to parse from file")
  | header :: rows =>
      let names := split "," header in
      let cells := split "," <$> rows in
      if forallb (fun r => (length r =? length names)%nat) cells then
        Ok (imap (fun j name => (name, column_of_cells ((fun r => nth j r "") <$> cells))) names)
      else Raise (OtherError "ParserError" "Error tokenizing data")
  end.

Definition lib : Library := {|
  rng_state := Z;
  np_random_seed := fun seed => seed;
  np_random_choice := choice;
  np_random_randint := randint;
  np_random_exponential := exponential;
  np_random_uniform := uniform;
  pd_read_csv := of_text;
  pd_to_csv := to_text;
  guess_datetime_format := guess_format;
  strptime := read_with_format;
  parse_datetime := parse_iso;
  float_to_datetime := ns_of_float;
|}.

End Sim.

(** ** The vocabulary of the properties *)

(** The columns [transform_data] assigns: the timestamp column, which it
    converts in place, and the five derived columns. *)
Definition derived_columns : list string :=
  ["mes"; "dia_semana"; "hora"; "costo_por_pagina"; "categoria_tamano"].

Definition assigned_columns : list string :=
  "fecha_solicitud" :: derived_columns.

(** The columns [transform_data] reads by name. *)
Definition required_columns : list string :=
  ["fecha_solicitud"; "costo_estimado"; "cantidad_paginas"].

(** Step 1 of [transform_data] as a function of one column: the median for
    the missing cells of a numeric column, the sentinel for those of an
    [object] column. *)
Definition impute_series (s : Series) : Series :=
  match s with
  | Int64 _ | Float64 _ => if isnull_any s then fillna_float s (series_median s) else s
  | Object _ => if isnull_any s then fillna_str s "Desconocido" else s
  | _ => s
  end.

Definition impute_frame (T : DataFrame) : DataFrame :=
  (fun ks => (ks.1, impute_series ks.2)) <$> T.

(** The size category as the specification words it: right-inclusive bins
    (0, 50], (50, 200] and (200, 500], nothing outside them. *)
Definition size_category_of_Z (z : Z) : option string :=
  if (1 <=? z) && (z <=? 50) then Some "Pequeño"
  else if (51 <=? z) && (z <=? 200) then Some "Mediano"
  else if (201 <=? z) && (z <=? 500) then Some "Grande"
  else None.

Definition size_category_of_float (x : float) : option string :=
  if PrimFloat.ltb 0 x && PrimFloat.leb x 50 then Some "Pequeño"
  else if PrimFloat.ltb 50 x && PrimFloat.leb x 200 then Some "Mediano"
  else if PrimFloat.ltb 200 x && PrimFloat.leb x 500 then Some "Grande"
  else None.

(** The source of a run as the run sees it: nothing when no usable path is
    given (the generator is seeded anew), otherwise whether the path
    exists and what the file holds. *)
Definition same_source {lib : Library} (input_file : option string) (w1 w2 : World) : Prop :=
  match truthy input_file with
  | None => True
  | Some p => is_dir w1 p = is_dir w2 p /\ files w1 !! p = files w2 !! p
  end.

(** The frame steps 2 to 4 build from the imputed frame [T]: [d] is the
    converted timestamp column and [ts] its cells, [q] the quotient column
    and [c] the category column. *)
Definition with_features (T : DataFrame) (ts : list (option Z)) (q c : Series) : DataFrame :=
  frame_set "categoria_tamano" c
    (frame_set "costo_por_pagina" (series_replace_inf q)
       (frame_set "costo_por_pagina" q
          (frame_set "hora" (dt_hour ts)
             (frame_set "dia_semana" (dt_day_name ts)
                (frame_set "mes" (dt_month ts)
                   (frame_set "fecha_solicitud" (Datetime64 ts) T)))))).

(** ** Concrete inputs *)

(** The processor [DataProcessor()] builds, and a world whose heap holds
    one frame and whose file system holds the processor's directories. *)
Definition processor : DataProcessor :=
  mkDataProcessor "data/" "data/raw" "data/processed".

Definition data_dirs : gset string :=
  list_to_set ["data"; "data/raw"; "data/processed"].

Definition world_of (T : DataFrame) : @World Sim.lib :=
  @mkWorld Sim.lib [T] ∅ data_dirs 0.

(** 2023-01-01 00:00 and 2023-01-02 07:30 *)
Definition t_jan1 : Z := 1672531200000000000.
Definition t_jan2 : Z := 1672644600000000000.

(** Two jobs with the columns of the schema, every cell filled. *)
Definition jobs_plain : DataFrame :=
  [("id_trabajo", Object [Some "TRB-00001"; Some "TRB-00002"]);
   ("fecha_solicitud", Datetime64 [Some t_jan1; Some t_jan2]);
   ("departamento", Object [Some "Letras"; Some "Historia"]);
   ("cantidad_paginas", Int64 [10; 200]);
   ("tiempo_produccion_horas", Float64 [2.5%float; 8%float]);
   ("costo_estimado", Float64 [100%float; 1000%float])].

(** Three jobs with missing cells: a department, a production time and a
    page count. *)
Definition jobs_gaps : DataFrame :=
  [("id_trabajo", Object [Some "TRB-00001"; Some "TRB-00002"; Some "TRB-00003"]);
   ("fecha_solicitud", Datetime64 [Some t_jan1; Some t_jan2; Some t_jan2]);
   ("departamento", Object [None; Some "Letras"; Some "Historia"]);
   ("cantidad_paginas", Float64 [10%float; nan; 300%float]);
   ("tiempo_produccion_horas", Float64 [2%float; nan; 4%float]);
   ("costo_estimado", Float64 [100%float; 1000%float; 50%float])].

(** Two jobs outside the bins: no page at no cost, and 600 pages. *)
Definition jobs_zero_pages : DataFrame :=
  [("id_trabajo", Object [Some "TRB-00001"; Some "TRB-00002"]);
   ("fecha_solicitud", Datetime64 [Some t_jan1; Some t_jan2]);
   ("departamento", Object [Some "Letras"; Some "Historia"]);
   ("cantidad_paginas", Int64 [0; 600]);
   ("costo_estimado", Float64 [0%float; 100%float])].

(** One job as [pd.read_csv] hands it over: the timestamp is a string. *)
Definition jobs_text_dates : DataFrame :=
  [("id_trabajo", Object [Some "TRB-00001"]);
   ("fecha_solicitud", Object [Some "2023-01-01 00:00:00"]);
   ("cantidad_paginas", Int64 [10]);
   ("costo_estimado", Float64 [100%float])].

(** Two jobs read from text, the first without a timestamp. *)
Definition jobs_text_no_date : DataFrame :=
  [("id_trabajo", Object [Some "TRB-00001"; Some "TRB-00002"]);
   ("fecha_solicitud", Object [None; Some "2023-01-01 00:00:00"]);
   ("cantidad_paginas", Int64 [10; 20]);
   ("costo_estimado", Float64 [100%float; 50%float])].

(** Two jobs, the first without a timestamp, in a [datetime64] column. *)
Definition jobs_no_date : DataFrame :=
  [("id_trabajo", Object [Some "TRB-00001"; Some "TRB-00002"]);
   ("fecha_solicitud", Datetime64 [None; Some t_jan2]);
   ("cantidad_paginas", Int64 [10; 20]);
   ("costo_estimado", Float64 [100%float; 50%float])].

(** A frame without the column [costo_estimado]. *)
Definition jobs_no_cost : DataFrame :=
  [("id_trabajo", Object [Some "TRB-00001"]);
   ("fecha_solicitud", Datetime64 [Some t_jan1]);
   ("cantidad_paginas", Int64 [10])].

(** A source file, and a world that holds it. *)
Definition jobs_csv : string :=
  "id_trabajo,fecha_solicitud,departamento,cantidad_paginas,costo_estimado" +:+ Sim.newline +:+
  "TRB-00001,2023-01-01 00:00:00,,10,100" +:+ Sim.newline +:+
  "TRB-00002,2023-01-02 07:30:00,Letras,600,0" +:+ Sim.newline.

Definition world_with_csv : @World Sim.lib :=
  @mkWorld Sim.lib [] {[ "data/raw/trabajos.csv" := jobs_csv ]} data_dirs 0.

(** A world that holds a source file without the column
    [costo_estimado], and an earlier output. *)
Definition short_csv : string :=
  "id_trabajo,fecha_solicitud,cantidad_paginas" +:+ Sim.newline +:+
  "TRB-00001,2023-01-01 00:00:00,10" +:+ Sim.newline.

Definition world_with_short_csv : @World Sim.lib :=
  @mkWorld Sim.lib []
    {[ "data/raw/trabajos.csv" := short_csv;
       "data/processed/datos_procesados.csv" := "earlier output" ]}
    data_dirs 0.

(** [transform_data] run on the concrete frames. *)
Definition run_plain : World * result nat :=
  @transform_data Sim.lib processor 0 (world_of jobs_plain).
Definition run_gaps : World * result nat :=
  @transform_data Sim.lib processor 0 (world_of jobs_gaps).
Definition run_zero_pages : World * result nat :=
  @transform_data Sim.lib processor 0 (world_of jobs_zero_pages).
Definition run_text_dates : World * result nat :=
  @transform_data Sim.lib processor 0 (world_of jobs_text_dates).
Definition run_text_no_date : World * result nat :=
  @transform_data Sim.lib processor 0 (world_of jobs_text_no_date).
Definition run_no_date : World * result nat :=
  @transform_data Sim.lib processor 0 (world_of jobs_no_date).
Definition run_no_cost : World * result nat :=
  @transform_data Sim.lib processor 0 (world_of jobs_no_cost).

(** The column [c] of the frame behind [r]. *)
Definition column_at {lib : Library} (w : World) (r : nat) (c : string) : option Series :=
  heap w !! r ≫= frame_get c.

(** The frame [_load_sample_data] builds and the state it leaves the
    generator in: functions of the seed 42 and of nothing else. *)
Definition sample_run {lib : Library} : World * result nat :=
  _load_sample_data (mkDataProcessor "" "" "") (mkWorld [] ∅ ∅ (np_random_seed 42)).

Definition sample_frame {lib : Library} : DataFrame :=
  default [] (heap sample_run.1 !! 0%nat).

(** What [extract_data] reads: the parsed file when a path is given and
    exists, the sample otherwise. *)
Definition source_table {lib : Library} (file_path : option string) (w : World)
    : result DataFrame :=
  match truthy file_path with
  | Some p =>
      if is_file w p || is_dir w p then
        match files w !! p with
        | Some content => pd_read_csv content
        | None => Raise (IsADirectoryError p)
        end
      else Ok sample_frame
  | None => Ok sample_frame
  end.

(** Where [load_data] writes. *)
Definition output_path (self : DataProcessor) (filename : string) : string :=
  path_join (processed_path self) filename.

(** Runs of the pipeline on the concrete worlds. *)
Definition run_csv : World * result nat :=
  @run_pipeline Sim.lib processor (Some "data/raw/trabajos.csv")
    "datos_procesados.csv" world_with_csv.

Definition run_short_csv : World * result nat :=
  @run_pipeline Sim.lib processor (Some "data/raw/trabajos.csv")
    "datos_procesados.csv" world_with_short_csv.

Definition extract_short_csv : World * result nat :=
  @extract_data Sim.lib processor (Some "data/raw/trabajos.csv") world_with_short_csv.

Definition extract_no_file : World * result nat :=
  @extract_data Sim.lib processor (Some "data/raw/no_such_file.csv") world_with_csv.

(** The frame the instance reads from [short_csv]. *)
Definition jobs_short : DataFrame :=
  [("id_trabajo", Object [Some "TRB-00001"]);
   ("fecha_solicitud", Object [Some "2023-01-01 00:00:00"]);
   ("cantidad_paginas", Int64 [10])].

(** ** [main]: the module run as a script

    [print] appends a line to the standard output.  A line that an
    f-string builds is kept as the values the string is built from. *)
Inductive line : Type :=
| Literal (s : string)
| TotalJobs (n : nat)                          (* [len(df_result)] *)
| Period (first last : option (Z * Z * Z))     (* two dates, NaT = [None] *)
| Departments (n : nat)                        (* [nunique()] *)
| JobTypes (vs : list value)                   (* [unique()] *)
| Failed (e : exn).                            (* the message of [e] *)

(** [s.min()] and [s.max()] of timestamps: NaT is skipped, and is the
    result when nothing else is there. *)
Definition time_fold (f : Z -> Z -> Z) (ts : list (option Z)) : option Z :=
  foldr (fun o acc => match o, acc with
                      | Some a, Some b => Some (f a b)
                      | Some a, None => Some a
                      | None, _ => acc
                      end) None ts.

(** [t.date()] as (year, month, day); [NaT.date()] is NaT. *)
Definition timestamp_date (t : option Z) : option (Z * Z * Z) :=
  (fun ns => civil_from_days (ns / ns_per_day)) <$> t.

(** [s.min().date()] and [s.max().date()].  The minimum of a column that
    holds no timestamps has no method [date] (or the minimum itself
    raises): the program meets no such column. *)
Definition series_extreme_date (f : Z -> Z -> Z) (s : Series) : result (option (Z * Z * Z)) :=
  match s with
  | Datetime64 ts => Ok (timestamp_date (time_fold f ts))
  | _ => Raise (OtherError "AttributeError" "object has no attribute 'date'")
  end.

(** Equality of cells as pandas' hash tables have it: missing values are
    one value, floats compare by [==]. *)
Definition value_eqb (a b : value) : bool :=
  match a, b with
  | VInt x, VInt y => x =? y
  | VFloat x, VFloat y => PrimFloat.eqb x y
  | VStr x, VStr y => String.eqb x y
  | VTime x, VTime y => x =? y
  | NA, NA => true
  | _, _ => false
  end.

Fixpoint unique_from (seen l : list value) : list value :=
  match l with
  | [] => []
  | v :: l' => if existsb (value_eqb v) seen then unique_from seen l'
               else v :: unique_from (v :: seen) l'
  end.

(** [s.unique()]: the values in order of first appearance. *)
Definition series_unique (s : Series) : list value := unique_from [] (series_cells s).

Definition notna (v : value) : bool :=
  match v with NA => false | _ => true end.

(** [s.nunique()]: the missing value is not counted. *)
Definition series_nunique (s : Series) : nat :=
  length (List.filter notna (series_unique s)).

Section Script.
Context {lib : Library}.

(** One turn of the loop of [_create_directories]. *)
Definition ensure_directory (directory : string) : M unit :=
  there ← path_exists directory;
  if negb there then makedirs directory else mret tt.

(** Statements of the script: the world and the standard output. *)
Definition IO : Type -> Type := SE (World * list line).
#[global] Typeclasses Transparent IO.

Definition print (l : line) : IO unit :=
  fun s => ((s.1, s.2 ++ [l]), Ok tt).

Definition run {A : Type} (m : M A) : IO A :=
  fun s => let '(w', r) := m s.1 in ((w', s.2), r).

(** [try: body / except Exception as e: handler(e)] *)
Definition try_except (body : IO unit) (handler : exn -> IO unit) : IO unit :=
  fun s => match body s with
           | (s', Ok a) => (s', Ok a)
           | (s', Raise e) => handler e s'
           end.

Definition banner : string :=
  string_of_list_ascii (replicate 60 "="%char).

Definition main : IO unit :=
  print (Literal banner);;
  print (Literal "SISTEMA ETL - TALLER DE IMPRENTA UBA");;
  print (Literal banner);;
  processor ← run (DataProcessor_init "data/");
  try_except
    (df_result ← run (run_pipeline processor None "datos_procesados.csv");
     print (Literal (String "010"%char "📊 RESUMEN DEL PROCESAMIENTO:"));;
     n ← run (with_frame df_result (gets nrows));
     print (TotalJobs n);;
     first ← run (with_frame df_result
                    (s ← getitem "fecha_solicitud"; lift_result (series_extreme_date Z.min s)));
     last ← run (with_frame df_result
                   (s ← getitem "fecha_solicitud"; lift_result (series_extreme_date Z.max s)));
     print (Period first last);;
     d ← run (with_frame df_result (s ← getitem "departamento"; mret (series_nunique s)));
     print (Departments d);;
     t ← run (with_frame df_result (s ← getitem "tipo_trabajo"; mret (series_unique s)));
     print (JobTypes t);;
     print (Literal "• Archivo generado: data/processed/datos_procesados.csv");;
     print (Literal (String "010"%char "✅ Proceso completado exitosamente")))
    (fun e => print (Failed e)).

End Script.

(** ** More concrete inputs *)

(** A fresh working directory, and one where a plain file is named
    [data]. *)
Definition fresh_world : @World Sim.lib := @mkWorld Sim.lib [] ∅ ∅ 0.

Definition world_data_is_file : @World Sim.lib :=
  @mkWorld Sim.lib [] {[ "data" := "not a directory" ]} ∅ 0.

(** Two jobs whose cost was entered as text. *)
Definition jobs_text_cost : DataFrame :=
  [("id_trabajo", Object [Some "TRB-00001"; Some "TRB-00002"]);
   ("fecha_solicitud", Datetime64 [Some t_jan1; Some t_jan2]);
   ("cantidad_paginas", Int64 [10; 200]);
   ("costo_estimado", Object [Some "cien"; Some "mil"])].

Definition run_text_cost : World * result nat :=
  @transform_data Sim.lib processor 0 (world_of jobs_text_cost).

(** What [main] prints first. *)
Definition heading : list line :=
  [Literal banner; Literal "SISTEMA ETL - TALLER DE IMPRENTA UBA"; Literal banner].

(** ** The median, as the specification words it

    The median of a column is taken over the values that are not missing:
    it is the middle value of these values put in nondecreasing order, or
    the mean of the two middle values when their number is even. *)
Definition present_values (xs : list float) : list float :=
  omap (fun x => if isnan x then None else Some x) xs.

Definition nondecreasing (s : list float) : Prop :=
  forall i x y, s !! i = Some x -> s !! S i = Some y -> PrimFloat.leb x y = true.

Definition middle_value (s : list float) : float :=
  let n := length s in
  if Nat.even n then
    match s !! (n / 2 - 1)%nat, s !! (n / 2)%nat with
    | Some a, Some b => PrimFloat.div (PrimFloat.add a b) 2
    | _, _ => nan
    end
  else default nan (s !! (n / 2)%nat).

Definition is_median (xs : list float) (m : float) : Prop :=
  exists s, s ≡ₚ present_values xs /\ nondecreasing s /\ m = middle_value s.

(** A cell that holds no value. *)
Definition missing_at (s : Series) (i : nat) : Prop :=
  series_cells s !! i = Some NA.

(** Three jobs that keep their gaps: no timestamp for the first, a
    production time that is missing in every row, and a number of copies
    whose two values are the two infinities. *)
Definition jobs_undefined : DataFrame :=
  [("id_trabajo", Object [Some "TRB-00001"; Some "TRB-00002"; Some "TRB-00003"]);
   ("fecha_solicitud", Datetime64 [None; Some t_jan2; Some t_jan2]);
   ("cantidad_paginas", Int64 [10; 20; 30]);
   ("cantidad_copias", Float64 [neg_infinity; infinity; nan]);
   ("tiempo_produccion_horas", Float64 [nan; nan; nan]);
   ("costo_estimado", Float64 [100%float; 50%float; 25%float])].

Definition run_undefined : World * result nat :=
  @transform_data Sim.lib processor 0 (world_of jobs_undefined).

(** ** Normalised paths *)

(** A file name: not empty, not [.] or [..], without slash. *)
Definition plain_name (f : string) : bool :=
  negb (String.eqb f "") && negb (String.eqb f ".") && negb (String.eqb f "..")
  && forallb (fun c => negb (is_slash c)) (list_ascii_of_string f).

(** A normalised path, relative to the working directory: file names
    separated by single slashes. *)
Definition normal_path (p : string) : Prop :=
  exists names, names <> [] /\ forallb plain_name names = true /\
    p = String.concat "/" names.

(** A pair is its first component and what its second evaluates to. *)
Lemma pair_with_snd {A B : Type} (x : A * B) (b : B) : x.2 = b -> x = (x.1, b).
Proof. destruct x. simpl. by intros ->. Qed.

(** ** Frames: lookup and assignment *)

Lemma frame_get_set_eq (c : string) (v : Series) (T : DataFrame) :
  frame_get c (frame_set c v T) = Some v.
Proof.
  induction T as [|[k s] T IH]; simpl.
  - by rewrite String.eqb_refl.
  - destruct (String.eqb k c) eqn:E; simpl; rewrite E; auto.
Qed.

Lemma frame_get_set_ne (c c' : string) (v : Series) (T : DataFrame) :
  c <> c' -> frame_get c' (frame_set c v T) = frame_get c' T.
Proof.
  intros Hne. induction T as [|[k s] T IH]; simpl.
  - destruct (String.eqb_spec c c'); congruence.
  - destruct (String.eqb_spec k c) as [->|Hk]; simpl.
    + destruct (String.eqb_spec c c'); congruence.
    + destruct (String.eqb_spec k c'); auto.
Qed.

Lemma columns_cons (k : string) (s : Series) (T : DataFrame) :
  columns ((k, s) :: T) = k :: columns T.
Proof. reflexivity. Qed.

Lemma frame_get_None (c : string) (T : DataFrame) :
  frame_get c T = None <-> c ∉ columns T.
Proof.
  induction T as [|[k s] T IH].
  - split; [intros _; apply not_elem_of_nil | done].
  - rewrite columns_cons, not_elem_of_cons. simpl.
    destruct (String.eqb_spec k c) as [->|Hk].
    + split; [done | intros [? _]; done].
    + rewrite IH. split; [intros H; split; [congruence | done] | intros [_ H]; done].
Qed.

Lemma frame_get_Some_elem (c : string) (s : Series) (T : DataFrame) :
  frame_get c T = Some s -> c ∈ columns T.
Proof.
  intros H. destruct (decide (c ∈ columns T)) as [|Hn]; [done|].
  apply frame_get_None in Hn. congruence.
Qed.

Lemma frame_get_elem (c : string) (T : DataFrame) :
  c ∈ columns T -> exists s, frame_get c T = Some s.
Proof.
  intros H. destruct (frame_get c T) eqn:E; [eauto|].
  apply frame_get_None in E. done.
Qed.

Lemma frame_set_same (c : string) (s : Series) (T : DataFrame) :
  frame_get c T = Some s -> frame_set c s T = T.
Proof.
  induction T as [|[k s'] T IH]; simpl; [done|].
  destruct (String.eqb k c); [congruence|].
  intros H. by rewrite IH.
Qed.

Lemma columns_frame_set_present (c : string) (v : Series) (T : DataFrame) :
  c ∈ columns T -> columns (frame_set c v T) = columns T.
Proof.
  induction T as [|[k s] T IH].
  - intros H. by apply elem_of_nil in H.
  - rewrite columns_cons. simpl.
    destruct (String.eqb_spec k c) as [->|Hk]; [done|].
    intros H. apply elem_of_cons in H as [->|H]; [done|].
    by rewrite !columns_cons, IH.
Qed.

Lemma columns_frame_set_absent (c : string) (v : Series) (T : DataFrame) :
  c ∉ columns T -> columns (frame_set c v T) = columns T ++ [c].
Proof.
  induction T as [|[k s] T IH]; [done|].
  rewrite columns_cons, not_elem_of_cons. intros [Hc H]. simpl.
  destruct (String.eqb_spec k c) as [->|Hk]; [done|].
  by rewrite !columns_cons, IH.
Qed.

Lemma frame_set_app_absent (c : string) (v : Series) (pre rest : DataFrame) :
  c ∉ columns pre -> frame_set c v (pre ++ rest) = pre ++ frame_set c v rest.
Proof.
  induction pre as [|[k s] pre IH]; [done|].
  rewrite columns_cons, not_elem_of_cons. intros [Hc H]. simpl.
  destruct (String.eqb_spec k c) as [->|Hk]; [done|]. by rewrite IH.
Qed.

Lemma frame_get_app_absent (c : string) (pre rest : DataFrame) :
  c ∉ columns pre -> frame_get c (pre ++ rest) = frame_get c rest.
Proof.
  induction pre as [|[k s] pre IH]; [done|].
  rewrite columns_cons, not_elem_of_cons. intros [Hc H]. simpl.
  destruct (String.eqb_spec k c) as [->|Hk]; [done|]. by rewrite IH.
Qed.

Lemma nrows_frame_set (c : string) (v : Series) (T : DataFrame) :
  T <> [] -> series_len v = nrows T -> nrows (frame_set c v T) = nrows T.
Proof.
  destruct T as [|[k s] T]; [done|]. simpl. intros _ Hv.
  destruct (String.eqb k c); simpl; done.
Qed.

Lemma Forall_frame_set (P : string * Series -> Prop) (c : string) (v : Series)
    (T : DataFrame) :
  (forall k, P (k, v)) -> Forall P T -> Forall P (frame_set c v T).
Proof.
  intros Hv. induction 1 as [|[k s] T HP HT IH]; simpl.
  - constructor; [apply Hv | constructor].
  - destruct (String.eqb k c); constructor; auto.
Qed.

Lemma wf_frame_set (c : string) (v : Series) (T : DataFrame) :
  T <> [] -> wf_frame T -> series_len v = nrows T -> wf_frame (frame_set c v T).
Proof.
  intros Hne [Hnd Hlen] Hv. split.
  - destruct (decide (c ∈ columns T)) as [Hin|Hout].
    + by rewrite columns_frame_set_present.
    + rewrite columns_frame_set_absent by done.
      apply NoDup_app. split_and!; [done| |apply NoDup_singleton].
      intros x Hx Hx'. apply list_elem_of_singleton in Hx'. by subst.
  - rewrite nrows_frame_set by done. by apply Forall_frame_set.
Qed.

(** ** Step 1: the two loops are a map over the columns *)

Lemma select_dtypes_cons (p : Series -> bool) (k : string) (s : Series) (T : DataFrame) :
  select_dtypes p ((k, s) :: T) =
  if p s then k :: select_dtypes p T else select_dtypes p T.
Proof. unfold select_dtypes. simpl. by destruct (p s). Qed.

Lemma columns_app (T1 T2 : DataFrame) : columns (T1 ++ T2) = columns T1 ++ columns T2.
Proof. unfold columns. apply fmap_app. Qed.

Lemma columns_fmap_snd (f : string * Series -> Series) (T : DataFrame) :
  columns ((fun ks => (ks.1, f ks)) <$> T) = columns T.
Proof. unfold columns. rewrite <- list_fmap_compose. by apply list_fmap_ext. Qed.

(** A loop whose body rewrites the column it is given with [f], run over
    the columns of [rest] that satisfy [p], maps [f] over those columns. *)
Lemma for_each_columns (p : Series -> bool) (f : Series -> Series) (body : string -> F unit) :
  (forall c T s, frame_get c T = Some s -> body c T = (frame_set c (f s) T, Ok tt)) ->
  forall rest pre,
    NoDup (columns (pre ++ rest)) ->
    for_each (select_dtypes p rest) body (pre ++ rest) =
    (pre ++ ((fun ks => (ks.1, if p ks.2 then f ks.2 else ks.2)) <$> rest), Ok tt).
Proof.
  intros Hbody. induction rest as [|[k s] rest IH]; intros pre Hnd.
  - reflexivity.
  - rewrite select_dtypes_cons. rewrite fmap_cons. simpl.
    assert (Hk : k ∉ columns pre).
    { rewrite columns_app, columns_cons in Hnd.
      apply NoDup_app in Hnd as (_ & Hdisj & _).
      intros Hin. apply (Hdisj k Hin). apply elem_of_cons. by left. }
    destruct (p s) eqn:Hp.
    + simpl. unfold mbind, SE_bind.
      rewrite (Hbody k _ s).
      2:{ rewrite frame_get_app_absent by done. simpl. by rewrite String.eqb_refl. }
      rewrite frame_set_app_absent by done. simpl. rewrite String.eqb_refl.
      replace (pre ++ (k, f s) :: rest) with ((pre ++ [(k, f s)]) ++ rest)
        by (by rewrite <- app_assoc).
      rewrite IH.
      * by rewrite <- app_assoc.
      * rewrite <- app_assoc. simpl.
        rewrite columns_app, columns_cons in *. done.
    + replace (pre ++ (k, s) :: rest) with ((pre ++ [(k, s)]) ++ rest)
        by (by rewrite <- app_assoc).
      rewrite IH.
      * by rewrite <- app_assoc.
      * by rewrite <- app_assoc.
Qed.

Lemma impute_numeric_run (c : string) (T : DataFrame) (s : Series) :
  frame_get c T = Some s ->
  impute_numeric c T =
  (frame_set c (if isnull_any s then fillna_float s (series_median s) else s) T, Ok tt).
Proof.
  intros H. unfold impute_numeric, mbind, SE_bind, getitem. rewrite H.
  destruct (isnull_any s).
  - repeat (rewrite H; simpl). reflexivity.
  - rewrite frame_set_same by done. reflexivity.
Qed.

Lemma impute_categorical_run (c : string) (T : DataFrame) (s : Series) :
  frame_get c T = Some s ->
  impute_categorical c T =
  (frame_set c (if isnull_any s then fillna_str s "Desconocido" else s) T, Ok tt).
Proof.
  intros H. unfold impute_categorical, mbind, SE_bind, getitem. rewrite H.
  destruct (isnull_any s).
  - repeat (rewrite H; simpl). reflexivity.
  - rewrite frame_set_same by done. reflexivity.
Qed.

Lemma is_object_fillna_float (s : Series) (v : float) :
  is_object (fillna_float s v) = is_object s.
Proof. by destruct s. Qed.

(** Step 1 of [transform_data] never raises and imputes every column. *)
Lemma impute_steps_run (T : DataFrame) :
  NoDup (columns T) -> impute_steps T = (impute_frame T, Ok tt).
Proof.
  intros Hnd. unfold impute_steps, mbind, SE_bind, gets.
  pose proof (for_each_columns is_number _ _ impute_numeric_run T [] Hnd) as H1.
  simpl in H1. rewrite H1. clear H1.
  set (T1 := (fun ks => (ks.1, if is_number ks.2 then _ else ks.2)) <$> T).
  assert (Hsel : select_dtypes is_object T = select_dtypes is_object T1).
  { unfold T1. clear. induction T as [|[k s] T IH]; [done|].
    rewrite fmap_cons, !select_dtypes_cons. simpl. rewrite <- IH.
    destruct s; simpl; try done. by destruct (existsb isnan xs). }
  rewrite Hsel.
  assert (Hnd1 : NoDup (columns ([] ++ T1))).
  { simpl. unfold T1. by rewrite columns_fmap_snd. }
  pose proof (for_each_columns is_object _ _ impute_categorical_run T1 [] Hnd1) as H2.
  simpl in H2. rewrite H2. f_equal.
  unfold T1, impute_frame. rewrite <- list_fmap_compose.
  apply list_fmap_ext. intros i [k s] _. simpl. f_equal.
  unfold impute_series. destruct s; simpl; try done.
  - destruct (existsb isnan xs); done.
Qed.

Lemma columns_impute_frame (T : DataFrame) : columns (impute_frame T) = columns T.
Proof. unfold impute_frame. apply (columns_fmap_snd (fun ks => impute_series ks.2)). Qed.

Lemma frame_get_impute_frame (c : string) (T : DataFrame) :
  frame_get c (impute_frame T) = impute_series <$> frame_get c T.
Proof.
  induction T as [|[k s] T IH]; [done|].
  unfold impute_frame in *. rewrite fmap_cons. simpl.
  destruct (String.eqb k c); [done|]. apply IH.
Qed.

(** ** Steps 2 to 4 *)

Lemma result_mapM_length {A B : Type} (f : A -> result B) (l : list A) (l' : list B) :
  result_mapM f l = Ok l' -> length l' = length l.
Proof.
  revert l'. induction l as [|x l IH]; intros l'; simpl.
  - by intros [= <-].
  - destruct (f x); [|discriminate].
    destruct (result_mapM f l); [|discriminate].
    intros [= <-]. simpl. by rewrite (IH _ eq_refl).
Qed.

Lemma result_mapM_raises {A B : Type} (f : A -> result B) (l : list A) (i : nat)
    (x : A) (e : exn) :
  l !! i = Some x -> f x = Raise e -> exists e', result_mapM f l = Raise e'.
Proof.
  revert i. induction l as [|y l IH]; intros i; [done|]. simpl.
  destruct i; simpl.
  - intros [= ->] ->. by eexists.
  - intros Hi Hx. destruct (f y); [|by eexists].
    destruct (IH _ Hi Hx) as [e' ->]. by eexists.
Qed.

Ltac frame_lookup :=
  repeat first
    [ rewrite frame_get_set_eq
    | rewrite frame_get_set_ne by discriminate
    | progress simpl ].

Section Properties.
Context {lib : Library}.

Lemma strings_to_datetime_length (xs : list (option string)) (ts : list (option Z)) :
  strings_to_datetime xs = Ok ts -> length ts = length xs.
Proof.
  unfold strings_to_datetime.
  destruct (List.find _ xs) as [[first|]|];
    [destruct (guess_datetime_format first)|..]; apply result_mapM_length.
Qed.

(** A string that converts with no format and on its own makes the
    conversion of its column raise. *)
Lemma strings_to_datetime_raises (xs : list (option string)) (i : nat) (str : string) :
  xs !! i = Some (Some str) -> is_null_text (Some str) = false ->
  (forall fmt, is_ok (strptime fmt str) = false) ->
  is_ok (parse_datetime str) = false ->
  exists e, strings_to_datetime xs = Raise e.
Proof.
  intros Hi Hnull Hfmt Hparse.
  assert (Hraise : forall parse, is_ok (parse str) = false ->
            exists e, result_mapM (text_to_datetime parse) xs = Raise e).
  { intros parse Hp. destruct (parse str) as [t|e] eqn:E; [discriminate|].
    apply (result_mapM_raises _ xs i (Some str) e); [done|].
    unfold text_to_datetime. by rewrite Hnull. }
  unfold strings_to_datetime.
  destruct (List.find _ xs) as [[first|]|];
    [destruct (guess_datetime_format first)|..]; auto.
Qed.

Lemma to_datetime_ok (s d : Series) :
  to_datetime s = Ok d -> exists ts, d = Datetime64 ts /\ length ts = series_len s.
Proof.
  destruct s; simpl.
  - intros [= <-]. eexists; split; [done|]. by rewrite length_fmap.
  - destruct (result_mapM _ xs) eqn:E; [|discriminate].
    intros [= <-]. eexists; split; [done|]. by apply result_mapM_length in E.
  - destruct (strings_to_datetime xs) eqn:E; [|discriminate].
    intros [= <-]. eexists; split; [done|]. by apply strings_to_datetime_length in E.
  - intros [= <-]. by eexists.
  - destruct (strings_to_datetime xs) eqn:E; [|discriminate].
    intros [= <-]. eexists; split; [done|]. by apply strings_to_datetime_length in E.
Qed.

Lemma to_datetime_Datetime64 (ts : list (option Z)) :
  to_datetime (Datetime64 ts) = Ok (Datetime64 ts).
Proof. reflexivity. Qed.

(** What a successful run of steps 2 to 4 read and built. *)
Lemma feature_steps_ok (T T' : DataFrame) :
  feature_steps T = (T', Ok tt) ->
  exists s ts a b q c,
    frame_get "fecha_solicitud" T = Some s /\
    to_datetime s = Ok (Datetime64 ts) /\
    frame_get "costo_estimado" T = Some a /\
    frame_get "cantidad_paginas" T = Some b /\
    series_div a b = Ok q /\
    pd_cut b size_bins size_labels = Ok c /\
    T' = with_features T ts q c.
Proof.
  unfold feature_steps, mbind, SE_bind, getitem, lift_result, setitem.
  destruct (frame_get "fecha_solicitud" T) as [s|] eqn:Hs; [|discriminate].
  destruct (to_datetime s) as [d|] eqn:Hd; [|discriminate].
  destruct (to_datetime_ok _ _ Hd) as (ts & -> & _).
  frame_lookup.
  destruct (frame_get "costo_estimado" T) as [a|] eqn:Ha; [|discriminate].
  frame_lookup.
  destruct (frame_get "cantidad_paginas" T) as [b|] eqn:Hb; [|discriminate].
  destruct (series_div a b) as [q|] eqn:Hq; [|discriminate].
  frame_lookup. rewrite Hb.
  destruct (pd_cut b size_bins size_labels) as [c|] eqn:Hc; [|discriminate].
  intros [= <-]. by exists s, ts, a, b, q, c.
Qed.

(** Steps 2 to 4 succeed as soon as what they read is there and
    converts. *)
Lemma feature_steps_run (T : DataFrame) (s a b q c : Series) (ts : list (option Z)) :
  frame_get "fecha_solicitud" T = Some s ->
  to_datetime s = Ok (Datetime64 ts) ->
  frame_get "costo_estimado" T = Some a ->
  frame_get "cantidad_paginas" T = Some b ->
  series_div a b = Ok q ->
  pd_cut b size_bins size_labels = Ok c ->
  feature_steps T = (with_features T ts q c, Ok tt).
Proof.
  intros Hs Hd Ha Hb Hq Hc.
  unfold feature_steps, mbind, SE_bind, getitem, lift_result, setitem.
  rewrite Hs, Hd. frame_lookup.
  rewrite Ha. frame_lookup. rewrite Hb, Hq. frame_lookup. rewrite Hb, Hc.
  reflexivity.
Qed.

(** A run of steps 2 to 4 on a frame that lacks a column they read
    raises: the KeyError of the first absent column, unless the conversion
    of the timestamps has raised before. *)
Lemma feature_steps_missing (T : DataFrame) (c : string) :
  c ∈ required_columns -> frame_get c T = None ->
  exists T' e, feature_steps T = (T', Raise e) /\
    match frame_get "fecha_solicitud" T with
    | None => e = KeyError "fecha_solicitud"
    | Some s =>
        match to_datetime s with
        | Raise e' => e = e'
        | Ok _ =>
            match frame_get "costo_estimado" T with
            | None => e = KeyError "costo_estimado"
            | Some _ => e = KeyError "cantidad_paginas"
            end
        end
    end.
Proof.
  intros Hc Hnone.
  unfold feature_steps, mbind, SE_bind, getitem, lift_result, setitem.
  destruct (frame_get "fecha_solicitud" T) as [s|] eqn:Hs; [|by eauto].
  destruct (to_datetime s) as [d|] eqn:Hd; [|by eauto].
  destruct (to_datetime_ok _ _ Hd) as (ts & -> & _).
  frame_lookup.
  destruct (frame_get "costo_estimado" T) as [a|] eqn:Ha; [|by eauto].
  frame_lookup.
  destruct (frame_get "cantidad_paginas" T) as [b|] eqn:Hb; [|by eauto].
  exfalso. unfold required_columns in Hc.
  repeat (apply elem_of_cons in Hc as [->|Hc]; [congruence|]).
  by apply elem_of_nil in Hc.
Qed.

End Properties.

(** ** [transform_data] on the heap *)

Lemma frame_get_with_features_other (c : string) (T : DataFrame) (ts : list (option Z))
    (q cat : Series) :
  c ∉ assigned_columns ->
  frame_get c (with_features T ts q cat) = frame_get c T.
Proof.
  intros Hc. unfold assigned_columns, derived_columns in Hc.
  rewrite !not_elem_of_cons in Hc.
  destruct Hc as (H1 & H2 & H3 & H4 & H5 & H6 & _).
  unfold with_features.
  by rewrite !frame_get_set_ne by congruence.
Qed.

Lemma frame_get_with_features_required (c : string) (T : DataFrame) (ts : list (option Z))
    (q cat : Series) :
  c = "costo_estimado" \/ c = "cantidad_paginas" ->
  frame_get c (with_features T ts q cat) = frame_get c T.
Proof.
  intros [-> | ->]; apply frame_get_with_features_other;
    unfold assigned_columns, derived_columns;
    rewrite !not_elem_of_cons; split_and!; try discriminate; apply not_elem_of_nil.
Qed.

Ltac in_list :=
  rewrite ?elem_of_cons; tauto.

Ltac not_in_list :=
  rewrite ?not_elem_of_app, ?not_elem_of_cons;
  split_and?; first [ discriminate | apply not_elem_of_nil | eauto ].

Lemma columns_with_features (T : DataFrame) (ts : list (option Z)) (q cat : Series) :
  "fecha_solicitud" ∈ columns T ->
  (forall c, c ∈ derived_columns -> c ∉ columns T) ->
  columns (with_features T ts q cat) = columns T ++ derived_columns.
Proof.
  intros Hf Hd. unfold with_features.
  assert (Hmes : "mes" ∉ columns T) by (apply Hd; unfold derived_columns; in_list).
  assert (Hdia : "dia_semana" ∉ columns T) by (apply Hd; unfold derived_columns; in_list).
  assert (Hhora : "hora" ∉ columns T) by (apply Hd; unfold derived_columns; in_list).
  assert (Hcpp : "costo_por_pagina" ∉ columns T)
    by (apply Hd; unfold derived_columns; in_list).
  assert (Hcat : "categoria_tamano" ∉ columns T)
    by (apply Hd; unfold derived_columns; in_list).
  set (T0 := frame_set "fecha_solicitud" (Datetime64 ts) T).
  assert (E0 : columns T0 = columns T) by (by apply columns_frame_set_present).
  set (T1 := frame_set "mes" (dt_month ts) T0).
  assert (E1 : columns T1 = columns T ++ ["mes"]).
  { unfold T1. rewrite columns_frame_set_absent; by rewrite E0. }
  set (T2 := frame_set "dia_semana" (dt_day_name ts) T1).
  assert (E2 : columns T2 = columns T ++ ["mes"; "dia_semana"]).
  { unfold T2. rewrite columns_frame_set_absent; rewrite E1.
    - by rewrite <- app_assoc.
    - not_in_list. }
  set (T3 := frame_set "hora" (dt_hour ts) T2).
  assert (E3 : columns T3 = columns T ++ ["mes"; "dia_semana"; "hora"]).
  { unfold T3. rewrite columns_frame_set_absent; rewrite E2.
    - by rewrite <- app_assoc.
    - not_in_list. }
  set (T4 := frame_set "costo_por_pagina" q T3).
  assert (E4 : columns T4 = columns T ++ ["mes"; "dia_semana"; "hora"; "costo_por_pagina"]).
  { unfold T4. rewrite columns_frame_set_absent; rewrite E3.
    - by rewrite <- app_assoc.
    - not_in_list. }
  set (T5 := frame_set "costo_por_pagina" (series_replace_inf q) T4).
  assert (E5 : columns T5 = columns T4).
  { unfold T5. apply columns_frame_set_present. rewrite E4.
    apply elem_of_app. right. in_list. }
  rewrite columns_frame_set_absent; rewrite E5, E4.
  - by rewrite <- app_assoc.
  - not_in_list.
Qed.

Section Heap.
Context {lib : Library}.

Lemma transform_steps_run (T : DataFrame) :
  NoDup (columns T) -> transform_steps T = feature_steps (impute_frame T).
Proof.
  intros Hnd. unfold transform_steps, mbind, SE_bind.
  by rewrite impute_steps_run.
Qed.

(** [transform_data] works on a copy: it adds one frame to the heap, the
    copy after the steps that ran, and returns its reference when none of
    them raised. *)
Lemma transform_data_run (self : DataProcessor) (df : nat) (w : World) (T : DataFrame) :
  heap w !! df = Some T ->
  transform_data self df w =
  (set_heap (heap w ++ [(transform_steps T).1]) w,
   match (transform_steps T).2 with
   | Ok _ => Ok (length (heap w))
   | Raise e => Raise e
   end).
Proof.
  intros H. unfold transform_data, mbind, SE_bind, frame_copy, alloc, with_frame.
  rewrite H. simpl. rewrite list_lookup_middle by done.
  destruct (transform_steps T) as [T' res]. simpl.
  rewrite insert_app_r_alt by done. rewrite Nat.sub_diag. simpl.
  by destruct res.
Qed.

(** What a successful [transform_data] read and what it returns. *)
Lemma transform_data_ok (self : DataProcessor) (df r : nat) (w w' : World) (T : DataFrame) :
  heap w !! df = Some T -> NoDup (columns T) ->
  transform_data self df w = (w', Ok r) ->
  exists s ts a b q c,
    frame_get "fecha_solicitud" T = Some s /\
    to_datetime (impute_series s) = Ok (Datetime64 ts) /\
    frame_get "costo_estimado" T = Some a /\
    frame_get "cantidad_paginas" T = Some b /\
    series_div (impute_series a) (impute_series b) = Ok q /\
    pd_cut (impute_series b) size_bins size_labels = Ok c /\
    r = length (heap w) /\
    w' = set_heap (heap w ++ [with_features (impute_frame T) ts q c]) w.
Proof.
  intros H Hnd. rewrite (transform_data_run _ _ _ _ H), transform_steps_run by done.
  destruct (feature_steps (impute_frame T)) as [T' [[]|e]] eqn:E; simpl; [|discriminate].
  intros [= <- <-].
  apply feature_steps_ok in E as (s1 & ts & a1 & b1 & q & c & Hs & Hd & Ha & Hb & Hq & Hc & ->).
  rewrite frame_get_impute_frame in Hs, Ha, Hb.
  destruct (frame_get "fecha_solicitud" T) as [s|]; [|discriminate].
  destruct (frame_get "costo_estimado" T) as [a|]; [|discriminate].
  destruct (frame_get "cantidad_paginas" T) as [b|]; [|discriminate].
  simpl in Hs, Ha, Hb. injection Hs as <-. injection Ha as <-. injection Hb as <-.
  by exists s, ts, a, b, q, c.
Qed.

Lemma heap_lookup_new (w : World) (T' : DataFrame) :
  heap (set_heap (heap w ++ [T']) w) !! length (heap w) = Some T'.
Proof. simpl. by rewrite list_lookup_middle. Qed.

Lemma heap_lookup_old (w : World) (T' T0 : DataFrame) (r0 : nat) :
  heap w !! r0 = Some T0 -> heap (set_heap (heap w ++ [T']) w) !! r0 = Some T0.
Proof. intros H. simpl. by apply lookup_app_l_Some. Qed.

End Heap.

(** ** The order of binary64 *)

Lemma SFcompare_antisym (x y : spec_float) :
  SFcompare y x = option_map CompOpp (SFcompare x y).
Proof.
  destruct x as [sx|sx| |sx mx ex], y as [sy|sy| |sy my ey]; simpl;
    try (destruct sx); try (destruct sy); try reflexivity.
  - rewrite (Z.compare_antisym ex ey).
    destruct (ex ?= ey); simpl; try reflexivity.
    pose proof (Pos.compare_cont_antisym mx my Eq) as H. simpl in H. by rewrite H.
  - rewrite (Z.compare_antisym ex ey).
    destruct (ex ?= ey); simpl; try reflexivity.
    pose proof (Pos.compare_cont_antisym mx my Eq) as H. simpl in H. by rewrite H.
Qed.

Lemma isnan_Prim2SF (x : float) : isnan x = true -> Prim2SF x = S754_nan.
Proof. unfold isnan, Prim2SF. by intros ->. Qed.

Lemma float_ltb_nan (c x : float) : isnan x = true -> PrimFloat.ltb c x = false.
Proof.
  intros H. rewrite ltb_spec, (isnan_Prim2SF x H). unfold SFltb.
  by destruct (Prim2SF c).
Qed.

(** [c < x] excludes [x <= c]. *)
Lemma float_ltb_not_leb (c x : float) :
  PrimFloat.ltb c x = true -> PrimFloat.leb x c = false.
Proof.
  rewrite ltb_spec, leb_spec. unfold SFltb, SFleb.
  rewrite (SFcompare_antisym (Prim2SF c) (Prim2SF x)).
  by destruct (SFcompare (Prim2SF c) (Prim2SF x)) as [[]|].
Qed.

(** A float that is above some float is a number; when it is not above
    the number [c], it is at most [c]. *)
Lemma float_not_ltb_leb (c0 c x : float) :
  Prim2SF c <> S754_nan ->
  PrimFloat.ltb c0 x = true -> PrimFloat.ltb c x = false -> PrimFloat.leb x c = true.
Proof.
  intros Hc. rewrite !ltb_spec, leb_spec. unfold SFltb, SFleb.
  rewrite (SFcompare_antisym (Prim2SF c) (Prim2SF x)).
  destruct (Prim2SF x) eqn:Ex; destruct (Prim2SF c0) eqn:Ec0;
    try discriminate; destruct (Prim2SF c) eqn:Ec; try done;
    simpl; repeat match goal with
                  | |- context [if ?b then _ else _] => destruct b
                  | |- context [match ?a ?= ?b with _ => _ end] => destruct (a ?= b)
                  | |- context [Pos.compare_cont ?c ?a ?b] => destruct (Pos.compare_cont c a b)
                  end; simpl; try done.
Qed.

(** A float above a positive number is above zero. *)
Lemma float_ltb_pos (c x : float) (m : positive) (e : Z) :
  Prim2SF c = S754_finite false m e ->
  PrimFloat.ltb c x = true -> PrimFloat.ltb 0 x = true.
Proof.
  intros Hc. rewrite !ltb_spec, Hc.
  replace (Prim2SF 0) with (S754_zero false) by reflexivity.
  unfold SFltb. destruct (Prim2SF x) as [s|s| |s m' e']; simpl; try destruct s; done.
Qed.

Lemma size_bins_floats :
  float_of_Z <$> size_bins = [0%float; 50%float; 200%float; 500%float].
Proof. reflexivity. Qed.

(** [pd.cut] with the program's bins is the specification's binning, on
    integers and on floats. *)
Lemma cut_Z_size_category (z : Z) :
  cut_Z size_bins size_labels z = size_category_of_Z z.
Proof.
  unfold cut_Z, size_category_of_Z, size_bins, size_labels, cut_label. simpl.
  repeat match goal with
         | |- context [?a <? ?b] => destruct (Z.ltb_spec a b); simpl
         | |- context [?a <=? ?b] => destruct (Z.leb_spec a b); simpl
         end; try reflexivity; lia.
Qed.

Lemma cut_float_size_category (x : float) :
  cut_float size_bins size_labels x = size_category_of_float x.
Proof.
  unfold cut_float, size_category_of_float. rewrite size_bins_floats.
  destruct (isnan x) eqn:Hnan.
  { by rewrite !(float_ltb_nan _ x Hnan). }
  unfold cut_label, size_labels. simpl.
  destruct (PrimFloat.ltb 0 x) eqn:H0; simpl.
  2:{ assert (Hpos : forall c m e, Prim2SF c = S754_finite false m e ->
                PrimFloat.ltb c x = false).
      { intros c m e Hc. destruct (PrimFloat.ltb c x) eqn:E; [|done].
        by rewrite (float_ltb_pos c x m e Hc E) in H0. }
      by rewrite (Hpos 50%float _ _ eq_refl), (Hpos 200%float _ _ eq_refl). }
  destruct (PrimFloat.ltb 50 x) eqn:H50; simpl.
  2:{ by rewrite (float_not_ltb_leb 0 50 x). }
  rewrite (float_ltb_not_leb 50 x H50). simpl.
  destruct (PrimFloat.ltb 200 x) eqn:H200; simpl.
  2:{ by rewrite (float_not_ltb_leb 0 200 x). }
  rewrite (float_ltb_not_leb 200 x H200). simpl.
  destruct (PrimFloat.ltb 500 x) eqn:H500; simpl.
  2:{ by rewrite (float_not_ltb_leb 0 500 x). }
  by rewrite (float_ltb_not_leb 500 x H500).
Qed.

(** ** The classes of binary64 and division by zero *)

(** The classes of binary64, read off [Prim2SF]. *)
Lemma Prim2SF_nan_isnan (x : float) : Prim2SF x = S754_nan -> isnan x = true.
Proof.
  unfold isnan, Prim2SF. destruct (is_nan x); [done|].
  destruct (is_zero x); [discriminate|]. destruct (is_infinity x); [discriminate|].
  destruct (Z.frexp x) as [r e].
  destruct (shr_fexp _ _ _ _ _) as [shr e']. by destruct (shr_m shr).
Qed.

Lemma isnan_false_Prim2SF (x : float) : isnan x = false -> Prim2SF x <> S754_nan.
Proof. intros H E. apply Prim2SF_nan_isnan in E. congruence. Qed.

Lemma isinf_Prim2SF (x : float) :
  isinf x = match Prim2SF x with S754_infinity _ => true | _ => false end.
Proof.
  unfold isinf, is_infinity. rewrite FloatAxioms.eqb_spec, abs_spec.
  replace (Prim2SF infinity) with (S754_infinity false) by reflexivity.
  destruct (Prim2SF x) as [s|s| |s m e]; simpl; try done.
Qed.

Lemma float_eqb_zero (y : float) :
  PrimFloat.eqb y 0 = match Prim2SF y with S754_zero _ => true | _ => false end.
Proof.
  rewrite FloatAxioms.eqb_spec.
  replace (Prim2SF 0) with (S754_zero false) by reflexivity.
  destruct (Prim2SF y) as [s|s| |s m e]; simpl; try done; by destruct s.
Qed.

(** Division by zero: a number that is not zero gives an infinity, zero
    and NaN give NaN. *)
Lemma Prim2SF_div_zero (x y : float) :
  PrimFloat.eqb y 0 = true ->
  exists s, Prim2SF (PrimFloat.div x y) =
            if isnan x || PrimFloat.eqb x 0 then S754_nan else S754_infinity s.
Proof.
  rewrite !float_eqb_zero, div_spec. intros Hy.
  destruct (Prim2SF y) as [sy|sy| |sy my ey] eqn:Ey; try discriminate.
  destruct (Prim2SF x) as [sx|sx| |sx mx ex] eqn:Ex; simpl.
  - exists false. by rewrite orb_true_r.
  - exists (xorb sx sy). destruct (isnan x) eqn:Hn; [|done].
    apply isnan_Prim2SF in Hn. congruence.
  - exists false. by rewrite (Prim2SF_nan_isnan x Ex).
  - exists (xorb sx sy). destruct (isnan x) eqn:Hn; [|done].
    apply isnan_Prim2SF in Hn. congruence.
Qed.

(** What [replace] leaves of a quotient by zero. *)
Lemma quotient_by_zero (x y : float) :
  PrimFloat.eqb y 0 = true ->
  (if isinf (PrimFloat.div x y) then 0%float else PrimFloat.div x y) =
  if isnan x || PrimFloat.eqb x 0 then nan else 0%float.
Proof.
  intros Hy. destruct (Prim2SF_div_zero x y Hy) as [s Hq].
  rewrite isinf_Prim2SF, Hq.
  destruct (isnan x || PrimFloat.eqb x 0); [|done].
  by apply Prim2SF_inj.
Qed.


(** ** The ranges of the calendar *)

Lemma ts_month_range (ns : Z) : 1 <= ts_month ns <= 12.
Proof.
  unfold ts_month, civil_from_days. cbn [fst snd].
  set (z := ns / ns_per_day + 719468).
  set (doe := z - z / 146097 * 146097).
  assert (Hdoe : 0 <= doe <= 146096) by (unfold doe; Z.div_mod_to_equations; lia).
  clearbody doe. clear z.
  set (yoe := (doe - doe / 1460 + doe / 36524 - doe / 146096) / 365).
  set (doy := doe - (365 * yoe + yoe / 4 - yoe / 100)).
  assert (Hdoy : 0 <= doy <= 365) by (unfold doy, yoe; Z.div_mod_to_equations; lia).
  clearbody doy. clear yoe.
  set (mp := (5 * doy + 2) / 153).
  assert (Hmp : 0 <= mp <= 11) by (unfold mp; Z.div_mod_to_equations; lia).
  clearbody mp. destruct (Z.ltb_spec mp 10); lia.
Qed.

Lemma ts_hour_range (ns : Z) : 0 <= ts_hour ns <= 23.
Proof. unfold ts_hour, ns_per_day, ns_per_hour. Z.div_mod_to_equations. lia. Qed.

Lemma ts_day_name_weekday (ns : Z) : ts_day_name ns ∈ weekday_names.
Proof.
  unfold ts_day_name.
  assert (H : (Z.to_nat ((ns / ns_per_day + 3) `mod` 7) < 7)%nat).
  { pose proof (Z.mod_pos_bound (ns / ns_per_day + 3) 7). lia. }
  revert H. generalize (Z.to_nat ((ns / ns_per_day + 3) `mod` 7)). intros n Hn.
  unfold weekday_names.
  do 7 (destruct n as [|n]; [simpl; in_list|]). lia.
Qed.

(** The integers of the calendar are floats, not NaN. *)
Lemma float_of_Z_small (z : Z) : 0 <= z < 32 -> isnan (float_of_Z z) = false.
Proof.
  intros H. replace z with (Z.of_nat (Z.to_nat z)) by lia.
  assert (Hn : (Z.to_nat z < 32)%nat) by lia.
  revert Hn. generalize (Z.to_nat z). intros n Hn.
  do 32 (destruct n as [|n]; [reflexivity|]). lia.
Qed.

(** A cell of [s.dt.month] or [s.dt.hour] at a row that has a timestamp. *)
Lemma dt_field_cell (f : Z -> Z) (ts : list (option Z)) (i : nat) (ns : Z) :
  0 <= f ns < 32 -> ts !! i = Some (Some ns) ->
  series_cells (dt_field f ts) !! i =
  Some (if existsb isna ts then VFloat (float_of_Z (f ns)) else VInt (f ns)).
Proof.
  intros Hf Hi. unfold dt_field. destruct (existsb isna ts); simpl.
  - rewrite !list_lookup_fmap, Hi. simpl. unfold value_of_float.
    by rewrite float_of_Z_small.
  - by rewrite !list_lookup_fmap, Hi.
Qed.


(** ** The median of the code is the median of the specification *)

Lemma SFcompare_total (x y : spec_float) :
  x <> S754_nan -> y <> S754_nan -> exists c, SFcompare x y = Some c.
Proof.
  destruct x as [sx|sx| |sx mx ex], y as [sy|sy| |sy my ey]; simpl; try done;
    by eexists.
Qed.

(** Two floats that are not NaN compare one way or the other. *)
Lemma float_leb_total (x y : float) :
  isnan x = false -> isnan y = false ->
  PrimFloat.leb x y = false -> PrimFloat.leb y x = true.
Proof.
  intros Hx Hy. rewrite !leb_spec. unfold SFleb.
  rewrite (SFcompare_antisym (Prim2SF x) (Prim2SF y)).
  destruct (SFcompare_total (Prim2SF x) (Prim2SF y)) as [c ->];
    [by apply isnan_false_Prim2SF..|].
  by destruct c.
Qed.

Lemma dropna_present (xs : list float) : dropna xs = present_values xs.
Proof.
  unfold dropna, present_values. induction xs as [|x xs IH]; [done|].
  rewrite filter_cons. cbn [omap list_omap]. rewrite <- IH.
  destruct (isnan x); simpl; by rewrite ?decide_True, ?decide_False by done.
Qed.

Lemma present_values_not_nan (xs : list float) :
  Forall (fun x => isnan x = false) (present_values xs).
Proof.
  unfold present_values. induction xs as [|x xs IH]; [constructor|].
  cbn [omap list_omap]. destruct (isnan x) eqn:E; simpl; [done|]. by constructor.
Qed.

Lemma float_insert_perm (x : float) (l : list float) : float_insert x l ≡ₚ x :: l.
Proof.
  induction l as [|y l IH]; [done|]. simpl.
  destruct (PrimFloat.leb x y); [done|]. rewrite IH. apply Permutation_swap.
Qed.

Lemma float_sort_perm (l : list float) : float_sort l ≡ₚ l.
Proof.
  unfold float_sort. induction l as [|x l IH]; [done|]. simpl.
  by rewrite float_insert_perm, IH.
Qed.

Lemma nondecreasing_cons (y : float) (l : list float) :
  nondecreasing (y :: l) <->
  (forall z, l !! 0%nat = Some z -> PrimFloat.leb y z = true) /\ nondecreasing l.
Proof.
  unfold nondecreasing. split.
  - intros H. split.
    + intros z Hz. by apply (H 0%nat y z).
    + intros i a b Ha Hb. by apply (H (S i) a b).
  - intros [Hhd Htl] [|i] a b Ha Hb.
    + simpl in Ha. injection Ha as <-. by apply Hhd.
    + by apply (Htl i a b).
Qed.

Lemma float_insert_head (x : float) (l : list float) (z : float) :
  float_insert x l !! 0%nat = Some z -> z = x \/ l !! 0%nat = Some z.
Proof.
  destruct l as [|y l]; simpl.
  - intros [= <-]. by left.
  - destruct (PrimFloat.leb x y); simpl; intros [= <-]; auto.
Qed.

Lemma float_insert_nondecreasing (x : float) (l : list float) :
  isnan x = false -> Forall (fun y => isnan y = false) l ->
  nondecreasing l -> nondecreasing (float_insert x l).
Proof.
  intros Hx. induction l as [|y l IH]; intros Hl Hs.
  - simpl. apply nondecreasing_cons. split; [done|]. by intros i a b.
  - apply Forall_cons in Hl as [Hy Hl].
    apply nondecreasing_cons in Hs as [Hhd Htl]. simpl.
    destruct (PrimFloat.leb x y) eqn:E.
    + apply nondecreasing_cons. split.
      * intros z [= <-]. done.
      * apply nondecreasing_cons. by split.
    + apply nondecreasing_cons. split; [|by apply IH].
      intros z Hz. apply float_insert_head in Hz as [->|Hz].
      * by apply float_leb_total.
      * by apply Hhd.
Qed.

Lemma Forall_float_insert (P : float -> Prop) (x : float) (l : list float) :
  P x -> Forall P l -> Forall P (float_insert x l).
Proof.
  intros Hx Hl. rewrite (float_insert_perm x l). by constructor.
Qed.

Lemma float_sort_nondecreasing (l : list float) :
  Forall (fun y => isnan y = false) l -> nondecreasing (float_sort l).
Proof.
  unfold float_sort. induction l as [|x l IH]; intros Hl.
  - by intros i a b.
  - apply Forall_cons in Hl as [Hx Hl]. simpl.
    apply float_insert_nondecreasing; [done| |by apply IH].
    change (foldr float_insert [] l) with (float_sort l).
    by rewrite float_sort_perm.
Qed.

Lemma median_of_middle (l : list float) : median_of l = middle_value (float_sort l).
Proof.
  unfold median_of, middle_value. cbv zeta.
  set (s := float_sort l). set (n := length s).
  rewrite <- Nat.negb_odd.
  destruct (n =? 0)%nat eqn:E0.
  - apply Nat.eqb_eq in E0. rewrite E0. simpl.
    assert (s = []) as -> by (by apply length_zero_iff_nil). done.
  - apply Nat.eqb_neq in E0. destruct (Nat.odd n) eqn:Eo; cbn [negb].
    + apply nth_lookup.
    + rewrite !nth_lookup.
      assert (Hlt : (n / 2 < n)%nat) by (apply Nat.div_lt; lia).
      destruct (lookup_lt_is_Some_2 s (n / 2)%nat Hlt) as [b ->].
      assert (Hlt' : (n / 2 - 1 < n)%nat) by lia.
      destruct (lookup_lt_is_Some_2 s (n / 2 - 1)%nat Hlt') as [a ->]. done.
Qed.

(** The value the code computes is a median of the column. *)
Lemma median_of_is_median (xs : list float) : is_median xs (median_of (dropna xs)).
Proof.
  exists (float_sort (dropna xs)). split_and!.
  - rewrite float_sort_perm. by rewrite dropna_present.
  - apply float_sort_nondecreasing. rewrite dropna_present.
    apply present_values_not_nan.
  - apply median_of_middle.
Qed.

(** ** Paths: the directory of a file in a normalised directory *)

Lemma list_ascii_of_string_app (a b : string) :
  list_ascii_of_string (a +:+ b) = list_ascii_of_string a ++ list_ascii_of_string b.
Proof. induction a as [|c a IH]; [done|]. simpl. by rewrite IH. Qed.

Lemma drop_while_app {A : Type} (f : A -> bool) (l1 l2 : list A) :
  forallb f l1 = true -> drop_while f (l1 ++ l2) = drop_while f l2.
Proof.
  induction l1 as [|x l1 IH]; [done|]. simpl.
  intros [Hx Hl]%andb_true_iff. rewrite Hx. by apply IH.
Qed.

Lemma forallb_rev {A : Type} (f : A -> bool) (l : list A) :
  forallb f (rev l) = forallb f l.
Proof.
  induction l as [|x l IH]; [done|]. simpl.
  rewrite forallb_app, IH. simpl. rewrite andb_true_r. apply andb_comm.
Qed.

Lemma list_snoc {A : Type} (l : list A) : l <> [] -> exists pre c, l = pre ++ [c].
Proof. induction l as [|c l _] using rev_ind; [done|]. by exists l, c. Qed.

(** A plain name ends with a character that is not a slash. *)
Lemma plain_name_last (f : string) :
  plain_name f = true ->
  forallb (fun c => negb (is_slash c)) (list_ascii_of_string f) = true /\
  exists pre c, list_ascii_of_string f = pre ++ [c] /\ is_slash c = false.
Proof.
  unfold plain_name. rewrite !andb_true_iff. intros (((Hne & _) & _) & Hall).
  split; [done|].
  assert (Hl : list_ascii_of_string f <> []) by (by destruct f).
  destruct (list_snoc _ Hl) as (pre & c & E). exists pre, c. split; [done|].
  rewrite E, forallb_app in Hall. apply andb_true_iff in Hall as [_ Hc].
  simpl in Hc. by destruct (is_slash c).
Qed.

Lemma concat_names_last (names : list string) :
  names <> [] -> forallb plain_name names = true ->
  exists pre c, list_ascii_of_string (String.concat "/" names) = pre ++ [c] /\
                is_slash c = false.
Proof.
  induction names as [|x names IH]; [done|]. intros _. simpl.
  intros [Hx Hnames]%andb_true_iff.
  destruct names as [|y names].
  - by destruct (plain_name_last x Hx) as [_ ?].
  - destruct IH as (pre & c & Hpre & Hc); [done|done|].
    exists (list_ascii_of_string x ++ "/"%char :: pre), c. split; [|done].
    rewrite !list_ascii_of_string_app, Hpre. simpl. by rewrite <- app_assoc.
Qed.

Lemma normal_path_last (p : string) :
  normal_path p ->
  exists pre c, list_ascii_of_string p = pre ++ [c] /\ is_slash c = false.
Proof.
  intros (names & Hne & Hall & ->). by apply concat_names_last.
Qed.

(** [os.path.join] of a normalised directory and a plain name puts one
    slash between them, and [os.path.dirname] takes it off again. *)
Lemma path_join_plain (P f : string) :
  normal_path P -> plain_name f = true -> path_join P f = P +:+ "/" +:+ f.
Proof.
  intros HP Hf. unfold path_join.
  destruct (plain_name_last f Hf) as [Hall _].
  assert (Hpre : String.prefix "/" f = false).
  { destruct f as [|c f]; [done|]. cbn [list_ascii_of_string forallb] in Hall.
    cbn [String.prefix]. apply andb_true_iff in Hall as [Hc _].
    destruct (ascii_dec "/" c) as [<-|]; [|done]. by vm_compute in Hc. }
  rewrite Hpre.
  destruct (normal_path_last P HP) as (pre & c & Hpre' & Hc).
  assert (HPne : String.eqb P "" = false).
  { destruct P; [by destruct pre|done]. }
  rewrite HPne. unfold ends_with_slash. rewrite Hpre', last_snoc, Hc. done.
Qed.

Lemma dirname_join_plain (P f : string) :
  normal_path P -> plain_name f = true -> dirname (path_join P f) = P.
Proof.
  intros HP Hf. rewrite path_join_plain by done.
  destruct (plain_name_last f Hf) as [Hall _].
  destruct (normal_path_last P HP) as (pre & c & Hpre & Hc).
  unfold dirname.
  rewrite !list_ascii_of_string_app. cbn [list_ascii_of_string app].
  set (lP := list_ascii_of_string P) in *. set (lf := list_ascii_of_string f) in *.
  rewrite rev_app_distr. cbn [rev]. rewrite <- app_assoc. cbn [app].
  rewrite drop_while_app by (by rewrite forallb_rev).
  cbn [drop_while]. change (is_slash "/") with true. cbn [negb].
  cbn [rev]. rewrite rev_involutive.
  assert (Hns : forallb is_slash (lP ++ ["/"%char]) = false).
  { rewrite Hpre, !forallb_app. cbn [forallb]. rewrite Hc. by rewrite andb_false_r. }
  rewrite Hns. rewrite rev_app_distr. cbn [rev app drop_while].
  change (is_slash "/") with true. cbn iota.
  rewrite Hpre, rev_app_distr. cbn [rev app drop_while].
  rewrite Hc. change (c :: rev pre) with ([c] ++ rev pre).
  rewrite rev_app_distr, rev_involutive. cbn [rev app].
  rewrite <- Hpre. apply string_of_list_ascii_of_string.
Qed.

Lemma string_append_assoc (a b c : string) : (a +:+ b) +:+ c = a +:+ (b +:+ c).
Proof.
  rewrite <- (string_of_list_ascii_of_string ((a +:+ b) +:+ c)).
  rewrite <- (string_of_list_ascii_of_string (a +:+ (b +:+ c))).
  by rewrite !list_ascii_of_string_app, app_assoc.
Qed.

Lemma concat_names_snoc (x : string) (names : list string) (f : string) :
  String.concat "/" ((x :: names) ++ [f]) = String.concat "/" (x :: names) +:+ "/" +:+ f.
Proof.
  revert x. induction names as [|y names IH]; intros x.
  - cbn [String.concat app]. done.
  - change ((x :: y :: names) ++ [f]) with (x :: ((y :: names) ++ [f])).
    change (String.concat "/" (x :: (y :: names) ++ [f]))
      with (x +:+ "/" +:+ String.concat "/" ((y :: names) ++ [f])).
    rewrite IH.
    change (String.concat "/" (x :: y :: names))
      with (x +:+ "/" +:+ String.concat "/" (y :: names)).
    by rewrite !string_append_assoc.
Qed.

(** The path of a plain name in a normalised directory is normalised. *)
Lemma normal_path_join (P f : string) :
  normal_path P -> plain_name f = true -> normal_path (path_join P f).
Proof.
  intros HP Hf. rewrite path_join_plain by done.
  destruct HP as (names & Hne & Hall & ->).
  exists (names ++ [f]). split_and!.
  - by destruct names.
  - rewrite forallb_app, Hall. cbn [forallb]. by rewrite Hf.
  - destruct names as [|x names]; [done|]. by rewrite concat_names_snoc.
Qed.

(** ** [pd.to_datetime] on a column of strings: one format *)

Section Dates.
Context {lib : Library}.

(** The strings of a column are read with the format of the first: a
    string the format does not read makes the conversion raise, whether
    or not it is a date in another format. *)
Lemma to_datetime_one_format (xs : list (option string)) (first fmt str : string)
    (i : nat) :
  List.find (fun o => negb (is_null_text o)) xs = Some (Some first) ->
  guess_datetime_format first = Some fmt ->
  xs !! i = Some (Some str) -> is_null_text (Some str) = false ->
  is_ok (strptime fmt str) = false ->
  is_ok (to_datetime (Object xs)) = false.
Proof.
  intros Hfirst Hfmt Hi Hnull Hstr.
  unfold to_datetime, strings_to_datetime. rewrite Hfirst, Hfmt.
  destruct (strptime fmt str) as [t|e] eqn:E; [discriminate|].
  destruct (result_mapM_raises (text_to_datetime (strptime fmt)) xs i (Some str) e Hi)
    as [e' ->]; [|done].
  unfold text_to_datetime. by rewrite Hnull.
Qed.

End Dates.

(** Two timestamps, each in a format of its own, do not convert. *)
Example to_datetime_two_formats :
  is_ok (@to_datetime Sim.lib
           (Object [Some "2023-01-01 00:00:00"; Some "2023-01-02T07:30:00"])) = false /\
  @to_datetime Sim.lib (Object [Some "2023-01-01 00:00:00"; Some "2023-01-02 07:30:00"])
    = Ok (Datetime64 [Some t_jan1; Some t_jan2]).
Proof. split; vm_compute; reflexivity. Qed.

(** ** Imputation, column by column *)

Lemma existsb_false_lookup {A : Type} (p : A -> bool) (l : list A) (i : nat) (x : A) :
  existsb p l = false -> l !! i = Some x -> p x = false.
Proof.
  revert i. induction l as [|y l IH]; intros i; simpl; [done|].
  intros [Hy Hl]%orb_false_elim. destruct i; simpl.
  - by intros [= <-].
  - by apply IH.
Qed.

Lemma fmap_id_on {A : Type} (p : A -> bool) (f : A -> A) (l : list A) :
  (forall x, p x = false -> f x = x) -> existsb p l = false -> f <$> l = l.
Proof.
  intros Hf. induction l as [|y l IH]; [done|]. cbn [existsb].
  intros [Hy Hl]%orb_false_elim. rewrite fmap_cons. by rewrite Hf, IH.
Qed.

Lemma impute_series_Float64 (xs : list float) :
  impute_series (Float64 xs) =
  Float64 ((fun x => if isnan x then median_of (dropna xs) else x) <$> xs).
Proof.
  unfold impute_series. simpl. destruct (existsb isnan xs) eqn:E; [done|].
  f_equal. symmetry. apply (fmap_id_on isnan); [|done]. by intros x ->.
Qed.

Lemma impute_series_Object (xs : list (option string)) :
  impute_series (Object xs) =
  Object ((fun o => Some (default "Desconocido" o)) <$> xs).
Proof.
  unfold impute_series. simpl. destruct (existsb isna xs) eqn:E; [done|].
  f_equal. symmetry. apply (fmap_id_on isna); [|done]. by intros [x|].
Qed.

Lemma series_len_impute (s : Series) : series_len (impute_series s) = series_len s.
Proof.
  destruct s; try done.
  - rewrite impute_series_Float64. simpl. by rewrite length_fmap.
  - rewrite impute_series_Object. simpl. by rewrite length_fmap.
Qed.

(** Imputation leaves the cells that hold a value as they are. *)
Lemma impute_series_cells (s : Series) (i : nat) (v : value) :
  series_cells s !! i = Some v -> v <> NA ->
  series_cells (impute_series s) !! i = Some v.
Proof.
  destruct s; try done.
  - rewrite impute_series_Float64. simpl. rewrite !list_lookup_fmap.
    destruct (xs !! i) as [x|]; simpl; [|done].
    unfold value_of_float. destruct (isnan x) eqn:E; [by intros [= <-]|].
    rewrite E. done.
  - rewrite impute_series_Object. simpl. rewrite !list_lookup_fmap.
    destruct (xs !! i) as [[x|]|]; simpl; try done. by intros [= <-].
Qed.

Section Imputation.
Context {lib : Library}.

(** A column the later steps do not assign comes out of [transform_data]
    imputed and otherwise as it went in. *)
Lemma transform_data_column (self : DataProcessor) (df r : nat) (w w' : World)
    (T : DataFrame) (C : string) (s : Series) :
  heap w !! df = Some T -> NoDup (columns T) ->
  transform_data self df w = (w', Ok r) ->
  C ∉ assigned_columns -> frame_get C T = Some s ->
  exists T', heap w' !! r = Some T' /\ frame_get C T' = Some (impute_series s).
Proof.
  intros H Hnd Hrun HC Hs.
  destruct (transform_data_ok _ _ _ _ _ _ H Hnd Hrun)
    as (s0 & ts & a & b & q & c & _ & _ & _ & _ & _ & _ & -> & ->).
  eexists. split; [apply heap_lookup_new|].
  rewrite frame_get_with_features_other by done.
  by rewrite frame_get_impute_frame, Hs.
Qed.

(** C5. For every categorical ([object]) column C of the input that is
    neither the timestamp column nor a derived column, after
    [transform_data] every cell of C that was missing holds the sentinel
    ['Desconocido'] (the specification's "Unknown") and every other cell
    holds what it held. *)
Theorem categorical_imputation_sentinel (self : DataProcessor) (df r : nat)
    (w w' : World) (T : DataFrame) (C : string) (xs : list (option string)) :
  heap w !! df = Some T -> NoDup (columns T) ->
  C ∉ assigned_columns ->
  frame_get C T = Some (Object xs) ->
  transform_data self df w = (w', Ok r) ->
  exists T' ys,
    heap w' !! r = Some T' /\
    frame_get C T' = Some (Object ys) /\
    length ys = length xs /\
    forall i o, xs !! i = Some o ->
      ys !! i = Some (match o with
                      | None => Some "Desconocido"
                      | Some v => Some v
                      end).
Proof.
  intros H Hnd HC Hs Hrun.
  destruct (transform_data_column _ _ _ _ _ _ _ _ H Hnd Hrun HC Hs) as (T' & HT' & Hget).
  rewrite impute_series_Object in Hget.
  exists T', ((fun o => Some (default "Desconocido" o)) <$> xs).
  split_and!; [done|done|by rewrite length_fmap|].
  intros i o Hi. rewrite list_lookup_fmap, Hi. by destruct o.
Qed.

(** C4. For every numeric column C of the input with at least one missing
    value (that is neither the timestamp column nor a derived column),
    after [transform_data] every cell of C that was missing holds the
    median [m] of the values C held, every other cell holds what it held,
    and the column that comes out is the same for every input frame that
    holds the same column C: the median depends on no other column.  That
    [m] is the median is stated as the specification words it: there is an
    arrangement in nondecreasing order of the values of C that are not
    missing, of which [m] is the middle value, or the mean of the two
    middle values when their number is even. *)
Theorem numeric_imputation_median (self : DataProcessor) (df r : nat)
    (w w' : World) (T : DataFrame) (C : string) (s : Series) :
  heap w !! df = Some T -> NoDup (columns T) ->
  C ∉ assigned_columns ->
  frame_get C T = Some s -> is_number s = true -> isnull_any s = true ->
  transform_data self df w = (w', Ok r) ->
  exists T' xs ys m,
    s = Float64 xs /\
    heap w' !! r = Some T' /\
    frame_get C T' = Some (Float64 ys) /\
    length ys = length xs /\
    is_median xs m /\
    (forall i x, xs !! i = Some x ->
       ys !! i = Some (if isnan x then m else x)) /\
    (forall (df2 r2 : nat) (w2 w2' : World) (T2 : DataFrame),
       heap w2 !! df2 = Some T2 -> NoDup (columns T2) ->
       frame_get C T2 = Some s ->
       transform_data self df2 w2 = (w2', Ok r2) ->
       exists T2', heap w2' !! r2 = Some T2' /\ frame_get C T2' = Some (Float64 ys)).
Proof.
  intros H Hnd HC Hs Hnum Hnull Hrun.
  destruct s as [zs|xs| | |]; try discriminate.
  destruct (transform_data_column _ _ _ _ _ _ _ _ H Hnd Hrun HC Hs) as (T' & HT' & Hget).
  rewrite impute_series_Float64 in Hget.
  exists T', xs, ((fun x => if isnan x then median_of (dropna xs) else x) <$> xs),
    (median_of (dropna xs)).
  split_and!; [done|done|done|by rewrite length_fmap| | |].
  - apply median_of_is_median.
  - intros i x Hi. by rewrite list_lookup_fmap, Hi.
  - intros df2 r2 w2 w2' T2 H2 Hnd2 Hs2 Hrun2.
    destruct (transform_data_column _ _ _ _ _ _ _ _ H2 Hnd2 Hrun2 HC Hs2)
      as (T2' & HT2' & Hget2).
    rewrite impute_series_Float64 in Hget2. by exists T2'.
Qed.

End Imputation.

Section Claims_transform.
Context {lib : Library}.

(** C3. After [transform_data], the size category of every row is a
    function of the row's page count alone, by right-inclusive bins: 1 to
    50 pages give [Pequeño] (Small), 51 to 200 [Mediano] (Medium), 201 to
    500 [Grande] (Large), and 0 pages or more than 500 give a missing
    category.  The page count is the one step 1 left: in a [float64]
    column a missing count has been replaced by the column's median. *)
Theorem size_category_bins (self : DataProcessor) (df r : nat) (w w' : World)
    (T : DataFrame) (s : Series) :
  heap w !! df = Some T -> NoDup (columns T) ->
  frame_get "cantidad_paginas" T = Some s ->
  transform_data self df w = (w', Ok r) ->
  exists T' lbls,
    heap w' !! r = Some T' /\
    frame_get "categoria_tamano" T' = Some (Category size_labels lbls) /\
    length lbls = series_len s /\
    match s with
    | Int64 zs =>
        forall i z, zs !! i = Some z -> lbls !! i = Some (size_category_of_Z z)
    | Float64 xs =>
        forall i x, xs !! i = Some x ->
          lbls !! i = Some (size_category_of_float
                              (if isnan x then median_of (dropna xs) else x))
    | _ => False
    end.
Proof.
  intros H Hnd Hs Hrun.
  destruct (transform_data_ok _ _ _ _ _ _ H Hnd Hrun)
    as (s0 & ts & a & b & q & c & _ & _ & _ & Hb & _ & Hc & -> & ->).
  rewrite Hs in Hb. injection Hb as <-.
  eexists. 
  destruct s as [zs|xs| | |]; try discriminate Hc.
  - injection Hc as <-. eexists. split_and!.
    + apply heap_lookup_new.
    + unfold with_features. by rewrite frame_get_set_eq.
    + by rewrite length_fmap.
    + intros i z Hi. by rewrite list_lookup_fmap, Hi, <- cut_Z_size_category.
  - rewrite impute_series_Float64 in Hc. injection Hc as <-. eexists. split_and!.
    + apply heap_lookup_new.
    + unfold with_features. by rewrite frame_get_set_eq.
    + by rewrite !length_fmap.
    + intros i x Hi. rewrite !list_lookup_fmap, Hi. simpl.
      by rewrite cut_float_size_category.
  - rewrite impute_series_Object in Hc. discriminate Hc.
Qed.

End Claims_transform.

(** C2: the code at a job of 0 pages and cost 0.  The quotient 0/0 is NaN,
    [replace] turns only the infinities into 0, and the cost per page comes
    out missing, where the claim has it 0 and finite. *)
Lemma cost_per_page_zero_over_zero :
  series_cells <$> frame_get "cantidad_paginas" jobs_zero_pages = Some [VInt 0; VInt 600] /\
  series_cells <$> frame_get "costo_estimado" jobs_zero_pages
    = Some [VFloat 0; VFloat 100] /\
  run_zero_pages.2 = Ok 1%nat /\
  column_at run_zero_pages.1 1 "costo_por_pagina"
    = Some (Float64 [nan; PrimFloat.div 100 600]).
Proof. vm_compute. done. Qed.

Lemma size_category_bins_witness :
  exists T' lbls,
    heap run_plain.1 !! 1%nat = Some T' /\
    frame_get "categoria_tamano" T' = Some (Category size_labels lbls) /\
    length lbls = 2%nat /\
    forall i z, [10; 200] !! i = Some z -> lbls !! i = Some (size_category_of_Z z).
Proof.
  apply (size_category_bins (lib := Sim.lib) processor 0 1 (world_of jobs_plain)
           run_plain.1 jobs_plain (Int64 [10; 200])).
  - reflexivity.
  - compute_done.
  - reflexivity.
  - apply pair_with_snd. vm_compute. reflexivity.
Defined.

Lemma categorical_imputation_sentinel_witness :
  exists T' ys,
    heap run_gaps.1 !! 1%nat = Some T' /\
    frame_get "departamento" T' = Some (Object ys) /\
    length ys = length [None; Some "Letras"; Some "Historia"] /\
    forall i o, [None; Some "Letras"; Some "Historia"] !! i = Some o ->
      ys !! i = Some (match o with
                      | None => Some "Desconocido"
                      | Some v => Some v
                      end).
Proof.
  apply (categorical_imputation_sentinel (lib := Sim.lib) processor 0 1
           (world_of jobs_gaps) run_gaps.1 jobs_gaps "departamento"
           [None; Some "Letras"; Some "Historia"]).
  - reflexivity.
  - compute_done.
  - compute_done.
  - reflexivity.
  - apply pair_with_snd. vm_compute. reflexivity.
Defined.

Lemma numeric_imputation_median_witness :
  exists T' xs ys m,
    Float64 [2%float; nan; 4%float] = Float64 xs /\
    heap run_gaps.1 !! 1%nat = Some T' /\
    frame_get "tiempo_produccion_horas" T' = Some (Float64 ys) /\
    length ys = length xs /\
    is_median xs m /\
    (forall i x, xs !! i = Some x ->
       ys !! i = Some (if isnan x then m else x)) /\
    (forall (df2 r2 : nat) (w2 w2' : @World Sim.lib) (T2 : DataFrame),
       heap w2 !! df2 = Some T2 -> NoDup (columns T2) ->
       frame_get "tiempo_produccion_horas" T2 = Some (Float64 [2%float; nan; 4%float]) ->
       transform_data processor df2 w2 = (w2', Ok r2) ->
       exists T2', heap w2' !! r2 = Some T2' /\
         frame_get "tiempo_produccion_horas" T2' = Some (Float64 ys)).
Proof.
  apply (numeric_imputation_median (lib := Sim.lib) processor 0 1
           (world_of jobs_gaps) run_gaps.1 jobs_gaps "tiempo_produccion_horas").
  - reflexivity.
  - compute_done.
  - compute_done.
  - reflexivity.
  - reflexivity.
  - reflexivity.
  - apply pair_with_snd. vm_compute. reflexivity.
Defined.

(** The median at work: of 2 and 4 it is 3, and the missing production
    time of [jobs_gaps] becomes 3. *)
Example median_example :
  median_of (dropna [2%float; nan; 4%float]) = 3%float /\
  column_at run_gaps.1 1 "tiempo_produccion_horas"
    = Some (Float64 [2%float; 3%float; 4%float]).
Proof. vm_compute. done. Qed.

(** The specification's scenario: a job of 10 pages at cost 100 on
    2023-01-01 with no department comes out with department
    ['Desconocido'], cost per page 10, size [Pequeño] and month 1. *)
Example scenario_example :
  run_gaps.2 = Ok 1%nat /\
  (fun s => series_cells s !! 0%nat) <$> column_at run_gaps.1 1 "departamento"
    = Some (Some (VStr "Desconocido")) /\
  (fun s => series_cells s !! 0%nat) <$> column_at run_gaps.1 1 "costo_por_pagina"
    = Some (Some (VFloat 10)) /\
  (fun s => series_cells s !! 0%nat) <$> column_at run_gaps.1 1 "categoria_tamano"
    = Some (Some (VStr "Pequeño")) /\
  (fun s => series_cells s !! 0%nat) <$> column_at run_gaps.1 1 "mes"
    = Some (Some (VInt 1)).
Proof. vm_compute. done. Qed.

(** ** The timestamp column and the shape of the result *)

Lemma existsb_true_lookup {A : Type} (p : A -> bool) (l : list A) (i : nat) (x : A) :
  l !! i = Some x -> p x = true -> existsb p l = true.
Proof.
  revert i. induction l as [|y l IH]; intros i; [done|]. cbn [existsb].
  destruct i; simpl.
  - intros [= ->] ->. done.
  - intros Hi Hx. rewrite (IH _ Hi Hx). apply orb_true_r.
Qed.

Lemma dt_field_NaT (f : Z -> Z) (ts : list (option Z)) (i : nat) :
  ts !! i = Some None -> series_cells (dt_field f ts) !! i = Some NA.
Proof.
  intros Hi. unfold dt_field.
  rewrite (existsb_true_lookup isna ts i None Hi eq_refl). simpl.
  by rewrite !list_lookup_fmap, Hi.
Qed.

Lemma series_len_dt_field (f : Z -> Z) (ts : list (option Z)) :
  series_len (dt_field f ts) = length ts.
Proof. unfold dt_field. destruct (existsb isna ts); simpl; by rewrite length_fmap. Qed.

Lemma frame_get_with_features_derived (T : DataFrame) (ts : list (option Z)) (q c : Series) :
  frame_get "fecha_solicitud" (with_features T ts q c) = Some (Datetime64 ts) /\
  frame_get "mes" (with_features T ts q c) = Some (dt_month ts) /\
  frame_get "dia_semana" (with_features T ts q c) = Some (dt_day_name ts) /\
  frame_get "hora" (with_features T ts q c) = Some (dt_hour ts) /\
  frame_get "costo_por_pagina" (with_features T ts q c) = Some (series_replace_inf q) /\
  frame_get "categoria_tamano" (with_features T ts q c) = Some c.
Proof. unfold with_features. split_and!; by frame_lookup. Qed.

Lemma frame_get_Some_In (c : string) (s : Series) (T : DataFrame) :
  frame_get c T = Some s -> (c, s) ∈ T.
Proof.
  induction T as [|[k s'] T IH]; simpl; [done|].
  destruct (String.eqb_spec k c) as [->|Hk].
  - intros [= ->]. apply elem_of_cons. by left.
  - intros H. apply elem_of_cons. right. by apply IH.
Qed.

Lemma wf_frame_get_len (c : string) (s : Series) (T : DataFrame) :
  wf_frame T -> frame_get c T = Some s -> series_len s = nrows T.
Proof.
  intros [_ Hlen] Hs. rewrite Forall_forall in Hlen.
  apply (Hlen (c, s)). by apply frame_get_Some_In.
Qed.

Lemma nrows_impute_frame (T : DataFrame) : nrows (impute_frame T) = nrows T.
Proof. destruct T as [|[k s] T]; [done|]. simpl. apply series_len_impute. Qed.

Lemma wf_impute_frame (T : DataFrame) : wf_frame T -> wf_frame (impute_frame T).
Proof.
  intros [Hnd Hlen]. split.
  - by rewrite columns_impute_frame.
  - rewrite nrows_impute_frame. unfold impute_frame.
    apply Forall_fmap. eapply Forall_impl; [exact Hlen|].
    intros [k s] Hs. simpl in *. by rewrite series_len_impute.
Qed.

Lemma as_floats_length (s : Series) (xs : list float) :
  as_floats s = Some xs -> length xs = series_len s.
Proof. destruct s; simpl; intros [= <-]; [by rewrite length_fmap|done]. Qed.

Section Claims_shape.
Context {lib : Library}.

Lemma series_div_length (a b q : Series) :
  series_div a b = Ok q -> series_len a = series_len b -> series_len q = series_len a.
Proof.
  unfold series_div. destruct (as_floats a) as [xs|] eqn:Ea; [|discriminate].
  destruct (as_floats b) as [ys|] eqn:Eb; [|discriminate].
  intros [= <-] Hlen. simpl. rewrite length_zip_with.
  rewrite (as_floats_length _ _ Ea), (as_floats_length _ _ Eb). lia.
Qed.

Lemma series_len_replace_inf (q : Series) :
  series_len (series_replace_inf q) = series_len q.
Proof. destruct q; try done. simpl. unfold replace_inf. by rewrite length_fmap. Qed.

Lemma pd_cut_length (s c : Series) (bins : list Z) (labels : list string) :
  pd_cut s bins labels = Ok c -> series_len c = series_len s.
Proof. destruct s; simpl; try discriminate; intros [= <-]; simpl; by rewrite length_fmap. Qed.

(** C10, as amended.  When the timestamp column holds timestamps
    ([datetime64], as in the generated sample) and the timestamp of a row
    is missing, [transform_data] leaves the column as it was, so the
    missing timestamp is replaced by neither a median nor the sentinel,
    and the month, the weekday name and the hour of that row come out
    missing. *)
Theorem missing_timestamp_stays_missing (self : DataProcessor) (df r : nat)
    (w w' : World) (T : DataFrame) (ts : list (option Z)) (i : nat) :
  heap w !! df = Some T -> NoDup (columns T) ->
  frame_get "fecha_solicitud" T = Some (Datetime64 ts) ->
  ts !! i = Some None ->
  transform_data self df w = (w', Ok r) ->
  exists T' mes dia hora,
    heap w' !! r = Some T' /\
    frame_get "fecha_solicitud" T' = Some (Datetime64 ts) /\
    frame_get "mes" T' = Some mes /\ series_cells mes !! i = Some NA /\
    frame_get "dia_semana" T' = Some dia /\ series_cells dia !! i = Some NA /\
    frame_get "hora" T' = Some hora /\ series_cells hora !! i = Some NA.
Proof.
  intros H Hnd Hs Hi Hrun.
  destruct (transform_data_ok _ _ _ _ _ _ H Hnd Hrun)
    as (s0 & ts0 & a & b & q & c & Hs0 & Hd & _ & _ & _ & _ & -> & ->).
  rewrite Hs in Hs0. injection Hs0 as <-.
  simpl in Hd. injection Hd as <-.
  destruct (frame_get_with_features_derived (impute_frame T) ts q c)
    as (Hf & Hm & Hdia & Hh & _ & _).
  exists (with_features (impute_frame T) ts q c), (dt_month ts), (dt_day_name ts), (dt_hour ts).
  split_and!; try done.
  - apply heap_lookup_new.
  - by apply dt_field_NaT.
  - simpl. by rewrite !list_lookup_fmap, Hi.
  - by apply dt_field_NaT.
Qed.

Lemma feature_steps_conversion_raises (T : DataFrame) (s : Series) (e : exn) :
  frame_get "fecha_solicitud" T = Some s -> to_datetime s = Raise e ->
  exists T', feature_steps T = (T', Raise e).
Proof.
  intros Hs Hd. unfold feature_steps, mbind, SE_bind, getitem, lift_result.
  rewrite Hs, Hd. by eexists.
Qed.

(** When the timestamp column holds strings, as [pd.read_csv] leaves
    it, step 1 takes it for a categorical column and writes the sentinel
    into its missing cells, and [pd.to_datetime] then raises, as it does on
    ['Desconocido'], which it can read with no format and cannot parse:
    [transform_data] returns no frame. *)
Lemma missing_timestamp_text_raises (self : DataProcessor) (df i : nat) (w : World)
    (T : DataFrame) (xs : list (option string)) :
  heap w !! df = Some T -> NoDup (columns T) ->
  frame_get "fecha_solicitud" T = Some (Object xs) ->
  xs !! i = Some None ->
  (forall fmt, is_ok (strptime fmt "Desconocido") = false) ->
  is_ok (parse_datetime "Desconocido") = false ->
  exists e', (transform_data self df w).2 = Raise e'.
Proof.
  intros H Hnd Hs Hi Hfmt Hparse.
  rewrite (transform_data_run _ _ _ _ H), transform_steps_run by done.
  destruct (strings_to_datetime_raises ((fun o => Some (default "Desconocido" o)) <$> xs)
              i "Desconocido") as [e' He']; try done.
  { by rewrite list_lookup_fmap, Hi. }
  destruct (feature_steps_conversion_raises (impute_frame T)
              (impute_series (Object xs)) e') as [T' ->].
  - by rewrite frame_get_impute_frame, Hs.
  - rewrite impute_series_Object. simpl. by rewrite He'.
  - by exists e'.
Qed.

End Claims_shape.

(** C10, as stated, fails on a frame read from text: the missing
    timestamp of the first job is replaced by the sentinel in step 1, and
    [transform_data] returns no frame: the conversion raises. *)
Lemma missing_timestamp_text_gets_sentinel :
  frame_get "fecha_solicitud" jobs_text_no_date
    = Some (Object [None; Some "2023-01-01 00:00:00"]) /\
  frame_get "fecha_solicitud" (impute_steps jobs_text_no_date).1
    = Some (Object [Some "Desconocido"; Some "2023-01-01 00:00:00"]) /\
  run_text_no_date.2
    = Raise (ValueError "Unknown datetime string format, unable to parse: Desconocido").
Proof. vm_compute. done. Qed.

Lemma missing_timestamp_stays_missing_witness :
  exists T' mes dia hora,
    heap run_no_date.1 !! 1%nat = Some T' /\
    frame_get "fecha_solicitud" T' = Some (Datetime64 [None; Some t_jan2]) /\
    frame_get "mes" T' = Some mes /\ series_cells mes !! 0%nat = Some NA /\
    frame_get "dia_semana" T' = Some dia /\ series_cells dia !! 0%nat = Some NA /\
    frame_get "hora" T' = Some hora /\ series_cells hora !! 0%nat = Some NA.
Proof.
  apply (missing_timestamp_stays_missing (lib := Sim.lib) processor 0 1
           (world_of jobs_no_date) run_no_date.1 jobs_no_date).
  - reflexivity.
  - compute_done.
  - reflexivity.
  - reflexivity.
  - apply pair_with_snd. vm_compute. reflexivity.
Defined.

Lemma frame_set_step (c : string) (v : Series) (T : DataFrame) (n : nat) :
  (T <> [] /\ wf_frame T /\ nrows T = n) -> series_len v = n ->
  frame_set c v T <> [] /\ wf_frame (frame_set c v T) /\ nrows (frame_set c v T) = n.
Proof.
  intros (Hne & Hwf & <-) Hv. split_and!.
  - destruct T as [|[k s] T]; [done|]. simpl. by destruct (String.eqb k c).
  - by apply wf_frame_set.
  - by apply nrows_frame_set.
Qed.

Lemma wf_with_features (T : DataFrame) (ts : list (option Z)) (q c : Series) :
  T <> [] -> wf_frame T ->
  length ts = nrows T -> series_len q = nrows T -> series_len c = nrows T ->
  wf_frame (with_features T ts q c) /\ nrows (with_features T ts q c) = nrows T.
Proof.
  intros Hne Hwf Hts Hq Hc. unfold with_features.
  assert (H : frame_set "categoria_tamano" c
                (frame_set "costo_por_pagina" (series_replace_inf q)
                   (frame_set "costo_por_pagina" q
                      (frame_set "hora" (dt_hour ts)
                         (frame_set "dia_semana" (dt_day_name ts)
                            (frame_set "mes" (dt_month ts)
                               (frame_set "fecha_solicitud" (Datetime64 ts) T))))))
              <> [] /\ wf_frame (with_features T ts q c)
              /\ nrows (with_features T ts q c) = nrows T).
  { unfold with_features.
    repeat (apply frame_set_step; [|
      first [ done
            | by rewrite series_len_replace_inf
            | by (unfold dt_month, dt_hour; rewrite series_len_dt_field)
            | by (simpl; rewrite length_fmap) ]]).
    done. }
  destruct H as (_ & ? & ?). done.
Qed.

Section Claims_frame.
Context {lib : Library}.

(** C6, as amended.  [transform_data] returns a new frame and leaves
    every frame of the heap, the input among them, as it was.  When the
    input has none of the five derived columns, the result has the
    columns of the input followed by [mes], [dia_semana], [hora],
    [costo_por_pagina], [categoria_tamano], and as many rows.  Every input
    column but the timestamp column comes out imputed and otherwise
    unchanged, cell by cell and in the same order; the timestamp column
    comes out converted by [pd.to_datetime], which changes nothing when it
    already holds timestamps. *)
Theorem transform_frame_shape (self : DataProcessor) (df r : nat) (w w' : World)
    (T : DataFrame) :
  heap w !! df = Some T -> wf_frame T ->
  (forall c, c ∈ derived_columns -> c ∉ columns T) ->
  transform_data self df w = (w', Ok r) ->
  r <> df /\
  (forall r0 T0, heap w !! r0 = Some T0 -> heap w' !! r0 = Some T0) /\
  exists T',
    heap w' !! r = Some T' /\
    columns T' = columns T ++ derived_columns /\
    nrows T' = nrows T /\ wf_frame T' /\
    forall c s, frame_get c T = Some s ->
      exists s',
        frame_get c T' = Some s' /\
        (c <> "fecha_solicitud" ->
         s' = impute_series s /\
         forall i v, series_cells s !! i = Some v -> v <> NA ->
                     series_cells s' !! i = Some v) /\
        (c = "fecha_solicitud" ->
         to_datetime (impute_series s) = Ok s' /\
         forall ts, s = Datetime64 ts -> s' = s).
Proof.
  intros H Hwf Hfresh Hrun. pose proof Hwf as [Hnd Hlen].
  destruct (transform_data_ok _ _ _ _ _ _ H Hnd Hrun)
    as (sf & ts & a & b & q & c & Hsf & Hd & Ha & Hb & Hq & Hc & -> & ->).
  split; [|split].
  { apply lookup_lt_Some in H. lia. }
  { intros r0 T0 H0. by apply heap_lookup_old. }
  set (T1 := impute_frame T).
  assert (HT1 : T1 <> []).
  { unfold T1. destruct T; [done|]. discriminate. }
  assert (Hwf1 : wf_frame T1) by (by apply wf_impute_frame).
  assert (Hn1 : nrows T1 = nrows T) by apply nrows_impute_frame.
  assert (Hts : length ts = nrows T1).
  { destruct (to_datetime_ok _ _ Hd) as (ts' & [= <-] & ->).
    rewrite series_len_impute, Hn1. by apply (wf_frame_get_len "fecha_solicitud"). }
  assert (Hlena : series_len (impute_series a) = nrows T1).
  { rewrite series_len_impute, Hn1. by apply (wf_frame_get_len "costo_estimado"). }
  assert (Hlenb : series_len (impute_series b) = nrows T1).
  { rewrite series_len_impute, Hn1. by apply (wf_frame_get_len "cantidad_paginas"). }
  assert (Hlenq : series_len q = nrows T1).
  { rewrite (series_div_length _ _ _ Hq); [done|]. by rewrite Hlena, Hlenb. }
  assert (Hlenc : series_len c = nrows T1).
  { by rewrite (pd_cut_length _ _ _ _ Hc). }
  destruct (wf_with_features T1 ts q c HT1 Hwf1 Hts Hlenq Hlenc) as [Hwf' Hn'].
  exists (with_features T1 ts q c). split_and!.
  - apply heap_lookup_new.
  - rewrite columns_with_features; unfold T1; rewrite columns_impute_frame; try done.
    by apply (frame_get_Some_elem _ sf).
  - by rewrite Hn', Hn1.
  - done.
  - intros k s Hk. destruct (decide (k = "fecha_solicitud")) as [->|Hne].
    + rewrite Hsf in Hk. injection Hk as <-.
      exists (Datetime64 ts). split_and!.
      * apply frame_get_with_features_derived.
      * done.
      * intros _. split; [done|]. intros ts' ->. simpl in Hd. by injection Hd as <-.
    + exists (impute_series s). split_and!.
      * rewrite frame_get_with_features_other.
        { unfold T1. by rewrite frame_get_impute_frame, Hk. }
        unfold assigned_columns. apply not_elem_of_cons. split; [done|].
        intros Hin. apply (Hfresh k Hin). by apply (frame_get_Some_elem _ s).
      * intros _. split; [done|]. intros i v. apply impute_series_cells.
      * done.
Qed.

End Claims_frame.

(** C6, as stated, fails on a frame read from text: the timestamp of the
    job is a string, it is not missing, and it comes out of
    [transform_data] as a timestamp, not as the string it was. *)
Lemma transform_converts_timestamp_text :
  run_text_dates.2 = Ok 1%nat /\
  series_cells <$> frame_get "fecha_solicitud" jobs_text_dates
    = Some [VStr "2023-01-01 00:00:00"] /\
  series_cells <$> column_at run_text_dates.1 1 "fecha_solicitud"
    = Some [VTime t_jan1].
Proof. vm_compute. done. Qed.

Lemma transform_frame_shape_witness :
  1%nat <> 0%nat /\
  (forall r0 T0, heap (world_of jobs_gaps) !! r0 = Some T0 ->
                 heap run_gaps.1 !! r0 = Some T0) /\
  exists T',
    heap run_gaps.1 !! 1%nat = Some T' /\
    columns T' = columns jobs_gaps ++ derived_columns /\
    nrows T' = nrows jobs_gaps /\ wf_frame T' /\
    forall c s, frame_get c jobs_gaps = Some s ->
      exists s',
        frame_get c T' = Some s' /\
        (c <> "fecha_solicitud" ->
         s' = impute_series s /\
         forall i v, series_cells s !! i = Some v -> v <> NA ->
                     series_cells s' !! i = Some v) /\
        (c = "fecha_solicitud" ->
         @to_datetime Sim.lib (impute_series s) = Ok s' /\
         forall ts, s = Datetime64 ts -> s' = s).
Proof.
  apply (transform_frame_shape (lib := Sim.lib) processor 0 1
           (world_of jobs_gaps) run_gaps.1 jobs_gaps).
  - reflexivity.
  - split; [compute_done|]. vm_compute. repeat constructor.
  - intros c Hc. unfold derived_columns in Hc.
    repeat (apply elem_of_cons in Hc as [->|Hc]; [compute_done|]).
    by apply elem_of_nil in Hc.
  - apply pair_with_snd. vm_compute. reflexivity.
Defined.

(** ** Where missing values remain *)

(** A float above a positive number is above every smaller positive
    number. *)
Lemma float_ltb_lower (c c' x : float) (m m' : positive) (e e' : Z) :
  Prim2SF c = S754_finite false m e -> Prim2SF c' = S754_finite false m' e' ->
  e' < e \/ (e' = e /\ (m' < m)%positive) ->
  PrimFloat.ltb c x = true -> PrimFloat.ltb c' x = true.
Proof.
  intros Hc Hc' Hlt. rewrite !ltb_spec, Hc, Hc'. unfold SFltb.
  destruct (Prim2SF x) as [s|s| |s mx ex]; simpl; try destruct s; try done.
  rewrite !Pos.compare_cont_spec. simpl.
  destruct (Z.compare_spec e ex), (Z.compare_spec e' ex); try done; try lia;
    destruct (Pos.compare_spec m mx), (Pos.compare_spec m' mx); try done; lia.
Qed.

Lemma isinf_not_nan (q : float) : isinf q = true -> isnan q = false.
Proof.
  rewrite isinf_Prim2SF. destruct (isnan q) eqn:E; [|done].
  by rewrite (isnan_Prim2SF q E).
Qed.

Lemma isnan_replace_inf (q : float) :
  isnan (if isinf q then 0%float else q) = isnan q.
Proof.
  destruct (isinf q) eqn:E; [|done]. by rewrite (isinf_not_nan q E).
Qed.

(** [pd.cut] leaves the category missing exactly outside (0, 500]. *)
Lemma cut_Z_None (z : Z) :
  cut_Z size_bins size_labels z = None <-> z <= 0 \/ 500 < z.
Proof.
  rewrite cut_Z_size_category. unfold size_category_of_Z.
  repeat match goal with
         | |- context [?a <=? ?b] => destruct (Z.leb_spec a b); simpl
         end; split; try done; try lia.
Qed.

Lemma cut_float_None (p : float) :
  cut_float size_bins size_labels p = None <->
  PrimFloat.ltb 0 p && PrimFloat.leb p 500 = false.
Proof.
  unfold cut_float. rewrite size_bins_floats.
  destruct (isnan p) eqn:Hnan.
  { by rewrite (float_ltb_nan 0 p Hnan). }
  unfold cut_label, size_labels. simpl.
  destruct (PrimFloat.ltb 0 p) eqn:H0; simpl; [|done].
  destruct (PrimFloat.ltb 500 p) eqn:H500.
  - assert (H50 : PrimFloat.ltb 50 p = true).
    { apply (float_ltb_lower 500 50 p 8796093022208000 7036874417766400 (-44) (-47));
        [reflexivity|reflexivity|left; lia|done]. }
    assert (H200 : PrimFloat.ltb 200 p = true).
    { apply (float_ltb_lower 500 200 p 8796093022208000 7036874417766400 (-44) (-45));
        [reflexivity|reflexivity|left; lia|done]. }
    rewrite H50, H200. simpl. by rewrite (float_ltb_not_leb 500 p H500).
  - rewrite (float_not_ltb_leb 0 500 p) by done.
    destruct (PrimFloat.ltb 50 p); simpl; [|done].
    destruct (PrimFloat.ltb 200 p); simpl; done.
Qed.

(** Step 1, on the missing values of one column. *)
Lemma existsb_fmap_fill (m : float) (xs : list float) :
  existsb isnan ((fun x => if isnan x then m else x) <$> xs) = existsb isnan xs && isnan m.
Proof.
  induction xs as [|x xs IH]; [done|].
  rewrite fmap_cons. cbn [existsb]. rewrite IH.
  destruct (isnan x) eqn:E; rewrite ?E; simpl; [|done].
  destruct (isnan m); simpl; [done|]. by rewrite andb_false_r.
Qed.

Lemma impute_series_number (s : Series) :
  is_number s = true ->
  is_number (impute_series s) = true /\
  (isnull_any (impute_series s) = false <->
   isnull_any s = false \/ isnan (series_median s) = false) /\
  (forall xs, s = Float64 xs -> is_median xs (series_median s)).
Proof.
  destruct s as [zs|xs| | |]; try discriminate; intros _.
  - split_and!; [done| |done]. simpl. split; auto.
  - rewrite impute_series_Float64. split_and!; [done| |].
    + simpl. rewrite existsb_fmap_fill, andb_false_iff. done.
    + intros ? [= <-]. apply median_of_is_median.
Qed.

Lemma impute_series_object (s : Series) :
  is_object s = true ->
  is_object (impute_series s) = true /\ isnull_any (impute_series s) = false.
Proof.
  destruct s as [| |xs| |]; try discriminate; intros _.
  rewrite impute_series_Object. split; [done|]. simpl.
  induction xs as [|x xs IH]; [done|].
  rewrite fmap_cons. cbn [existsb isna orb]. exact IH.
Qed.

(** The cells of the three columns read off the timestamps. *)
Lemma dt_field_missing (f : Z -> Z) (ts : list (option Z)) (i : nat) (t : option Z) :
  (forall ns, 0 <= f ns < 32) -> ts !! i = Some t ->
  (missing_at (dt_field f ts) i <-> t = None).
Proof.
  intros Hf Hi. unfold missing_at. destruct t as [ns|].
  - rewrite (dt_field_cell f ts i ns (Hf ns) Hi).
    split; [|done]. by destruct (existsb isna ts).
  - by rewrite dt_field_NaT.
Qed.

Lemma dt_day_name_missing (ts : list (option Z)) (i : nat) (t : option Z) :
  ts !! i = Some t -> (missing_at (dt_day_name ts) i <-> t = None).
Proof.
  intros Hi. unfold missing_at. simpl. rewrite !list_lookup_fmap, Hi.
  by destruct t.
Qed.

Section Claims_missing.
Context {lib : Library}.


End Claims_missing.



(** ** The pipeline *)

Section Pipeline.
Context {lib : Library}.

Lemma world_eta (w : World) : mkWorld (heap w) (files w) (dirs w) (rng w) = w.
Proof. by destruct w. Qed.

Lemma log_and_reraise_id {A : Type} (m : M A) (w : World) : log_and_reraise m w = m w.
Proof. unfold log_and_reraise. by destruct (m w) as [w' [a|e]]. Qed.

(** [_load_sample_data] seeds the generator anew: what it builds and the
    generator it leaves do not depend on the world it starts in. *)
Lemma load_sample_data_run (self : DataProcessor) (w : World) :
  _load_sample_data self w =
  (mkWorld (heap w ++ [sample_frame]) (files w) (dirs w) (rng sample_run.1),
   Ok (length (heap w))).
Proof.
  unfold sample_frame, sample_run, _load_sample_data, mbind, SE_bind, draw, alloc,
    set_rng, set_heap.
  generalize n_samples (date_range_hourly sample_start n_samples)
    ((fun i => Some (id_trabajo i)) <$> seq 1 n_samples).
  intros n fechas ids.
  cbn [heap files dirs rng].
  repeat match goal with
         | |- context [np_random_choice ?a ?b ?c ?g] =>
             destruct (np_random_choice a b c g); cbn [heap files dirs rng]
         | |- context [np_random_randint ?a ?b ?c ?g] =>
             destruct (np_random_randint a b c g); cbn [heap files dirs rng]
         | |- context [np_random_exponential ?a ?c ?g] =>
             destruct (np_random_exponential a c g); cbn [heap files dirs rng]
         | |- context [np_random_uniform ?a ?b ?c ?g] =>
             destruct (np_random_uniform a b c g); cbn [heap files dirs rng]
         end.
  reflexivity.
Qed.

Lemma read_csv_run (p : string) (w : World) :
  read_csv p w =
  match files w !! p with
  | Some content =>
      match pd_read_csv content with
      | Ok T => (set_heap (heap w ++ [T]) w, Ok (length (heap w)))
      | Raise e => (w, Raise e)
      end
  | None => (w, Raise (if is_dir w p then IsADirectoryError p else FileNotFoundError p))
  end.
Proof.
  unfold read_csv, mbind, SE_bind, read_file, lift_result, alloc.
  destruct (files w !! p) as [content|]; [|done].
  by destruct (pd_read_csv content).
Qed.

(** [extract_data] adds the frame it read to the heap, may reseed the
    generator, and leaves the file system alone. *)
Lemma extract_data_run (self : DataProcessor) (file_path : option string) (w : World) :
  exists g,
    extract_data self file_path w =
    match source_table file_path w with
    | Ok T => (mkWorld (heap w ++ [T]) (files w) (dirs w) g, Ok (length (heap w)))
    | Raise e => (mkWorld (heap w) (files w) (dirs w) g, Raise e)
    end.
Proof.
  unfold extract_data, source_table. rewrite log_and_reraise_id.
  destruct (truthy file_path) as [p|].
  - unfold mbind, SE_bind, path_exists, gets.
    destruct (is_file w p || is_dir w p) eqn:Hex.
    + exists (rng w). rewrite read_csv_run.
      destruct (files w !! p) as [content|] eqn:Hf.
      * destruct (pd_read_csv content); [done|]. by rewrite world_eta.
      * rewrite world_eta. unfold is_file in Hex. rewrite Hf in Hex. simpl in Hex.
        by rewrite Hex.
    + eexists. apply load_sample_data_run.
  - eexists. apply load_sample_data_run.
Qed.

(** [transform_data] touches the heap only. *)
Lemma transform_data_world (self : DataProcessor) (df : nat) (w : World) :
  exists h,
    (transform_data self df w).1 = mkWorld h (files w) (dirs w) (rng w).
Proof.
  destruct (heap w !! df) as [T|] eqn:H.
  - rewrite (transform_data_run _ _ _ _ H). by eexists.
  - unfold transform_data, mbind, SE_bind, frame_copy. rewrite H. simpl.
    exists (heap w). by rewrite world_eta.
Qed.

End Pipeline.

Section Runs.
Context {lib : Library}.

Lemma is_dir_dirs (w w' : World) (p : string) :
  dirs w = dirs w' -> is_dir w p = is_dir w' p.
Proof. unfold is_dir. by intros ->. Qed.

Lemma load_data_run (self : DataProcessor) (df : nat) (filename : string) (w : World)
    (T : DataFrame) :
  heap w !! df = Some T ->
  load_data self df filename w =
  if is_dir w (output_path self filename)
  then (w, Raise (IsADirectoryError (output_path self filename)))
  else if is_dir w (dirname (output_path self filename))
  then (set_files (<[output_path self filename := pd_to_csv T]> (files w)) w,
        Ok (output_path self filename))
  else (w, Raise (OtherError "OSError" "Cannot save file into a non-existent directory")).
Proof.
  intros H. unfold load_data. rewrite log_and_reraise_id.
  unfold mbind, SE_bind, to_csv, write_file, output_path. rewrite H.
  destruct (is_dir w (path_join (processed_path self) filename)); [done|].
  by destruct (is_dir w (dirname (path_join (processed_path self) filename))).
Qed.

(** A run that succeeds read a table, transformed it and wrote the text
    of the result to the output path, whose directory was there. *)
Lemma run_pipeline_ok (self : DataProcessor) (input_file : option string)
    (output_file : string) (w w1 : World) (r1 : nat) :
  run_pipeline self input_file output_file w = (w1, Ok r1) ->
  exists T T' g,
    source_table input_file w = Ok T /\
    transform_steps T = (T', Ok tt) /\
    is_dir w (output_path self output_file) = false /\
    is_dir w (dirname (output_path self output_file)) = true /\
    r1 = S (length (heap w)) /\
    w1 = mkWorld (heap w ++ [T; T'])
           (<[output_path self output_file := pd_to_csv T']> (files w)) (dirs w) g.
Proof.
  unfold run_pipeline, mbind, SE_bind.
  destruct (extract_data_run self input_file w) as [g ->].
  destruct (source_table input_file w) as [T|e]; [|discriminate].
  set (wa := mkWorld (heap w ++ [T]) (files w) (dirs w) g).
  assert (Ha : heap wa !! length (heap w) = Some T) by (simpl; by rewrite list_lookup_middle).
  rewrite (transform_data_run self _ wa T Ha).
  destruct (transform_steps T) as [T' [[]|e]] eqn:Htr; simpl; [|discriminate].
  set (wb := set_heap _ wa).
  assert (Hb : heap wb !! length (heap w ++ [T]) = Some T').
  { unfold wb. simpl. by rewrite list_lookup_middle. }
  rewrite (load_data_run self _ output_file wb T' Hb).
  change (is_dir wb) with (is_dir w).
  destruct (is_dir w (output_path self output_file)); [discriminate|].
  destruct (is_dir w (dirname (output_path self output_file))); [|discriminate].
  intros [= <- <-]. exists T, T', g. split_and!; try done.
  - unfold wa. simpl. rewrite length_app. simpl. lia.
  - unfold wb, wa, set_files, set_heap. simpl. by rewrite <- app_assoc.
Qed.

Lemma run_pipeline_run (self : DataProcessor) (input_file : option string)
    (output_file : string) (w : World) (T T' : DataFrame) :
  source_table input_file w = Ok T ->
  transform_steps T = (T', Ok tt) ->
  is_dir w (output_path self output_file) = false ->
  is_dir w (dirname (output_path self output_file)) = true ->
  exists g,
    run_pipeline self input_file output_file w =
    (mkWorld (heap w ++ [T; T'])
       (<[output_path self output_file := pd_to_csv T']> (files w)) (dirs w) g,
     Ok (S (length (heap w)))).
Proof.
  intros Hsrc Htr Hd1 Hd2. unfold run_pipeline, mbind, SE_bind.
  destruct (extract_data_run self input_file w) as [g ->]. rewrite Hsrc.
  exists g.
  set (wa := mkWorld (heap w ++ [T]) (files w) (dirs w) g).
  assert (Ha : heap wa !! length (heap w) = Some T) by (simpl; by rewrite list_lookup_middle).
  rewrite (transform_data_run self _ wa T Ha), Htr. simpl.
  set (wb := set_heap _ wa).
  assert (Hb : heap wb !! length (heap w ++ [T]) = Some T').
  { unfold wb. simpl. by rewrite list_lookup_middle. }
  rewrite (load_data_run self _ output_file wb T' Hb).
  change (is_dir wb) with (is_dir w). rewrite Hd1, Hd2.
  unfold wb, wa, set_files, set_heap. simpl. rewrite <- app_assoc. simpl.
  unfold mret, SE_ret. rewrite length_app. simpl. do 2 f_equal. lia.
Qed.

Lemma source_table_same (input_file : option string) (w1 w2 : World) :
  same_source input_file w1 w2 -> source_table input_file w1 = source_table input_file w2.
Proof.
  unfold same_source, source_table. destruct (truthy input_file) as [p|]; [|done].
  intros [Hd Hf]. unfold is_file. by rewrite Hd, Hf.
Qed.


(** C7, as amended.  When the frame handed to [transform_data] lacks a
    column the transformation reads ([fecha_solicitud], [costo_estimado],
    [cantidad_paginas]), [transform_data] raises: the KeyError of the first
    of them that is absent, unless the conversion of the timestamps has
    raised before.  The run raises the same exception, [load_data] is not
    reached, and the file system is left as it was: nothing is written. *)
Theorem missing_column_aborts_run (self : DataProcessor) (input_file : option string)
    (output_file : string) (w w1 : World) (df : nat) (T : DataFrame) (c : string) :
  extract_data self input_file w = (w1, Ok df) ->
  heap w1 !! df = Some T -> NoDup (columns T) ->
  c ∈ required_columns -> frame_get c T = None ->
  exists w2 e,
    transform_data self df w1 = (w2, Raise e) /\
    run_pipeline self input_file output_file w = (w2, Raise e) /\
    files w2 = files w /\ dirs w2 = dirs w /\
    match frame_get "fecha_solicitud" T with
    | None => e = KeyError "fecha_solicitud"
    | Some s =>
        match to_datetime (impute_series s) with
        | Raise e' => e = e'
        | Ok _ =>
            match frame_get "costo_estimado" T with
            | None => e = KeyError "costo_estimado"
            | Some _ => e = KeyError "cantidad_paginas"
            end
        end
    end.
Proof.
  intros Hex H Hnd Hc Hnone.
  assert (Hfs : files w1 = files w /\ dirs w1 = dirs w).
  { destruct (extract_data_run self input_file w) as [g Hg]. rewrite Hex in Hg.
    destruct (source_table input_file w); by injection Hg as -> _. }
  destruct (feature_steps_missing (impute_frame T) c Hc) as (T' & e & Hfeat & He).
  { by rewrite frame_get_impute_frame, Hnone. }
  assert (Htr : transform_data self df w1 = (set_heap (heap w1 ++ [T']) w1, Raise e)).
  { rewrite (transform_data_run _ _ _ _ H), transform_steps_run by done.
    by rewrite Hfeat. }
  exists (set_heap (heap w1 ++ [T']) w1), e. split_and!.
  - done.
  - unfold run_pipeline, mbind, SE_bind. by rewrite Hex, Htr.
  - simpl. apply Hfs.
  - simpl. apply Hfs.
  - rewrite !frame_get_impute_frame in He.
    destruct (frame_get "fecha_solicitud" T) as [s|]; simpl in He; [|done].
    destruct (to_datetime (impute_series s)); [|done].
    by destruct (frame_get "costo_estimado" T).
Qed.

(** C8, as amended.  [extract_data] has no error of its own and checks no
    schema.  Given no path, an empty path or a path that does not exist,
    it does not fail: it returns the generated sample.  Given a path that
    exists, it returns the frame [pd.read_csv] parses from the file, or
    raises what [pd.read_csv] raises, unchanged; given the path of a
    directory, it raises IsADirectoryError; it fails in no other case. *)
Theorem extract_data_cases (self : DataProcessor) (file_path : option string) (w : World) :
  ((forall p, truthy file_path = Some p -> is_file w p = false /\ is_dir w p = false) ->
   exists g, extract_data self file_path w =
     (mkWorld (heap w ++ [sample_frame]) (files w) (dirs w) g, Ok (length (heap w)))) /\
  (forall p content T,
     truthy file_path = Some p -> files w !! p = Some content ->
     pd_read_csv content = Ok T ->
     extract_data self file_path w = (set_heap (heap w ++ [T]) w, Ok (length (heap w)))) /\
  (forall p content e,
     truthy file_path = Some p -> files w !! p = Some content ->
     pd_read_csv content = Raise e ->
     extract_data self file_path w = (w, Raise e)) /\
  (forall p,
     truthy file_path = Some p -> files w !! p = None -> is_dir w p = true ->
     extract_data self file_path w = (w, Raise (IsADirectoryError p))) /\
  (forall e, (extract_data self file_path w).2 = Raise e ->
     exists p, truthy file_path = Some p /\
       ((exists content, files w !! p = Some content /\ pd_read_csv content = Raise e) \/
        (files w !! p = None /\ is_dir w p = true /\ e = IsADirectoryError p))).
Proof.
  unfold extract_data. rewrite log_and_reraise_id. split_and!.
  - intros Habsent. destruct (truthy file_path) as [p|].
    + destruct (Habsent p eq_refl) as [Hf Hd].
      unfold mbind, SE_bind, path_exists, gets. rewrite Hf, Hd. simpl.
      eexists. apply load_sample_data_run.
    + eexists. apply load_sample_data_run.
  - intros p content T -> Hf Hcsv.
    unfold mbind, SE_bind, path_exists, gets, is_file. rewrite Hf. simpl.
    by rewrite read_csv_run, Hf, Hcsv.
  - intros p content e -> Hf Hcsv.
    unfold mbind, SE_bind, path_exists, gets, is_file. rewrite Hf. simpl.
    by rewrite read_csv_run, Hf, Hcsv.
  - intros p -> Hf Hd.
    unfold mbind, SE_bind, path_exists, gets, is_file. rewrite Hf, Hd. simpl.
    by rewrite read_csv_run, Hf, Hd.
  - intros e. destruct (truthy file_path) as [p|].
    + unfold mbind, SE_bind, path_exists, gets.
      destruct (is_file w p || is_dir w p) eqn:Hex.
      * rewrite read_csv_run. destruct (files w !! p) as [content|] eqn:Hf.
        -- destruct (pd_read_csv content) eqn:Hcsv; simpl; [discriminate|].
           intros [= ->]. exists p. split; [done|]. left. by exists content.
        -- unfold is_file in Hex. rewrite Hf in Hex. simpl in Hex. rewrite Hex. simpl.
           intros [= <-]. exists p. split; [done|]. by right.
      * by rewrite load_sample_data_run.
    + by rewrite load_sample_data_run.
Qed.

End Runs.

(** C7, as stated, fails: the exception a missing column raises is a
    KeyError, the program has no TransformationError; and a run that fails
    in [transform_data] leaves at the destination the file an earlier run
    wrote. *)
Lemma missing_cost_raises_KeyError :
  frame_get "costo_estimado" jobs_no_cost = None /\
  run_no_cost.2 = Raise (KeyError "costo_estimado") /\
  class_name (KeyError "costo_estimado") = "KeyError" /\
  run_short_csv.2 = Raise (KeyError "costo_estimado") /\
  files run_short_csv.1 !! "data/processed/datos_procesados.csv" = Some "earlier output".
Proof. vm_compute. done. Qed.

(** C8, as stated, fails: given a path that does not exist,
    [extract_data] does not fail, it returns the 1000 generated jobs. *)
Lemma extract_missing_path_returns_sample :
  (@path_exists Sim.lib "data/raw/no_such_file.csv" world_with_csv).2 = Ok false /\
  extract_no_file.2 = Ok 0%nat /\
  nrows <$> heap extract_no_file.1 !! 0%nat = Some 1000%nat.
Proof. vm_compute. done. Qed.

Lemma missing_column_aborts_run_witness :
  exists w2 e,
    @transform_data Sim.lib processor 0 extract_short_csv.1 = (w2, Raise e) /\
    run_pipeline processor (Some "data/raw/trabajos.csv") "datos_procesados.csv"
      world_with_short_csv = (w2, Raise e) /\
    files w2 = files world_with_short_csv /\ dirs w2 = dirs world_with_short_csv /\
    match frame_get "fecha_solicitud" jobs_short with
    | None => e = KeyError "fecha_solicitud"
    | Some s =>
        match @to_datetime Sim.lib (impute_series s) with
        | Raise e' => e = e'
        | Ok _ =>
            match frame_get "costo_estimado" jobs_short with
            | None => e = KeyError "costo_estimado"
            | Some _ => e = KeyError "cantidad_paginas"
            end
        end
    end.
Proof.
  apply (missing_column_aborts_run (lib := Sim.lib) processor
           (Some "data/raw/trabajos.csv") "datos_procesados.csv"
           world_with_short_csv extract_short_csv.1 0 jobs_short "costo_estimado").
  - apply pair_with_snd. vm_compute. reflexivity.
  - vm_compute. reflexivity.
  - compute_done.
  - compute_done.
  - reflexivity.
Defined.


(** The run on [jobs_csv]: two jobs in, the text of ten columns out. *)
Example run_csv_example :
  run_csv.2 = Ok 1%nat /\
  columns <$> heap run_csv.1 !! 1%nat
    = Some ["id_trabajo"; "fecha_solicitud"; "departamento"; "cantidad_paginas";
            "costo_estimado"; "mes"; "dia_semana"; "hora"; "costo_por_pagina";
            "categoria_tamano"] /\
  is_Some (files run_csv.1 !! "data/processed/datos_procesados.csv").
Proof. vm_compute. split_and!; try done. by eexists. Qed.

(** ** The cost per page *)

Lemma replace_inf_lookup (xs : list float) (i : nat) (q : float) :
  replace_inf xs !! i = Some q -> isinf q = false.
Proof.
  unfold replace_inf. rewrite list_lookup_fmap.
  destruct (xs !! i) as [x|]; [|done]. simpl. intros [= <-].
  by destruct (isinf x) eqn:E.
Qed.

Section Cost.
Context {lib : Library}.

(** The cost-per-page column [transform_data] builds, from the float
    views of the two columns it divides. *)
Lemma transform_data_cost_column (self : DataProcessor) (df r : nat) (w w' : World)
    (T : DataFrame) (a b : Series) :
  heap w !! df = Some T -> NoDup (columns T) ->
  frame_get "costo_estimado" T = Some a ->
  frame_get "cantidad_paginas" T = Some b ->
  transform_data self df w = (w', Ok r) ->
  exists T' xs ys,
    heap w' !! r = Some T' /\
    as_floats (impute_series a) = Some xs /\
    as_floats (impute_series b) = Some ys /\
    frame_get "costo_por_pagina" T' =
      Some (Float64 (replace_inf (zip_with PrimFloat.div xs ys))).
Proof.
  intros H Hnd Ha Hb Hrun.
  destruct (transform_data_ok _ _ _ _ _ _ H Hnd Hrun)
    as (s0 & ts & a0 & b0 & q & c & _ & _ & Ha0 & Hb0 & Hq & _ & -> & ->).
  rewrite Ha in Ha0. injection Ha0 as <-. rewrite Hb in Hb0. injection Hb0 as <-.
  unfold series_div in Hq.
  destruct (as_floats (impute_series a)) as [xs|]; [|discriminate].
  destruct (as_floats (impute_series b)) as [ys|]; [|discriminate].
  injection Hq as <-.
  eexists _, xs, ys. split_and!; [apply heap_lookup_new|done|done|].
  by destruct (frame_get_with_features_derived (impute_frame T) ts
                 (Float64 (zip_with PrimFloat.div xs ys)) c) as (_ & _ & _ & _ & -> & _).
Qed.

(** X1.  After [transform_data], the cost per page of every row is the quotient
    of the row's cost by its page count (both as step 1 left them, in
    binary64) when that quotient is not infinite, and 0 when it is: no
    cost per page is infinite. *)
Theorem cost_per_page_never_infinite (self : DataProcessor) (df r : nat) (w w' : World)
    (T : DataFrame) (a b : Series) :
  heap w !! df = Some T -> NoDup (columns T) ->
  frame_get "costo_estimado" T = Some a ->
  frame_get "cantidad_paginas" T = Some b ->
  transform_data self df w = (w', Ok r) ->
  exists T' xs ys qs,
    heap w' !! r = Some T' /\
    as_floats (impute_series a) = Some xs /\
    as_floats (impute_series b) = Some ys /\
    frame_get "costo_por_pagina" T' = Some (Float64 qs) /\
    (forall i x y, xs !! i = Some x -> ys !! i = Some y ->
       qs !! i = Some (if isinf (PrimFloat.div x y) then 0%float else PrimFloat.div x y)) /\
    (forall i q, qs !! i = Some q -> isinf q = false).
Proof.
  intros H Hnd Ha Hb Hrun.
  destruct (transform_data_cost_column _ _ _ _ _ _ _ _ H Hnd Ha Hb Hrun)
    as (T' & xs & ys & HT' & Hxs & Hys & Hq).
  exists T', xs, ys, (replace_inf (zip_with PrimFloat.div xs ys)).
  split_and!; try done.
  - intros i x y Hx Hy. unfold replace_inf.
    by rewrite list_lookup_fmap, lookup_zip_with, Hx, Hy.
  - apply replace_inf_lookup.
Qed.

(** X2.  After [transform_data], at a row whose page count is zero the cost per
    page is 0 when the cost is a number other than zero, and missing (NaN)
    when the cost is zero or missing. *)
Theorem cost_per_page_zero_pages (self : DataProcessor) (df r : nat) (w w' : World)
    (T : DataFrame) (a b : Series) :
  heap w !! df = Some T -> NoDup (columns T) ->
  frame_get "costo_estimado" T = Some a ->
  frame_get "cantidad_paginas" T = Some b ->
  transform_data self df w = (w', Ok r) ->
  exists T' xs ys qs,
    heap w' !! r = Some T' /\
    as_floats (impute_series a) = Some xs /\
    as_floats (impute_series b) = Some ys /\
    frame_get "costo_por_pagina" T' = Some (Float64 qs) /\
    forall i x y, xs !! i = Some x -> ys !! i = Some y -> PrimFloat.eqb y 0 = true ->
      qs !! i = Some (if isnan x || PrimFloat.eqb x 0 then nan else 0%float).
Proof.
  intros H Hnd Ha Hb Hrun.
  destruct (transform_data_cost_column _ _ _ _ _ _ _ _ H Hnd Ha Hb Hrun)
    as (T' & xs & ys & HT' & Hxs & Hys & Hq).
  exists T', xs, ys, (replace_inf (zip_with PrimFloat.div xs ys)).
  split_and!; try done.
  intros i x y Hx Hy Hzero. unfold replace_inf.
  rewrite list_lookup_fmap, lookup_zip_with, Hx, Hy. simpl.
  by rewrite quotient_by_zero.
Qed.

End Cost.

Lemma cost_per_page_never_infinite_witness :
  exists T' xs ys qs,
    heap run_zero_pages.1 !! 1%nat = Some T' /\
    as_floats (impute_series (Float64 [0%float; 100%float])) = Some xs /\
    as_floats (impute_series (Int64 [0; 600])) = Some ys /\
    frame_get "costo_por_pagina" T' = Some (Float64 qs) /\
    (forall i x y, xs !! i = Some x -> ys !! i = Some y ->
       qs !! i = Some (if isinf (PrimFloat.div x y) then 0%float else PrimFloat.div x y)) /\
    (forall i q, qs !! i = Some q -> isinf q = false).
Proof.
  apply (cost_per_page_never_infinite (lib := Sim.lib) processor 0 1
           (world_of jobs_zero_pages) run_zero_pages.1 jobs_zero_pages).
  - reflexivity.
  - compute_done.
  - reflexivity.
  - reflexivity.
  - apply pair_with_snd. vm_compute. reflexivity.
Defined.

Lemma cost_per_page_zero_pages_witness :
  exists T' xs ys qs,
    heap run_zero_pages.1 !! 1%nat = Some T' /\
    as_floats (impute_series (Float64 [0%float; 100%float])) = Some xs /\
    as_floats (impute_series (Int64 [0; 600])) = Some ys /\
    frame_get "costo_por_pagina" T' = Some (Float64 qs) /\
    forall i x y, xs !! i = Some x -> ys !! i = Some y -> PrimFloat.eqb y 0 = true ->
      qs !! i = Some (if isnan x || PrimFloat.eqb x 0 then nan else 0%float).
Proof.
  apply (cost_per_page_zero_pages (lib := Sim.lib) processor 0 1
           (world_of jobs_zero_pages) run_zero_pages.1 jobs_zero_pages).
  - reflexivity.
  - compute_done.
  - reflexivity.
  - reflexivity.
  - apply pair_with_snd. vm_compute. reflexivity.
Defined.

(** ** When [transform_data] succeeds, and what it raises *)

Lemma is_number_impute (s : Series) : is_number (impute_series s) = is_number s.
Proof.
  destruct s; try done.
  - by rewrite impute_series_Float64.
  - by rewrite impute_series_Object.
Qed.

Lemma as_floats_is_number (s : Series) :
  is_number s = match as_floats s with Some _ => true | None => false end.
Proof. by destruct s. Qed.

Section Outcome.
Context {lib : Library}.

Lemma series_div_is_ok (a b : Series) :
  is_ok (series_div a b) = is_number a && is_number b.
Proof.
  unfold series_div. rewrite !as_floats_is_number.
  destruct (as_floats a); [|done]. by destruct (as_floats b).
Qed.

Lemma series_div_raises (a b : Series) (e : exn) :
  series_div a b = Raise e -> exists msg, e = TypeError msg.
Proof.
  unfold series_div. destruct (as_floats a); [destruct (as_floats b)|];
    try discriminate; intros [= <-]; by eexists.
Qed.

Lemma pd_cut_is_ok (s : Series) (bins : list Z) (labels : list string) :
  is_ok (pd_cut s bins labels) = is_number s.
Proof. by destruct s. Qed.

Lemma is_ok_true {A : Type} (r : result A) : is_ok r = true -> exists a, r = Ok a.
Proof. destruct r; [by eexists|discriminate]. Qed.

(** The exception of a run of steps 2 to 4 that raises. *)
Lemma feature_steps_raises (T T' : DataFrame) (e : exn) :
  feature_steps T = (T', Raise e) ->
  match frame_get "fecha_solicitud" T with
  | None => e = KeyError "fecha_solicitud"
  | Some s =>
      match to_datetime s with
      | Raise e' => e = e'
      | Ok _ =>
          match frame_get "costo_estimado" T, frame_get "cantidad_paginas" T with
          | None, _ => e = KeyError "costo_estimado"
          | Some _, None => e = KeyError "cantidad_paginas"
          | Some a, Some b =>
              is_number a && is_number b = false /\ exists msg, e = TypeError msg
          end
      end
  end.
Proof.
  unfold feature_steps, mbind, SE_bind, getitem, lift_result, setitem.
  destruct (frame_get "fecha_solicitud" T) as [s|] eqn:Hs; [|by intros [= _ <-]].
  destruct (to_datetime s) as [d|] eqn:Hd; [|by intros [= _ <-]].
  destruct (to_datetime_ok _ _ Hd) as (ts & -> & _).
  frame_lookup.
  destruct (frame_get "costo_estimado" T) as [a|] eqn:Ha; [|by intros [= _ <-]].
  frame_lookup.
  destruct (frame_get "cantidad_paginas" T) as [b|] eqn:Hb; [|by intros [= _ <-]].
  pose proof (series_div_is_ok a b) as Hok.
  destruct (series_div a b) as [q|e'] eqn:Hq.
  - frame_lookup. rewrite Hb.
    pose proof (pd_cut_is_ok b size_bins size_labels) as Hcut.
    destruct (pd_cut b size_bins size_labels) as [c|e'] eqn:Hc; [discriminate|].
    simpl in Hok, Hcut. symmetry in Hok. apply andb_true_iff in Hok as [_ Hb'].
    congruence.
  - intros [= _ <-]. split; [done|]. by apply (series_div_raises a b).
Qed.



(** X5.  Whatever its outcome, [transform_data] leaves the file system, the
    generator and every frame that was there, its argument among them, as
    they were: it works on a copy. *)
Theorem transform_data_keeps_world (self : DataProcessor) (df : nat) (w : World) :
  files (transform_data self df w).1 = files w /\
  dirs (transform_data self df w).1 = dirs w /\
  rng (transform_data self df w).1 = rng w /\
  (forall r0 T0, heap w !! r0 = Some T0 ->
                 heap (transform_data self df w).1 !! r0 = Some T0).
Proof.
  destruct (heap w !! df) as [T|] eqn:H.
  - rewrite (transform_data_run _ _ _ _ H). simpl. split_and!; try done.
    intros r0 T0 H0. by apply lookup_app_l_Some.
  - unfold transform_data, mbind, SE_bind, frame_copy. rewrite H. simpl. done.
Qed.

End Outcome.



(** ** [transform_data] on its own result *)

Lemma frame_ext (T1 T2 : DataFrame) :
  columns T1 = columns T2 -> NoDup (columns T1) ->
  (forall c, frame_get c T1 = frame_get c T2) -> T1 = T2.
Proof.
  revert T2. induction T1 as [|[k s] T1 IH]; intros [|[k' s'] T2]; try done.
  rewrite !columns_cons. intros [= <- Hcols] Hnd Hget.
  apply NoDup_cons in Hnd as [Hk Hnd].
  pose proof (Hget k) as Hk'. simpl in Hk'. rewrite String.eqb_refl in Hk'.
  injection Hk' as <-. f_equal. apply IH; try done.
  intros c. specialize (Hget c). simpl in Hget.
  destruct (String.eqb_spec k c) as [Heq|Hne]; [subst c|done].
  assert (Hk2 : k ∉ columns T2) by (by rewrite <- Hcols).
  apply frame_get_None in Hk, Hk2. congruence.
Qed.

Lemma NoDup_columns_frame_set (c : string) (v : Series) (T : DataFrame) :
  NoDup (columns T) -> NoDup (columns (frame_set c v T)).
Proof.
  intros Hnd. destruct (decide (c ∈ columns T)) as [Hin|Hout].
  - by rewrite columns_frame_set_present.
  - rewrite columns_frame_set_absent by done.
    apply NoDup_app. split_and!; [done| |apply NoDup_singleton].
    intros x Hx Hx'. apply list_elem_of_singleton in Hx'. by subst.
Qed.

Lemma NoDup_columns_with_features (T : DataFrame) (ts : list (option Z)) (q c : Series) :
  NoDup (columns T) -> NoDup (columns (with_features T ts q c)).
Proof. intros H. unfold with_features. by repeat apply NoDup_columns_frame_set. Qed.

Lemma isnan_eq_nan (x : float) : isnan x = true -> x = nan.
Proof. intros H. apply Prim2SF_inj. by rewrite (isnan_Prim2SF x H). Qed.

Lemma existsb_fmap_false {A : Type} (p : A -> bool) (f : A -> A) (l : list A) :
  (forall x, p (f x) = false) -> existsb p (f <$> l) = false.
Proof.
  intros Hf. induction l as [|x l IH]; [done|].
  rewrite fmap_cons. cbn [existsb]. by rewrite Hf, IH.
Qed.

(** Step 1 changes nothing in a column it has been through. *)
Lemma impute_series_idem (s : Series) :
  impute_series (impute_series s) = impute_series s.
Proof.
  destruct s as [zs|xs|xs|ts|cats xs]; try done.
  - rewrite impute_series_Float64.
    set (m := median_of (dropna xs)).
    destruct (isnan m) eqn:Hm.
    + assert (E : (fun x => if isnan x then m else x) <$> xs = xs).
      { rewrite <- (list_fmap_id xs) at 2. apply list_fmap_ext. intros i x _.
        destruct (isnan x) eqn:Hx; [|done].
        unfold id. transitivity nan; [by apply isnan_eq_nan|].
        symmetry. by apply isnan_eq_nan. }
      rewrite E, impute_series_Float64. f_equal. exact E.
    + unfold impute_series. simpl.
      rewrite existsb_fmap_false; [done|].
      intros x. by destruct (isnan x) eqn:Hx.
  - rewrite impute_series_Object. unfold impute_series. simpl.
    by rewrite existsb_fmap_false.
Qed.

Lemma columns_with_features_present (T : DataFrame) (ts : list (option Z)) (q c : Series) :
  (forall k, k ∈ assigned_columns -> k ∈ columns T) ->
  columns (with_features T ts q c) = columns T.
Proof.
  intros Hin. unfold with_features.
  assert (Hstep : forall k v T0, columns T0 = columns T -> k ∈ assigned_columns ->
                    columns (frame_set k v T0) = columns T).
  { intros k v T0 E Hk. rewrite columns_frame_set_present; [done|].
    rewrite E. by apply Hin. }
  repeat (apply Hstep; [|unfold assigned_columns, derived_columns; in_list]).
  done.
Qed.

Section Twice.
Context {lib : Library}.

(** Steps 1 to 4 leave a frame they have built as it is. *)
Lemma transform_steps_fixpoint (T T' : DataFrame) :
  NoDup (columns T) -> transform_steps T = (T', Ok tt) ->
  NoDup (columns T') /\ transform_steps T' = (T', Ok tt).
Proof.
  intros Hnd. rewrite transform_steps_run by done. intros E.
  apply feature_steps_ok in E as (s & ts & a & b & q & c & Hs & Hd & Ha & Hb & Hq & Hc & ->).
  set (T1 := impute_frame T) in *.
  set (T' := with_features T1 ts q c).
  assert (Hnd1 : NoDup (columns T1)) by (unfold T1; by rewrite columns_impute_frame).
  assert (Hnd' : NoDup (columns T')) by (by apply NoDup_columns_with_features).
  split; [done|].
  destruct (frame_get_with_features_derived T1 ts q c) as (Gf & Gm & Gd & Gh & Gq & Gc).
  fold T' in Gf, Gm, Gd, Gh, Gq, Gc.
  assert (Ga : frame_get "costo_estimado" T' = Some a).
  { unfold T'. rewrite frame_get_with_features_required; auto. }
  assert (Gb : frame_get "cantidad_paginas" T' = Some b).
  { unfold T'. rewrite frame_get_with_features_required; auto. }
  assert (Ia : impute_series a = a).
  { unfold T1 in Ha. rewrite frame_get_impute_frame in Ha.
    destruct (frame_get "costo_estimado" T) as [a0|]; [|discriminate].
    injection Ha as <-. apply impute_series_idem. }
  assert (Ib : impute_series b = b).
  { unfold T1 in Hb. rewrite frame_get_impute_frame in Hb.
    destruct (frame_get "cantidad_paginas" T) as [b0|]; [|discriminate].
    injection Hb as <-. apply impute_series_idem. }
  rewrite transform_steps_run by done.
  rewrite (feature_steps_run (impute_frame T') (Datetime64 ts) a b q c ts);
    try done; try (by rewrite frame_get_impute_frame, ?Gf, ?Ga, ?Gb; simpl; rewrite ?Ia, ?Ib).
  f_equal. apply frame_ext.
  - rewrite columns_with_features_present; rewrite columns_impute_frame; [done|].
    intros k Hk. unfold assigned_columns, derived_columns in Hk.
    repeat (apply elem_of_cons in Hk as [->|Hk]; [by eapply frame_get_Some_elem|]).
    by apply elem_of_nil in Hk.
  - apply NoDup_columns_with_features. by rewrite columns_impute_frame.
  - intros k. destruct (decide (k ∈ assigned_columns)) as [Hk|Hk].
    + destruct (frame_get_with_features_derived (impute_frame T') ts q c)
        as (Ff & Fm & Fd & Fh & Fq & Fc).
      unfold assigned_columns, derived_columns in Hk.
      repeat (apply elem_of_cons in Hk as [->|Hk]; [congruence|]).
      by apply elem_of_nil in Hk.
    + rewrite frame_get_with_features_other by done.
      rewrite frame_get_impute_frame. unfold T'.
      rewrite frame_get_with_features_other by done.
      unfold T1. rewrite frame_get_impute_frame.
      destruct (frame_get k T) as [s0|]; [|done]. simpl.
      by rewrite impute_series_idem.
Qed.

(** X6.  [transform_data] is idempotent on frames: applied to a frame it has
    returned, it succeeds and returns a new frame equal to the one it was
    given, column by column and cell by cell. *)
Theorem transform_data_idempotent (self : DataProcessor) (df r : nat) (w w' : World)
    (T : DataFrame) :
  heap w !! df = Some T -> NoDup (columns T) ->
  transform_data self df w = (w', Ok r) ->
  exists w'' r' T',
    transform_data self r w' = (w'', Ok r') /\ r' <> r /\
    heap w' !! r = Some T' /\ heap w'' !! r' = Some T'.
Proof.
  intros H Hnd Hrun.
  rewrite (transform_data_run _ _ _ _ H) in Hrun.
  destruct (transform_steps T) as [T' [[]|e]] eqn:E; simpl in Hrun; [|discriminate].
  injection Hrun as <- <-.
  destruct (transform_steps_fixpoint T T' Hnd E) as [Hnd' E'].
  set (w' := set_heap (heap w ++ [T']) w).
  assert (H' : heap w' !! length (heap w) = Some T') by apply heap_lookup_new.
  exists (set_heap (heap w' ++ [T']) w'), (length (heap w')), T'.
  rewrite (transform_data_run _ _ _ _ H'), E'. simpl. split_and!; try done.
  - rewrite length_app. simpl. lia.
  - by rewrite list_lookup_middle.
Qed.

End Twice.

Lemma transform_data_idempotent_witness :
  exists w'' r' T',
    @transform_data Sim.lib processor 1 run_gaps.1 = (w'', Ok r') /\ r' <> 1%nat /\
    heap run_gaps.1 !! 1%nat = Some T' /\ heap w'' !! r' = Some T'.
Proof.
  apply (transform_data_idempotent (lib := Sim.lib) processor 0 1
           (world_of jobs_gaps) run_gaps.1 jobs_gaps).
  - reflexivity.
  - compute_done.
  - apply pair_with_snd. vm_compute. reflexivity.
Defined.

(** ** The month, the weekday and the hour *)

Section Calendar.
Context {lib : Library}.


End Calendar.


(** ** The steps of the pipeline and the world *)

Section Steps.
Context {lib : Library}.

(** X8.  Whatever its outcome, [extract_data] writes nothing: the file system
    and the frames that were there are as they were.  It reseeds NumPy's
    generator exactly when it falls back on the sample, that is unless it
    is given a non-empty path that exists. *)
Theorem extract_data_keeps_files (self : DataProcessor) (file_path : option string)
    (w : World) :
  files (extract_data self file_path w).1 = files w /\
  dirs (extract_data self file_path w).1 = dirs w /\
  (forall r0 T0, heap w !! r0 = Some T0 ->
                 heap (extract_data self file_path w).1 !! r0 = Some T0) /\
  rng (extract_data self file_path w).1 =
    match truthy file_path with
    | Some p => if is_file w p || is_dir w p then rng w else rng sample_run.1
    | None => rng sample_run.1
    end.
Proof.
  unfold extract_data. rewrite log_and_reraise_id.
  assert (Hsample : forall self,
            files (_load_sample_data self w).1 = files w /\
            dirs (_load_sample_data self w).1 = dirs w /\
            (forall r0 T0, heap w !! r0 = Some T0 ->
                           heap (_load_sample_data self w).1 !! r0 = Some T0) /\
            rng (_load_sample_data self w).1 = rng sample_run.1).
  { intros self0. rewrite load_sample_data_run. simpl. split_and!; try done.
    intros r0 T0 H0. by apply lookup_app_l_Some. }
  destruct (truthy file_path) as [p|]; [|apply Hsample].
  unfold mbind, SE_bind, path_exists, gets.
  destruct (is_file w p || is_dir w p); [|apply Hsample].
  rewrite read_csv_run. destruct (files w !! p) as [content|]; [|done].
  destruct (pd_read_csv content); simpl; split_and!; try done.
  intros r0 T0 H0. by apply lookup_app_l_Some.
Qed.

(** X9.  The sample does not depend on the world it is generated in: two
    calls of [_load_sample_data], in any two worlds, build the same frame
    and leave the generator in the same state. *)
Theorem load_sample_data_reproducible (self1 self2 : DataProcessor) (w1 w2 : World) :
  exists T r1 r2,
    (_load_sample_data self1 w1).2 = Ok r1 /\
    (_load_sample_data self2 w2).2 = Ok r2 /\
    heap (_load_sample_data self1 w1).1 !! r1 = Some T /\
    heap (_load_sample_data self2 w2).1 !! r2 = Some T /\
    rng (_load_sample_data self1 w1).1 = rng (_load_sample_data self2 w2).1.
Proof.
  exists sample_frame, (length (heap w1)), (length (heap w2)).
  rewrite !load_sample_data_run. simpl. split_and!; try done;
    by rewrite list_lookup_middle.
Qed.

(** X10.  What [load_data] has written, [extract_data] reads back: given the
    path [load_data] returned, it parses the text of the frame that was
    saved, and does not fall back on the sample. *)
Theorem load_then_extract (self : DataProcessor) (df : nat) (filename : string)
    (w w' : World) (p : string) :
  load_data self df filename w = (w', Ok p) ->
  exists T,
    heap w !! df = Some T /\
    p = output_path self filename /\
    files w' = <[p := pd_to_csv T]> (files w) /\
    extract_data self (Some p) w' =
      match pd_read_csv (pd_to_csv T) with
      | Ok T2 => (set_heap (heap w' ++ [T2]) w', Ok (length (heap w')))
      | Raise e => (w', Raise e)
      end.
Proof.
  intros Hload. destruct (heap w !! df) as [T|] eqn:H.
  2:{ unfold load_data in Hload. rewrite log_and_reraise_id in Hload.
      unfold mbind, SE_bind, to_csv in Hload. rewrite H in Hload. discriminate. }
  rewrite (load_data_run _ _ _ _ _ H) in Hload.
  destruct (is_dir w (output_path self filename)) eqn:Hd1; [discriminate|].
  destruct (is_dir w (dirname (output_path self filename))); [|discriminate].
  injection Hload as <- <-. exists T. split_and!; try done.
  set (p := output_path self filename) in *.
  assert (Hp : truthy (Some p) = Some p).
  { simpl. destruct (String.eqb_spec p "") as [E|]; [|done].
    rewrite E in Hd1. discriminate. }
  unfold extract_data. rewrite log_and_reraise_id, Hp.
  unfold mbind, SE_bind, path_exists, gets, is_file. simpl.
  rewrite lookup_insert_eq. simpl.
  rewrite read_csv_run. simpl. rewrite lookup_insert_eq.
  by destruct (pd_read_csv (pd_to_csv T)).
Qed.

(** X11.  When the output path is normalised (names separated by single
    slashes from the working directory, none of them [.] or [..]),
    [run_pipeline], whatever its outcome, creates no directory, leaves
    every file of another normalised path and every frame that was there
    as they were, and, when it raises, leaves the output file as it was
    too.  Another spelling of the output path names the output file and
    is left out. *)
Theorem run_pipeline_writes_only_output (self : DataProcessor) (input_file : option string)
    (output_file : string) (w : World) :
  normal_path (output_path self output_file) ->
  dirs (run_pipeline self input_file output_file w).1 = dirs w /\
  (forall p, normal_path p -> p <> output_path self output_file ->
     files (run_pipeline self input_file output_file w).1 !! p = files w !! p) /\
  (forall r0 T0, heap w !! r0 = Some T0 ->
     heap (run_pipeline self input_file output_file w).1 !! r0 = Some T0) /\
  (is_ok (run_pipeline self input_file output_file w).2 = false ->
   files (run_pipeline self input_file output_file w).1 = files w).
Proof.
  intros _. unfold run_pipeline, mbind, SE_bind.
  destruct (extract_data_run self input_file w) as [g ->].
  destruct (source_table input_file w) as [T|e]; [|done].
  set (wa := mkWorld (heap w ++ [T]) (files w) (dirs w) g).
  assert (Ha : heap wa !! length (heap w) = Some T) by (simpl; by rewrite list_lookup_middle).
  assert (Hold : forall r0 T0 l, heap w !! r0 = Some T0 ->
                   ((heap w ++ [T]) ++ l) !! r0 = Some T0).
  { intros r0 T0 l H0. by do 2 apply lookup_app_l_Some. }
  rewrite (transform_data_run self _ wa T Ha).
  destruct (transform_steps T) as [T' [[]|e]]; simpl; [|by split_and!; auto].
  set (wb := set_heap _ wa).
  assert (Hb : heap wb !! length (heap w ++ [T]) = Some T').
  { unfold wb. simpl. by rewrite list_lookup_middle. }
  rewrite (load_data_run self _ output_file wb T' Hb).
  change (is_dir wb) with (is_dir w).
  destruct (is_dir w (output_path self output_file)); [by simpl; split_and!; auto|].
  destruct (is_dir w (dirname (output_path self output_file)));
    simpl; split_and!; auto; try done.
  intros p _ Hp. by rewrite lookup_insert_ne.
Qed.

End Steps.

Lemma run_pipeline_writes_only_output_witness :
  dirs run_csv.1 = dirs world_with_csv /\
  (forall p, normal_path p -> p <> output_path processor "datos_procesados.csv" ->
     files run_csv.1 !! p = files world_with_csv !! p) /\
  (forall r0 T0, heap world_with_csv !! r0 = Some T0 -> heap run_csv.1 !! r0 = Some T0) /\
  (is_ok run_csv.2 = false -> files run_csv.1 = files world_with_csv).
Proof.
  apply (run_pipeline_writes_only_output (lib := Sim.lib) processor
           (Some "data/raw/trabajos.csv") "datos_procesados.csv" world_with_csv).
  exists ["data"; "processed"; "datos_procesados.csv"].
  split_and!; [discriminate|reflexivity|reflexivity].
Defined.

Lemma load_then_extract_witness :
  exists T,
    heap run_plain.1 !! 1%nat = Some T /\
    "data/processed/datos_procesados.csv" = output_path processor "datos_procesados.csv" /\
    files (@load_data Sim.lib processor 1 "datos_procesados.csv" run_plain.1).1
      = <["data/processed/datos_procesados.csv" := @pd_to_csv Sim.lib T]> (files run_plain.1) /\
    @extract_data Sim.lib processor (Some "data/processed/datos_procesados.csv")
      (@load_data Sim.lib processor 1 "datos_procesados.csv" run_plain.1).1 =
      match @pd_read_csv Sim.lib (@pd_to_csv Sim.lib T) with
      | Ok T2 =>
          (set_heap (heap (@load_data Sim.lib processor 1 "datos_procesados.csv" run_plain.1).1
                       ++ [T2])
             (@load_data Sim.lib processor 1 "datos_procesados.csv" run_plain.1).1,
           Ok (length (heap (@load_data Sim.lib processor 1 "datos_procesados.csv"
                               run_plain.1).1)))
      | Raise e => ((@load_data Sim.lib processor 1 "datos_procesados.csv" run_plain.1).1,
                    Raise e)
      end.
Proof.
  apply (load_then_extract (lib := Sim.lib) processor 1 "datos_procesados.csv" run_plain.1).
  apply pair_with_snd. vm_compute. reflexivity.
Defined.

(** ** The generated sample and the default run *)

Lemma date_range_hourly_lookup (start : Z) (n i : nat) :
  (i < n)%nat ->
  date_range_hourly start n !! i = Some (Some (start + Z.of_nat i * ns_per_hour)).
Proof.
  intros Hi. unfold date_range_hourly.
  by rewrite list_lookup_fmap, lookup_seq_lt.
Qed.

Lemma sample_start_jan1 : sample_start = t_jan1.
Proof. reflexivity. Qed.

Section Sample.
Context {lib : Library}.

(** The sample, column by column: the identifiers and the timestamps are
    computed, the nine other columns are what the generator draws. *)
Lemma sample_frame_eq :
  exists departamento tipo_trabajo cantidad_paginas cantidad_copias prioridad estado
         tiempo_produccion_horas costo_estimado material_utilizado,
    sample_frame =
    [("id_trabajo", Object ((fun i => Some (id_trabajo i)) <$> seq 1 n_samples));
     ("fecha_solicitud", Datetime64 (date_range_hourly sample_start n_samples));
     ("departamento", Object departamento);
     ("tipo_trabajo", Object tipo_trabajo);
     ("cantidad_paginas", Int64 cantidad_paginas);
     ("cantidad_copias", Int64 cantidad_copias);
     ("prioridad", Object prioridad);
     ("estado", Object estado);
     ("tiempo_produccion_horas", Float64 tiempo_produccion_horas);
     ("costo_estimado", Float64 costo_estimado);
     ("material_utilizado", Object material_utilizado)].
Proof.
  unfold sample_frame, sample_run, _load_sample_data, mbind, SE_bind, draw, alloc,
    set_rng, set_heap.
  generalize n_samples (date_range_hourly sample_start n_samples)
    ((fun i => Some (id_trabajo i)) <$> seq 1 n_samples).
  intros n fechas ids.
  cbn [heap files dirs rng].
  repeat match goal with
         | |- context [np_random_choice ?a ?b ?c ?g] =>
             destruct (np_random_choice a b c g); cbn [heap files dirs rng]
         | |- context [np_random_randint ?a ?b ?c ?g] =>
             destruct (np_random_randint a b c g); cbn [heap files dirs rng]
         | |- context [np_random_exponential ?a ?c ?g] =>
             destruct (np_random_exponential a c g); cbn [heap files dirs rng]
         | |- context [np_random_uniform ?a ?b ?c ?g] =>
             destruct (np_random_uniform a b c g); cbn [heap files dirs rng]
         end.
  cbn [app lookup list_lookup default]. by eexists _, _, _, _, _, _, _, _, _.
Qed.

Lemma source_table_None (w : World) : source_table None w = Ok sample_frame.
Proof. reflexivity. Qed.

(** Steps 1 to 4 succeed on the sample, whatever the generator drew. *)
Lemma transform_steps_sample :
  exists T',
    transform_steps sample_frame = (T', Ok tt) /\
    columns T' = columns sample_frame ++ derived_columns /\
    columns sample_frame =
      ["id_trabajo"; "fecha_solicitud"; "departamento"; "tipo_trabajo";
       "cantidad_paginas"; "cantidad_copias"; "prioridad"; "estado";
       "tiempo_produccion_horas"; "costo_estimado"; "material_utilizado"] /\
    nrows T' = n_samples /\
    frame_get "fecha_solicitud" T' =
      Some (Datetime64 (date_range_hourly sample_start n_samples)) /\
    is_Some (frame_get "departamento" T') /\
    is_Some (frame_get "tipo_trabajo" T').
Proof.
  destruct sample_frame_eq as (dep & tipo & pag & cop & pri & est & tie & cos & mat & E).
  rewrite E. clear E.
  generalize (date_range_hourly sample_start n_samples). intros fechas.
  assert (Hids : length ((fun i => Some (id_trabajo i)) <$> seq 1 n_samples) = n_samples)
    by (by rewrite length_fmap, length_seq).
  revert Hids. generalize ((fun i => Some (id_trabajo i)) <$> seq 1 n_samples).
  intros ids Hids.
  set (T := [("id_trabajo", Object ids); _; _; _; _; _; _; _; _; _; _]).
  assert (Hcols : columns T =
      ["id_trabajo"; "fecha_solicitud"; "departamento"; "tipo_trabajo";
       "cantidad_paginas"; "cantidad_copias"; "prioridad"; "estado";
       "tiempo_produccion_horas"; "costo_estimado"; "material_utilizado"]) by reflexivity.
  assert (Hnd : NoDup (columns T)) by (rewrite Hcols; compute_done).
  rewrite transform_steps_run by done.
  eexists. split.
  - apply (feature_steps_run (impute_frame T) (Datetime64 fechas)
             (impute_series (Float64 cos)) (impute_series (Int64 pag))
             (Float64 (zip_with PrimFloat.div
                         ((fun x => if isnan x then median_of (dropna cos) else x) <$> cos)
                         (float_of_Z <$> pag)))
             (Category size_labels (cut_Z size_bins size_labels <$> pag)) fechas);
      try (by rewrite frame_get_impute_frame).
    + reflexivity.
    + rewrite impute_series_Float64. reflexivity.
    + reflexivity.
  - split_and!.
    + rewrite columns_with_features; rewrite columns_impute_frame, ?Hcols; try done.
      * in_list.
      * intros c Hc. unfold derived_columns in Hc.
        repeat (apply elem_of_cons in Hc as [->|Hc]; [compute_done|]).
        by apply elem_of_nil in Hc.
    + done.
    + unfold with_features, T, impute_frame. rewrite !fmap_cons. cbn [fst snd frame_set String.eqb Ascii.eqb Bool.eqb nrows].
      rewrite series_len_impute. done.
    + apply frame_get_with_features_derived.
    + rewrite frame_get_with_features_other by compute_done.
      rewrite frame_get_impute_frame. by eexists.
    + rewrite frame_get_with_features_other by compute_done.
      rewrite frame_get_impute_frame. by eexists.
Qed.


End Sample.


(** ** The constructor and its directories *)

Section Constructor.
Context {lib : Library}.

Lemma ensure_directory_run (d : string) (w : World) :
  ensure_directory d w =
  if is_file w d || is_dir w d then (w, Ok tt)
  else if existsb (is_file w) (ancestors (String.length d) d)
  then (w, Raise (NotADirectoryError d))
  else (set_dirs (list_to_set (ancestors (String.length d) d) ∪ dirs w) w, Ok tt).
Proof.
  unfold ensure_directory, mbind, SE_bind, path_exists, gets, makedirs.
  destruct (is_file w d || is_dir w d) eqn:E; simpl; [done|]. by rewrite E.
Qed.

Lemma ancestors_self (d : string) :
  forallb is_slash (list_ascii_of_string d) = false ->
  d ∈ ancestors (String.length d) d.
Proof.
  intros H. destruct d as [|c d]; [discriminate|].
  cbn [String.length ancestors]. rewrite H. apply elem_of_cons. by left.
Qed.

Lemma is_dir_mono (w w' : World) (p : string) :
  dirs w ⊆ dirs w' -> is_dir w p = true -> is_dir w' p = true.
Proof.
  unfold is_dir. intros Hsub. rewrite !orb_true_iff, !bool_decide_eq_true.
  intros [?|?]; [by left|right]. by apply Hsub.
Qed.

(** A turn that succeeds leaves the directory (or the file that stood
    there) behind, adds directories only, and touches nothing else. *)
Lemma ensure_directory_ok (d : string) (w w' : World) :
  ensure_directory d w = (w', Ok tt) ->
  heap w' = heap w /\ files w' = files w /\ rng w' = rng w /\ dirs w ⊆ dirs w' /\
  is_file w' d || is_dir w' d = true /\
  (is_file w d = false -> is_dir w' d = true).
Proof.
  rewrite ensure_directory_run.
  destruct (is_file w d || is_dir w d) eqn:E.
  - intros [= <-]. split_and!; try done.
    intros Hf. by rewrite Hf in E.
  - destruct (existsb (is_file w) (ancestors (String.length d) d)); [discriminate|].
    intros [= <-]. simpl.
    apply orb_false_elim in E as [Ef Ed].
    assert (Hd : is_dir (set_dirs (list_to_set (ancestors (String.length d) d) ∪ dirs w) w) d
                 = true).
    { unfold is_dir in *. apply orb_false_elim in Ed as [Hs _]. rewrite Hs. simpl.
      apply bool_decide_eq_true. apply elem_of_union. left.
      apply elem_of_list_to_set. by apply ancestors_self. }
    split_and!; try done.
    + apply union_subseteq_r.
    + rewrite Hd. apply orb_true_r.
Qed.

Lemma ensure_directory_raises (d : string) (w w' : World) (e : exn) :
  ensure_directory d w = (w', Raise e) ->
  w' = w /\ e = NotADirectoryError d /\
  exists p, p ∈ ancestors (String.length d) d /\ is_file w p = true.
Proof.
  rewrite ensure_directory_run.
  destruct (is_file w d || is_dir w d); [discriminate|].
  destruct (existsb (is_file w) (ancestors (String.length d) d)) eqn:E; [|discriminate].
  intros [= <- <-]. split_and!; try done.
  apply existsb_exists in E as (p & Hp & Hf). exists p. split; [|done].
  by apply list_elem_of_In.
Qed.

Lemma create_directories_run (self : DataProcessor) (w : World) :
  _create_directories self w =
  match ensure_directory (raw_path self) w with
  | (w1, Ok _) => ensure_directory (processed_path self) w1
  | (w1, Raise e) => (w1, Raise e)
  end.
Proof.
  unfold _create_directories, ensure_directory. cbn [for_each].
  unfold mbind, SE_bind, mret, SE_ret.
  repeat match goal with
         | |- context [let (_, _) := ?x in _] => destruct x as [? [[]|?]]
         | |- context [let (_, _) := ?x in _] => destruct x as [? [?|?]]
         end; done.
Qed.

Lemma DataProcessor_init_run (data_path : string) (w : World) :
  DataProcessor_init data_path w =
  let self := mkDataProcessor data_path (path_join data_path "raw")
                              (path_join data_path "processed") in
  match _create_directories self w with
  | (w', Ok _) => (w', Ok self)
  | (w', Raise e) => (w', Raise e)
  end.
Proof.
  unfold DataProcessor_init, mbind, SE_bind. cbv zeta.
  by destruct (_create_directories _ w) as [w' [[]|e]].
Qed.

(** X13.  When the constructor returns, both data directories exist (where a
    plain file already stood under one of the names, it is left there and
    counts as existing); the constructor has added directories only, and
    has touched no file, no frame and not the generator. *)
Theorem init_creates_directories (data_path : string) (w w' : World)
    (self : DataProcessor) :
  DataProcessor_init data_path w = (w', Ok self) ->
  self = mkDataProcessor data_path (path_join data_path "raw")
                         (path_join data_path "processed") /\
  (path_exists (raw_path self) w').2 = Ok true /\
  (path_exists (processed_path self) w').2 = Ok true /\
  (is_file w (raw_path self) = false -> is_dir w' (raw_path self) = true) /\
  (is_file w (processed_path self) = false -> is_dir w' (processed_path self) = true) /\
  files w' = files w /\ heap w' = heap w /\ rng w' = rng w /\ dirs w ⊆ dirs w'.
Proof.
  rewrite DataProcessor_init_run. cbv zeta. rewrite create_directories_run.
  cbn [raw_path processed_path].
  destruct (ensure_directory (path_join data_path "raw") w) as [w1 [[]|e]] eqn:E1;
    [|discriminate].
  destruct (ensure_directory (path_join data_path "processed") w1) as [w2 [[]|e]] eqn:E2;
    [|discriminate].
  intros [= <- <-]. cbn [raw_path processed_path].
  apply ensure_directory_ok in E1 as (Hh1 & Hf1 & Hg1 & Hd1 & Hex1 & Hdir1).
  apply ensure_directory_ok in E2 as (Hh2 & Hf2 & Hg2 & Hd2 & Hex2 & Hdir2).
  unfold path_exists, gets. simpl. split_and!; try congruence.
  - f_equal. f_equal.
    apply orb_true_iff in Hex1 as [Hf|Hd].
    + unfold is_file in *. rewrite Hf2. by rewrite Hf.
    + rewrite (is_dir_mono w1 w2 _ Hd2 Hd). apply orb_true_r.
  - intros Hf. apply (is_dir_mono w1 w2); [done|]. by apply Hdir1.
  - intros Hf. apply Hdir2. unfold is_file in *. by rewrite Hf1.
  - by etrans.
Qed.

(** X14.  Building a second processor on the same data path, in the world the
    first constructor left, changes nothing and gives the same
    processor. *)
Theorem init_idempotent (data_path : string) (w w' : World) (self : DataProcessor) :
  DataProcessor_init data_path w = (w', Ok self) ->
  DataProcessor_init data_path w' = (w', Ok self).
Proof.
  rewrite !DataProcessor_init_run. cbv zeta. rewrite !create_directories_run.
  cbn [raw_path processed_path].
  destruct (ensure_directory (path_join data_path "raw") w) as [w1 [[]|e]] eqn:E1;
    [|discriminate].
  destruct (ensure_directory (path_join data_path "processed") w1) as [w2 [[]|e]] eqn:E2;
    [|discriminate].
  intros [= <- <-].
  apply ensure_directory_ok in E1 as (Hh1 & Hf1 & Hg1 & Hd1 & Hex1 & Hdir1).
  apply ensure_directory_ok in E2 as (Hh2 & Hf2 & Hg2 & Hd2 & Hex2 & Hdir2).
  assert (Hraw : is_file w2 (path_join data_path "raw")
                 || is_dir w2 (path_join data_path "raw") = true).
  { apply orb_true_iff in Hex1 as [Hf|Hd].
    - unfold is_file in *. rewrite Hf2. by rewrite Hf.
    - rewrite (is_dir_mono w1 w2 _ Hd2 Hd). apply orb_true_r. }
  rewrite (ensure_directory_run (path_join data_path "raw") w2), Hraw.
  by rewrite (ensure_directory_run (path_join data_path "processed") w2), Hex2.
Qed.


End Constructor.

Lemma init_creates_directories_witness :
  processor = mkDataProcessor "data/" (path_join "data/" "raw")
                              (path_join "data/" "processed") /\
  (@path_exists Sim.lib (raw_path processor)
     (@DataProcessor_init Sim.lib "data/" fresh_world).1).2 = Ok true /\
  (@path_exists Sim.lib (processed_path processor)
     (@DataProcessor_init Sim.lib "data/" fresh_world).1).2 = Ok true /\
  (is_file fresh_world (raw_path processor) = false ->
   is_dir (@DataProcessor_init Sim.lib "data/" fresh_world).1 (raw_path processor) = true) /\
  (is_file fresh_world (processed_path processor) = false ->
   is_dir (@DataProcessor_init Sim.lib "data/" fresh_world).1 (processed_path processor)
     = true) /\
  files (@DataProcessor_init Sim.lib "data/" fresh_world).1 = files fresh_world /\
  heap (@DataProcessor_init Sim.lib "data/" fresh_world).1 = heap fresh_world /\
  rng (@DataProcessor_init Sim.lib "data/" fresh_world).1 = rng fresh_world /\
  dirs fresh_world ⊆ dirs (@DataProcessor_init Sim.lib "data/" fresh_world).1.
Proof.
  apply (init_creates_directories (lib := Sim.lib) "data/" fresh_world).
  apply pair_with_snd. vm_compute. reflexivity.
Defined.

Lemma init_idempotent_witness :
  @DataProcessor_init Sim.lib "data/" (@DataProcessor_init Sim.lib "data/" fresh_world).1
  = ((@DataProcessor_init Sim.lib "data/" fresh_world).1, Ok processor).
Proof.
  apply (init_idempotent (lib := Sim.lib) "data/" fresh_world).
  apply pair_with_snd. vm_compute. reflexivity.
Defined.


(** ** The script *)

Lemma sample_period :
  timestamp_date (time_fold Z.min (date_range_hourly sample_start n_samples))
    = Some (2023, 1, 1) /\
  timestamp_date (time_fold Z.max (date_range_hourly sample_start n_samples))
    = Some (2023, 2, 11).
Proof. split; vm_compute; reflexivity. Qed.

Section Main.
Context {lib : Library}.

Lemma with_frame_read {A : Type} (r : nat) (m : F A) (w : World) (T : DataFrame)
    (res : result A) :
  heap w !! r = Some T -> m T = (T, res) -> with_frame r m w = (w, res).
Proof.
  intros H Hm. unfold with_frame. rewrite H, Hm.
  rewrite list_insert_id by done. unfold set_heap. by rewrite world_eta.
Qed.

Lemma getitem_read {A : Type} (c : string) (f : Series -> result A) (T : DataFrame)
    (s : Series) :
  frame_get c T = Some s ->
  (s0 ← getitem c; lift_result (f s0)) T = (T, f s).
Proof. intros H. unfold mbind, SE_bind, getitem, lift_result. by rewrite H. Qed.

Lemma getitem_pure {A : Type} (c : string) (f : Series -> A) (T : DataFrame) (s : Series) :
  frame_get c T = Some s ->
  (s0 ← getitem c; mret (f s0)) T = (T, Ok (f s)).
Proof. intros H. unfold mbind, SE_bind, getitem. by rewrite H. Qed.

(** The two data directories of the default processor, in a world where
    no plain file is named [data]. *)
Lemma init_default (w : World) :
  is_file w "data" = false ->
  exists w1,
    DataProcessor_init "data/" w = (w1, Ok (mkDataProcessor "data/" "data/raw" "data/processed")) /\
    files w1 = files w /\ heap w1 = heap w /\
    (forall p, p ∉ ["data"; "data/raw"; "data/processed"] -> is_dir w1 p = is_dir w p) /\
    is_file w1 "data/raw" || is_dir w1 "data/raw" = true /\
    (is_file w "data/processed" = false -> is_dir w1 "data/processed" = true).
Proof.
  intros Hdata. rewrite DataProcessor_init_run. cbv zeta.
  change (path_join "data/" "raw") with "data/raw".
  change (path_join "data/" "processed") with "data/processed".
  rewrite create_directories_run. cbn [raw_path processed_path].
  assert (Hstep : forall d w0,
            d = "data/raw" \/ d = "data/processed" -> is_file w0 "data" = false ->
            exists w1, ensure_directory d w0 = (w1, Ok tt) /\
              files w1 = files w0 /\ heap w1 = heap w0 /\
              (forall p, p <> "data" -> p <> d -> is_dir w1 p = is_dir w0 p) /\
              is_file w1 d || is_dir w1 d = true /\
              (is_file w0 d = false -> is_dir w1 d = true)).
  { intros d w0 Hd Hf. rewrite ensure_directory_run.
    destruct (is_file w0 d || is_dir w0 d) eqn:E.
    - exists w0. split_and!; try done. intros Hfd. by rewrite Hfd in E.
    - apply orb_false_elim in E as [Efile Edir].
      assert (Ha : ancestors (String.length d) d = [d; "data"])
        by (by destruct Hd as [-> | ->]).
      rewrite Ha. cbn [existsb]. rewrite Efile, Hf. cbn [orb].
      assert (Hnew : is_dir (set_dirs (list_to_set [d; "data"] ∪ dirs w0) w0) d = true).
      { unfold is_dir, set_dirs. cbn [dirs]. apply orb_true_iff. right.
        apply bool_decide_eq_true. apply elem_of_union. left.
        apply elem_of_list_to_set. apply elem_of_cons. by left. }
      eexists. split_and!; try done.
      + intros p Hp1 Hp2. unfold is_dir, set_dirs. cbn [dirs]. f_equal.
        apply bool_decide_ext. split.
        * intros [Hin|Hin]%elem_of_union; [|done].
          apply elem_of_list_to_set in Hin.
          repeat (apply elem_of_cons in Hin as [->|Hin]; [done|]).
          by apply elem_of_nil in Hin.
        * intros Hin. apply elem_of_union. by right.
      + rewrite Hnew. apply orb_true_r. }
  destruct (Hstep "data/raw" w) as (w1 & -> & Hf1 & Hh1 & Hd1 & Hr1 & _); [by left|done|].
  destruct (Hstep "data/processed" w1) as (w2 & -> & Hf2 & Hh2 & Hd2 & _ & Hp2);
    [by right|by unfold is_file in *; rewrite Hf1|].
  exists w2. split_and!; try congruence.
  - intros p Hp. rewrite !not_elem_of_cons in Hp. destruct Hp as (? & ? & ? & _).
    rewrite Hd2, Hd1 by done. done.
  - unfold is_file in *. rewrite Hf2. by rewrite Hd2.
  - intros Hfp. apply Hp2. unfold is_file in *. by rewrite Hf1.
Qed.

(** X16.  The script lets through no exception but the constructor's.  An
    exception raised by the pipeline is caught and reported on the
    standard output, after the heading, and [main] returns normally. *)
Theorem main_catches_pipeline_errors (w : World) (out : list line) :
  match DataProcessor_init "data/" w with
  | (w1, Raise e) => main (w, out) = ((w1, out ++ heading), Raise e)
  | (w1, Ok processor) =>
      (main (w, out)).2 = Ok tt /\
      match run_pipeline processor None "datos_procesados.csv" w1 with
      | (w2, Raise e) => main (w, out) = ((w2, out ++ heading ++ [Failed e]), Ok tt)
      | (w2, Ok _) => True
      end
  end.
Proof.
  unfold heading. cbv beta iota delta [main mbind SE_bind print run try_except fst snd].
  destruct (DataProcessor_init "data/" w) as [w1 [self|e]]; cbv beta iota.
  2:{ by rewrite <- !app_assoc. }
  destruct (run_pipeline self None "datos_procesados.csv" w1) as [w2 [r|e]]; cbv beta iota.
  2:{ split; [done|]. by rewrite <- !app_assoc. }
  split; [|done].
  repeat match goal with
         | |- context [with_frame ?r ?m ?w] =>
             destruct (with_frame r m w) as [? [?|?]]; cbv beta iota
         end; done.
Qed.

(** X17.  Run in a directory where no plain file is named [data] or
    [data/processed] and [data/processed/datos_procesados.csv] is not a
    directory, the script succeeds whatever the generator draws: it
    reports 1000 jobs from 2023-01-01 to 2023-02-11 with the number of
    departments and the job types of the transformed sample, and leaves
    the text of that frame in [data/processed/datos_procesados.csv],
    having written no other file.  The frame is the one [transform_data]
    returns on the frame [_load_sample_data] builds, in any world: 1000
    rows, the eleven columns of the sample and the five derived ones. *)
Theorem main_default_run (w : World) (out : list line) :
  is_file w "data" = false -> is_file w "data/processed" = false ->
  is_dir w "data/processed/datos_procesados.csv" = false ->
  exists w' T' departamento tipo_trabajo,
    main (w, out) =
      ((w', out ++ heading ++
            [Literal (String "010"%char "📊 RESUMEN DEL PROCESAMIENTO:");
             TotalJobs 1000;
             Period (Some (2023, 1, 1)) (Some (2023, 2, 11));
             Departments (series_nunique departamento);
             JobTypes (series_unique tipo_trabajo);
             Literal "• Archivo generado: data/processed/datos_procesados.csv";
             Literal (String "010"%char "✅ Proceso completado exitosamente")]),
       Ok tt) /\
    frame_get "departamento" T' = Some departamento /\
    frame_get "tipo_trabajo" T' = Some tipo_trabajo /\
    files w' = <["data/processed/datos_procesados.csv" := pd_to_csv T']> (files w) /\
    T' ∈ heap w' /\
    is_file w' "data/raw" || is_dir w' "data/raw" = true /\
    is_dir w' "data/processed" = true /\
    (forall self1 self2 w1 w2 r1,
       _load_sample_data self1 w1 = (w2, Ok r1) ->
       exists w3 r2, transform_data self2 r1 w2 = (w3, Ok r2) /\
                     heap w3 !! r2 = Some T') /\
    columns T' =
      ["id_trabajo"; "fecha_solicitud"; "departamento"; "tipo_trabajo";
       "cantidad_paginas"; "cantidad_copias"; "prioridad"; "estado";
       "tiempo_produccion_horas"; "costo_estimado"; "material_utilizado";
       "mes"; "dia_semana"; "hora"; "costo_por_pagina"; "categoria_tamano"] /\
    nrows T' = 1000%nat.
Proof.
  intros Hdata Hproc Hout.
  destruct (init_default w Hdata) as (w1 & Hinit & Hf1 & Hh1 & Hd1 & Hraw & Hp1).
  destruct transform_steps_sample
    as (T' & Htr & Hcols & Hcols0 & Hn & Hfecha & [dep Hdep] & [tipo Htipo]).
  set (self := mkDataProcessor "data/" "data/raw" "data/processed") in *.
  destruct (run_pipeline_run self None "datos_procesados.csv" w1 sample_frame T'
              (source_table_None w1) Htr) as [g Hrun].
  { change (output_path self "datos_procesados.csv")
      with "data/processed/datos_procesados.csv".
    rewrite Hd1; [done|]. not_in_list. }
  { change (dirname (output_path self "datos_procesados.csv")) with "data/processed".
    by apply Hp1. }
  change (output_path self "datos_procesados.csv")
    with "data/processed/datos_procesados.csv" in Hrun.
  set (w2 := mkWorld (heap w1 ++ [sample_frame; T']) _ (dirs w1) g) in Hrun.
  assert (Hr : heap w2 !! S (length (heap w1)) = Some T').
  { unfold w2. simpl. rewrite lookup_app_r by lia.
    by rewrite Nat.sub_succ_l, Nat.sub_diag by lia. }
  destruct sample_period as [Hmin Hmax].
  exists w2, T', dep, tipo. split_and!.
  - unfold heading. cbv beta iota delta [main mbind SE_bind print run try_except fst snd].
    rewrite Hinit. cbv beta iota. rewrite Hrun. cbv beta iota.
    erewrite (with_frame_read _ _ w2 T' _ Hr); [|reflexivity]. cbv beta iota.
    erewrite (with_frame_read _ _ w2 T' _ Hr);
      [|unfold getitem; rewrite Hfecha; reflexivity]. cbv beta iota.
    erewrite (with_frame_read _ _ w2 T' _ Hr);
      [|unfold getitem; rewrite Hfecha; reflexivity]. cbv beta iota.
    erewrite (with_frame_read _ _ w2 T' _ Hr);
      [|unfold getitem; rewrite Hdep; reflexivity]. cbv beta iota.
    erewrite (with_frame_read _ _ w2 T' _ Hr);
      [|unfold getitem; rewrite Htipo; reflexivity]. cbv beta iota.
    unfold series_extreme_date. rewrite Hn, Hmin, Hmax. rewrite <- !app_assoc. reflexivity.
  - exact Hdep.
  - exact Htipo.
  - unfold w2. simpl. by rewrite Hf1.
  - by apply list_elem_of_lookup_2 in Hr.
  - unfold w2. change (is_dir (mkWorld _ _ (dirs w1) g)) with (is_dir w1).
    unfold is_file in *. simpl. rewrite lookup_insert_ne by done. exact Hraw.
  - unfold w2. change (is_dir (mkWorld _ _ (dirs w1) g)) with (is_dir w1). by apply Hp1.
  - intros self1 self2 wa wb r1 Hload. rewrite load_sample_data_run in Hload.
    injection Hload as <- <-.
    rewrite (transform_data_run self2 _ _ sample_frame)
      by (cbn [heap]; by rewrite list_lookup_middle).
    rewrite Htr. cbn [fst snd heap set_heap]. eexists _, _. split; [reflexivity|].
    unfold set_heap. cbn [heap]. by rewrite list_lookup_middle.
  - by rewrite Hcols, Hcols0.
  - exact Hn.
Qed.

End Main.

Lemma main_default_run_witness :
  exists w' T' departamento tipo_trabajo,
    @main Sim.lib (fresh_world, []) =
      ((w', [] ++ heading ++
            [Literal (String "010"%char "📊 RESUMEN DEL PROCESAMIENTO:");
             TotalJobs 1000;
             Period (Some (2023, 1, 1)) (Some (2023, 2, 11));
             Departments (series_nunique departamento);
             JobTypes (series_unique tipo_trabajo);
             Literal "• Archivo generado: data/processed/datos_procesados.csv";
             Literal (String "010"%char "✅ Proceso completado exitosamente")]),
       Ok tt) /\
    frame_get "departamento" T' = Some departamento /\
    frame_get "tipo_trabajo" T' = Some tipo_trabajo /\
    files w' = <["data/processed/datos_procesados.csv" := @pd_to_csv Sim.lib T']>
                 (files fresh_world) /\
    T' ∈ heap w' /\
    is_file w' "data/raw" || is_dir w' "data/raw" = true /\
    is_dir w' "data/processed" = true /\
    (forall self1 self2 w1 w2 r1,
       @_load_sample_data Sim.lib self1 w1 = (w2, Ok r1) ->
       exists w3 r2, @transform_data Sim.lib self2 r1 w2 = (w3, Ok r2) /\
                     heap w3 !! r2 = Some T') /\
    columns T' =
      ["id_trabajo"; "fecha_solicitud"; "departamento"; "tipo_trabajo";
       "cantidad_paginas"; "cantidad_copias"; "prioridad"; "estado";
       "tiempo_produccion_horas"; "costo_estimado"; "material_utilizado";
       "mes"; "dia_semana"; "hora"; "costo_por_pagina"; "categoria_tamano"] /\
    nrows T' = 1000%nat.
Proof.
  apply (main_default_run (lib := Sim.lib) fresh_world []); reflexivity.
Defined.

(** ** The identifiers and the timestamps of the sample *)

(** The number of a job is read back from its identifier. *)
Lemma sample_ids_decode :
  forallb (fun i => bool_decide
                      (Sim.number (drop 4 (list_ascii_of_string (id_trabajo i)))
                       = Some (Z.of_nat i)))
          (seq 1 n_samples) = true.
Proof. vm_compute. reflexivity. Qed.

Lemma sample_ids_distinct :
  NoDup ((fun i => Some (id_trabajo i)) <$> seq 1 n_samples).
Proof.
  apply NoDup_fmap_2_strong; [|apply NoDup_seq].
  intros i j Hi Hj Hsome.
  assert (Heq : id_trabajo i = id_trabajo j) by congruence. clear Hsome.
  pose proof sample_ids_decode as Hall. rewrite forallb_forall in Hall.
  apply list_elem_of_In in Hi, Hj.
  pose proof (Hall i Hi) as Di. pose proof (Hall j Hj) as Dj.
  apply bool_decide_eq_true in Di, Dj. rewrite Heq in Di.
  rewrite Di in Dj. injection Dj as Dj. lia.
Qed.

Lemma sample_ids_format :
  forallb (fun o : option string =>
             match o with
             | Some s => String.prefix "TRB-" s && (String.length s =? 9)%nat
             | None => false
             end)
          ((fun i => Some (id_trabajo i)) <$> seq 1 n_samples) = true.
Proof. vm_compute. reflexivity. Qed.

Section SampleShape.
Context {lib : Library}.

(** X18.  Whatever the generator draws, the sample has 1000 rows; its
    identifiers are the 1000 distinct strings TRB-00001 to TRB-01000, nine
    characters each, and its timestamps are hourly from 2023-01-01 00:00,
    none missing. *)
Theorem sample_data_shape :
  exists ids ts,
    frame_get "id_trabajo" sample_frame = Some (Object ids) /\
    frame_get "fecha_solicitud" sample_frame = Some (Datetime64 ts) /\
    nrows sample_frame = 1000%nat /\ length ts = 1000%nat /\
    NoDup ids /\
    ids !! 0%nat = Some (Some "TRB-00001") /\
    ids !! 999%nat = Some (Some "TRB-01000") /\
    (forall i o, ids !! i = Some o ->
       exists s, o = Some s /\ String.prefix "TRB-" s = true /\ String.length s = 9%nat) /\
    (forall i, (i < 1000)%nat ->
       ts !! i = Some (Some (t_jan1 + Z.of_nat i * ns_per_hour))).
Proof.
  destruct sample_frame_eq as (dep & tipo & pag & cop & pri & est & tie & cos & mat & ->).
  exists ((fun i => Some (id_trabajo i)) <$> seq 1 n_samples),
         (date_range_hourly sample_start n_samples).
  split_and!.
  - reflexivity.
  - reflexivity.
  - cbn [nrows series_len]. by rewrite length_fmap, length_seq.
  - unfold date_range_hourly. by rewrite length_fmap, length_seq.
  - apply sample_ids_distinct.
  - vm_compute. reflexivity.
  - vm_compute. reflexivity.
  - intros i o Hi. pose proof sample_ids_format as Hall.
    rewrite forallb_forall in Hall. apply list_elem_of_lookup_2, list_elem_of_In in Hi.
    specialize (Hall o Hi). destruct o as [s|]; [|discriminate].
    apply andb_true_iff in Hall as [Hp Hl]. exists s. split_and!; try done.
    by apply Nat.eqb_eq.
  - intros i Hi. rewrite sample_start_jan1 at 1.
    by apply (date_range_hourly_lookup t_jan1 n_samples i).
Qed.

End SampleShape.
